(** * Neural-ODE tutorial notebook: a shallow embedding

    The repository is two Jupyter notebooks.  Their Python code is glue
    over numpy, jax, matplotlib and keras: three function definitions
    ([init_random_params], [fcn], [NODE_gd]) and a handful of cells that
    bind names in the kernel's global namespace.

    The embedding keeps three things the way the interpreter has them:
    - the global namespace, a finite map from names to values, read at
      call time (a name that no cell has bound raises [NameError]);
    - exceptions, which abort the running cell but keep every binding the
      cell made before the failure;
    - the sequence of calls into the third-party libraries, recorded in
      order.
    The libraries themselves are an interface ([ArrayLibrary]); a model of
    it over the real numbers is given further down and used wherever a
    statement is evaluated on concrete data.

    Where the notebook's own code could be handed a value of a kind that
    none of its cells produces (a name rebound to something else by
    hand), the embedding raises [TypeError] or [AttributeError] without
    looking further at what the library would do with it. *)

From Stdlib Require Import ZArith QArith Reals Lra Lia List.
From stdpp Require Import base strings gmap list.

Local Open Scope Z_scope.

(** ** Exceptions and results *)

(** The library entry points the notebook calls, in the order they first
    appear in the source. *)
Inductive api : Type :=
  | jnp_linspace | jnp_reshape | op_pow | op_mul | op_add | op_sub
  | RandomState_new | RandomState_randn
  | jnp_dot | jnp_tanh
  | jax_grad_call
  | plt_figure | Figure_gca | Axes_scatter | Axes_plot
  | Axes_set_xlabel | Axes_set_ylabel | plt_legend
  | np_random_rand | np_array | ndarray_T
  | keras_Dense | keras_Sequential | keras_Adam | keras_MeanSquaredError
  | Model_compile | keras_ModelCheckpoint | Model_fit
  | reader_call.

Inductive exn : Type :=
  | NameError (name : string)
  | UnboundLocalError (name : string)
  | AttributeError (name : string)
  | TypeError (what : string)
  | LibraryError (where_ : api).

Inductive result (A : Type) : Type :=
  | Ok (a : A)
  | Err (e : exn).
Arguments Ok {A} a.
Arguments Err {A} e.

Definition rbind {A B} (r : result A) (k : A -> result B) : result B :=
  match r with
  | Ok a => k a
  | Err e => Err e
  end.

(** A library call that raises is seen as [None]. *)
Definition from_library {A} (f : api) (o : option A) : result A :=
  match o with
  | Some a => Ok a
  | None => Err (LibraryError f)
  end.

(** ** The library interface

    What the notebook asks of numpy, jax and keras.  An operation that
    can raise (on shapes that do not fit) returns an [option]; a Python
    number that meets an array ([0.1 * input], [step_size * dw]) is the
    rational its literal denotes, and the library decides how it is
    rounded.  numpy and jax arrays are not told apart.  The last fields
    are the facts about shapes that the libraries document and that the
    proofs rely on. *)

Class ArrayLibrary : Type := {
  array : Type;
  shape : array -> list nat;
  (* jax.numpy and the array operators *)
  np_dot : array -> array -> option array;
  np_add : array -> array -> option array;
  np_sub : array -> array -> option array;
  np_scale : Q -> array -> array;
  np_tanh : array -> array;
  np_power : array -> Z -> array;
  np_linspace : Q -> Q -> nat -> array;
  np_reshape : array -> list nat -> option array;
  np_stack : list array -> option array;
  np_transpose : array -> array;
  (* numpy.random *)
  random_state : Type;
  new_RandomState : Z -> random_state;
  randn : random_state -> list nat -> array * random_state;
  rand : random_state -> list nat -> array * random_state;
  (* what the library documents about shapes *)
  shape_randn : forall g dims, shape (fst (randn g dims)) = dims;
  shape_scale : forall c a, shape (np_scale c a) = shape a;
  shape_add : forall a b, shape a = shape b ->
    exists c, np_add a b = Some c /\ shape c = shape a;
  shape_sub : forall a b, shape a = shape b ->
    exists c, np_sub a b = Some c /\ shape c = shape a;
  shape_power : forall a n, shape (np_power a n) = shape a;
  shape_linspace : forall a b n, shape (np_linspace a b n) = [n];
  shape_reshape : forall a s,
    foldr Nat.mul 1%nat s = foldr Nat.mul 1%nat (shape a) ->
    exists c, np_reshape a s = Some c /\ shape c = s;
  (* keras: whether Model.fit takes the two arrays as samples and targets *)
  fit_accepts : array -> array -> bool
}.

(** ** A model of the library over the real numbers

    Arrays are a shape and the elements in row-major order.  Floating
    point numbers are read as the reals they stand for, and the samples
    a generator returns are a stream that the model takes as given. *)

Module RealModel.

Local Open Scope nat_scope.

Record ndarray : Type := NDArray {
  nd_shape : list nat;
  nd_data : list R
}.

Definition size_of (s : list nat) : nat := foldr Nat.mul 1 s.

Definition item (a : ndarray) (i : nat) : R := nth i (nd_data a) 0%R.

(** numpy's broadcasting rule, on shapes written innermost axis first:
    two extents agree when they are equal or one of them is 1. *)
Fixpoint broadcast_rev (s t : list nat) : option (list nat) :=
  match s, t with
  | [], _ => Some t
  | _, [] => Some s
  | a :: s', b :: t' =>
      match broadcast_rev s' t' with
      | Some r =>
          if a =? b then Some (a :: r)
          else if a =? 1 then Some (b :: r)
          else if b =? 1 then Some (a :: r)
          else None
      | None => None
      end
  end.

Definition broadcast_shapes (s t : list nat) : option (list nat) :=
  @rev nat <$> broadcast_rev (rev s) (rev t).

(** Where element [i] of the result (shape [r]) is read in an operand of
    shape [s]; both shapes innermost axis first. *)
Fixpoint source_index (s r : list nat) (i stride : nat) : nat :=
  match s, r with
  | d :: s', e :: r' =>
      (if d =? 1 then 0 else i mod e) * stride
      + source_index s' r' (i / e) (stride * d)
  | _, _ => 0
  end.

Definition elementwise (f : R -> R -> R) (a b : ndarray) : option ndarray :=
  match broadcast_shapes (nd_shape a) (nd_shape b) with
  | Some r =>
      Some (NDArray r
        (map (fun i =>
                f (item a (source_index (rev (nd_shape a)) (rev r) i 1))
                  (item b (source_index (rev (nd_shape b)) (rev r) i 1)))
             (seq 0 (size_of r))))
  | None => None
  end.

Definition sum_upto (n : nat) (f : nat -> R) : R :=
  foldr (fun l acc => (f l + acc)%R) 0%R (seq 0 n).

(** [dot]: a scalar operand multiplies; otherwise the last axis of [a]
    is contracted with the last axis of a vector [b] or the last but one
    axis of a higher-rank [b]. *)
Definition dot (a b : ndarray) : option ndarray :=
  match rev (nd_shape a), rev (nd_shape b) with
  | [], _ | _, [] => elementwise Rmult a b
  | n :: sa, [m] =>
      if n =? m then
        Some (NDArray (rev sa)
          (map (fun i => sum_upto n (fun l => (item a (i * n + l) * item b l)%R))
               (seq 0 (size_of sa))))
      else None
  | n :: sa, k :: m :: sb =>
      if n =? m then
        Some (NDArray (rev sa ++ rev sb ++ [k])
          (map (fun i =>
                  let c := i mod k in
                  let j := (i / k) mod size_of sb in
                  let r := (i / k) / size_of sb in
                  sum_upto n (fun l =>
                    (item a (r * n + l) * item b ((j * m + l) * k + c))%R))
               (seq 0 (size_of sa * size_of sb * k))))
      else None
  end.

Definition pointwise (f : R -> R) (a : ndarray) : ndarray :=
  NDArray (nd_shape a) (map f (nd_data a)).

Definition linspace (start stop : Q) (num : nat) : ndarray :=
  NDArray [num]
    (map (fun i => (Q2R start + INR i * ((Q2R stop - Q2R start) / INR (num - 1)))%R)
         (seq 0 num)).

Definition reshape (a : ndarray) (s : list nat) : option ndarray :=
  if size_of s =? size_of (nd_shape a) then Some (NDArray s (nd_data a))
  else None.

(** [np.array([a1, ..., an])] of arrays of one shape. *)
Definition stack (l : list ndarray) : option ndarray :=
  match l with
  | [] => Some (NDArray [0] [])
  | a :: _ =>
      if forallb (fun b => bool_decide (nd_shape b = nd_shape a)) l
      then Some (NDArray (length l :: nd_shape a) (concat (map nd_data l)))
      else None
  end.

(** Indices of element [i], innermost axis first, for a shape written the
    same way; and back. *)
Fixpoint unravel (s : list nat) (i : nat) : list nat :=
  match s with
  | [] => []
  | d :: s' => i mod d :: unravel s' (i / d)
  end.

Fixpoint ravel (s idx : list nat) (stride : nat) : nat :=
  match s, idx with
  | d :: s', j :: idx' => j * stride + ravel s' idx' (stride * d)
  | _, _ => 0
  end.

(** [a.T]: the axes in reverse order. *)
Definition transpose (a : ndarray) : ndarray :=
  let s := nd_shape a in
  NDArray (rev s)
    (map (fun i => item a (ravel (rev s) (rev (unravel s i)) 1))
         (seq 0 (size_of s))).

(** A generator is the stream of samples it has yet to return. *)
Definition draw (g : nat -> R) (dims : list nat) : ndarray * (nat -> R) :=
  (NDArray dims (map g (seq 0 (size_of dims))),
   fun i => g (i + size_of dims)).

Lemma broadcast_rev_same (s : list nat) : broadcast_rev s s = Some s.
Proof.
  induction s as [|a s IH]; simpl; [reflexivity|].
  rewrite IH, Nat.eqb_refl. reflexivity.
Qed.

Lemma broadcast_shapes_same (s : list nat) : broadcast_shapes s s = Some s.
Proof.
  unfold broadcast_shapes. rewrite broadcast_rev_same. simpl.
  f_equal. apply rev_involutive.
Qed.

Lemma elementwise_same_shape f a b :
  nd_shape a = nd_shape b ->
  exists c, elementwise f a b = Some c /\ nd_shape c = nd_shape a.
Proof.
  intros E. unfold elementwise. rewrite <- E, broadcast_shapes_same.
  eexists. split; reflexivity.
Qed.

Lemma reshape_same_size a s :
  size_of s = size_of (nd_shape a) ->
  exists c, reshape a s = Some c /\ nd_shape c = s.
Proof.
  intros E. unfold reshape. rewrite E, Nat.eqb_refl.
  eexists. split; reflexivity.
Qed.

(** The library, for a given family of seeded sample streams. *)
Definition real_library (noise : Z -> nat -> R) : ArrayLibrary := {|
  array := ndarray;
  shape := nd_shape;
  np_dot := dot;
  np_add := elementwise Rplus;
  np_sub := elementwise Rminus;
  np_scale := fun c => pointwise (Rmult (Q2R c));
  np_tanh := pointwise tanh;
  np_power := fun a n => pointwise (fun x => powerRZ x n) a;
  np_linspace := linspace;
  np_reshape := reshape;
  np_stack := stack;
  np_transpose := transpose;
  random_state := nat -> R;
  new_RandomState := noise;
  randn := draw;
  rand := draw;
  shape_randn := fun _ _ => eq_refl;
  shape_scale := fun _ _ => eq_refl;
  shape_add := elementwise_same_shape Rplus;
  shape_sub := elementwise_same_shape Rminus;
  shape_power := fun _ _ => eq_refl;
  shape_linspace := fun _ _ _ => eq_refl;
  shape_reshape := reshape_same_size;
  fit_accepts := fun a b =>
    bool_decide (hd_error (nd_shape a) = hd_error (nd_shape b))
|}.

End RealModel.

(** ** Values, the kernel and the evaluation monad *)

Section Notebook.
Context {L : ArrayLibrary}.

(** A parameter collection: one (weight, bias) pair per layer. *)
Abbreviation params := (list (array * array)).

(** What [import] binds. *)
Inductive module_ : Type :=
  | jax_numpy | numpy_random | jax_grad | jax_jit | jax_vmap | jax_random
  | jax_odeint | pyplot | numpy | tensorflow.

#[local] Instance module_eq_dec : EqDecision module_.
Proof. solve_decision. Defined.

(** The three functions the notebook defines with [def].  The function
    object of [init_random_params] holds the address of the RandomState
    that its default argument created when the [def] ran. *)
Inductive function : Type :=
  | F_init_random_params (default_rng : nat)
  | F_fcn
  | F_NODE_gd.

(** A function written by the reader (the notebook leaves several as
    exercises).  It is known only by what it returns in the three ways
    the notebook applies such a function; [gradient] is what
    [jax.grad(f)(theta, xs, ys)] evaluates to. *)
Record reader_function : Type := {
  on_array : array -> result array;
  on_params_array : params -> array -> result array;
  gradient : params -> array -> array -> result params
}.

Inductive value : Type :=
  | VInt (n : Z)
  | VFloat (q : Q)
  | VInts (l : list Z)
  | VArray (a : array)
  | VParams (theta : params)
  | VModule (m : module_)
  | VFunction (f : function)
  | VReader (f : reader_function)
  | VObject (class : string).

Record kernel : Type := Kernel {
  globals : gmap string value;
  rng_objects : list random_state;
  numpy_global_rng : random_state;
  calls : list api
}.

Definition M (A : Type) : Type := kernel -> result A * kernel.

Definition ret {A} (a : A) : M A := fun k => (Ok a, k).

Definition raise {A} (e : exn) : M A := fun k => (Err e, k).

Definition bind {A B} (m : M A) (f : A -> M B) : M B :=
  fun k =>
    match m k with
    | (Ok a, k') => f a k'
    | (Err e, k') => (Err e, k')
    end.

Notation "'let*' x := m 'in' f" := (bind m (fun x => f))
  (at level 10, x pattern, m at level 100, f at level 200).

Definition lift {A} (r : result A) : M A := fun k => (r, k).

(** Reading a global name. *)
Definition load_global (x : string) : M value :=
  fun k =>
    match globals k !! x with
    | Some v => (Ok v, k)
    | None => (Err (NameError x), k)
    end.

(** [x = v] at the top level of a cell. *)
Definition assign (x : string) (v : value) : M unit :=
  fun k => (Ok tt, Kernel (<[x := v]> (globals k)) (rng_objects k)
                          (numpy_global_rng k) (calls k)).

(** Every call into a library is recorded, whether it returns or raises. *)
Definition record (f : api) : M unit :=
  fun k => (Ok tt, Kernel (globals k) (rng_objects k) (numpy_global_rng k)
                          (calls k ++ [f])).

Definition library {A} (f : api) (o : option A) : M A :=
  let* _ := record f in lift (from_library f o).

Definition load_module (x : string) (m : module_) : M unit :=
  let* v := load_global x in
  match v with
  | VModule m' => if decide (m' = m) then ret tt else raise (AttributeError x)
  | _ => raise (AttributeError x)
  end.

Definition load_object (x : string) (class : string) : M unit :=
  let* v := load_global x in
  match v with
  | VObject c => if decide (c = class) then ret tt else raise (AttributeError x)
  | _ => raise (AttributeError x)
  end.

Definition load_array (x : string) : M array :=
  let* v := load_global x in
  match v with
  | VArray a => ret a
  | _ => raise (TypeError x)
  end.

Definition load_int (x : string) : M Z :=
  let* v := load_global x in
  match v with
  | VInt n => ret n
  | _ => raise (TypeError x)
  end.

(** A Python number used as a scalar factor. *)
Definition load_number (x : string) : M Q :=
  let* v := load_global x in
  match v with
  | VFloat q => ret q
  | VInt n => ret (inject_Z n)
  | _ => raise (TypeError x)
  end.

Fixpoint for_each {A} (l : list A) (body : A -> M unit) : M unit :=
  match l with
  | [] => ret tt
  | a :: l' => let* _ := body a in for_each l' body
  end.

Fixpoint fold_loop {A S} (body : S -> A -> M S) (l : list A) (s : S) : M S :=
  match l with
  | [] => ret s
  | a :: l' => let* s' := body s a in fold_loop body l' s'
  end.

(** A list comprehension. *)
Fixpoint comprehension {A B} (f : A -> M B) (l : list A) : M (list B) :=
  match l with
  | [] => ret []
  | a :: l' =>
      let* b := f a in
      let* bs := comprehension f l' in
      ret (b :: bs)
  end.

(** ** The functions of the notebook *)

(** [rng.randn(d0, d1, ...)] on the RandomState object at [loc]: the
    object is advanced in place. *)
Definition call_randn (loc : nat) (dims : list Z) : M array :=
  let* _ := record RandomState_randn in
  if forallb (Z.leb 0) dims then
    fun k =>
      match rng_objects k !! loc with
      | Some g =>
          let '(a, g') := randn g (Z.to_nat <$> dims) in
          (Ok a, Kernel (globals k) (<[loc := g']> (rng_objects k))
                        (numpy_global_rng k) (calls k))
      | None => (Err (TypeError "rng"), k)
      end
  else raise (LibraryError RandomState_randn).

(** <<
    def init_random_params( N, rng=nprand.RandomState(0)):
        return [(rng.randn(p, q), rng.randn(q))
                for p, q, in zip(N[:-1], N[1:])]
    >> *)
Definition init_layer (rng : nat) (pq : Z * Z) : M (array * array) :=
  let '(p, q) := pq in
  let* w := call_randn rng [p; q] in
  let* b := call_randn rng [q] in
  ret (w, b).

Definition init_random_params (N : list Z) (rng : nat) : M params :=
  comprehension (init_layer rng) (zip (removelast N) (tail N)).

(** <<
    def fcn(theta, xs):
        for w, b in theta:
          outputs = jnp.dot(xs, w) + b
          xs = jnp.tanh(outputs)
        return outputs
    >>
    The frame holds the two locals the loop assigns; [outputs] has no
    value until the body has run once. *)
Record fcn_frame : Type := Frame {
  xs_ : array;
  outputs_ : option array
}.

Definition fcn_body (fr : fcn_frame) (wb : array * array) : M fcn_frame :=
  let '(w, b) := wb in
  let* _ := load_module "jnp" jax_numpy in
  let* d := library jnp_dot (np_dot (xs_ fr) w) in
  let* o := library op_add (np_add d b) in
  let* _ := load_module "jnp" jax_numpy in
  let* t := library jnp_tanh (Some (np_tanh o)) in
  ret (Frame t (Some o)).

Definition fcn (theta : params) (xs : array) : M array :=
  let* fr := fold_loop fcn_body theta (Frame xs None) in
  match outputs_ fr with
  | Some o => ret o
  | None => raise (UnboundLocalError "outputs")
  end.

(** <<
    def NODE_gd(theta, xs, ys):
        gradients = grad(NODE_L2loss)(theta, xs, ys)
        return [(w - step_size * dw, b - step_size * db)
                for (w, b), (dw, db) in zip(theta, gradients)]
    >> *)
Definition descend (a da : array) : M array :=
  let* s := load_number "step_size" in
  let* t := library op_mul (Some (np_scale s da)) in
  library op_sub (np_sub a t).

Definition NODE_gd_layer (l : (array * array) * (array * array))
  : M (array * array) :=
  let '((w, b), (dw, db)) := l in
  let* w' := descend w dw in
  let* b' := descend b db in
  ret (w', b').

Definition NODE_gd (theta : params) (xs ys : array) : M params :=
  let* _ := load_module "grad" jax_grad in
  let* loss := load_global "NODE_L2loss" in
  match loss with
  | VReader f =>
      let* _ := record jax_grad_call in
      let* gradients := lift (gradient f theta xs ys) in
      comprehension NODE_gd_layer (zip theta gradients)
  | _ => raise (TypeError "NODE_L2loss")
  end.

(** Applying the value of a name to arguments. *)
Definition call_function (f : value) (args : list value) : M value :=
  match f, args with
  | VFunction (F_init_random_params rng), [VInts N] =>
      let* r := init_random_params N rng in ret (VParams r)
  | VFunction F_fcn, [VParams theta; VArray xs] =>
      let* r := fcn theta xs in ret (VArray r)
  | VFunction F_NODE_gd, [VParams theta; VArray xs; VArray ys] =>
      let* r := NODE_gd theta xs ys in ret (VParams r)
  | VReader g, [VArray xs] =>
      let* _ := record reader_call in
      let* r := lift (on_array g xs) in ret (VArray r)
  | VReader g, [VParams theta; VArray xs] =>
      let* _ := record reader_call in
      let* r := lift (on_params_array g theta xs) in ret (VArray r)
  | _, _ => raise (TypeError "call")
  end.

(** ** The cells of the Neural-ODE notebook, in source order *)

(** <<
    import jax.numpy as jnp
    import numpy.random as nprand
    from jax import grad, jit, vmap
    from jax import random
    from jax.experimental.ode import odeint
    import matplotlib.pyplot as plt
    >> *)
Definition cell_imports : M unit :=
  let* _ := assign "jnp" (VModule jax_numpy) in
  let* _ := assign "nprand" (VModule numpy_random) in
  let* _ := assign "grad" (VModule jax_grad) in
  let* _ := assign "jit" (VModule jax_jit) in
  let* _ := assign "vmap" (VModule jax_vmap) in
  let* _ := assign "random" (VModule jax_random) in
  let* _ := assign "odeint" (VModule jax_odeint) in
  assign "plt" (VModule pyplot).

(** [jnp.reshape(jnp.linspace(a, b, n), (n, 1))] *)
Definition column_linspace (a b : Q) (n : nat) : M array :=
  let* _ := load_module "jnp" jax_numpy in
  let* _ := load_module "jnp" jax_numpy in
  let* l := library jnp_linspace (Some (np_linspace a b n)) in
  library jnp_reshape (np_reshape l [n; 1%nat]).

(** <<
    input = jnp.reshape(jnp.linspace(-2.5, 2.5, 15), (15, 1))
    target = input**3 + 0.1 * input
    >> *)
Definition cell_data : M unit :=
  let* x := column_linspace (-5 # 2) (5 # 2) 15 in
  let* _ := assign "input" (VArray x) in
  let* x1 := load_array "input" in
  let* c := library op_pow (Some (np_power x1 3)) in
  let* x2 := load_array "input" in
  let* l := library op_mul (Some (np_scale (1 # 10) x2)) in
  let* t := library op_add (np_add c l) in
  assign "target" (VArray t).

(** The [def] of [init_random_params]: its default argument
    [nprand.RandomState(0)] is evaluated now, once, and the new object
    stays with the function. *)
Definition cell_def_init_random_params : M unit :=
  let* _ := load_module "nprand" numpy_random in
  let* _ := record RandomState_new in
  let* rng := (fun k =>
      (Ok (length (rng_objects k)),
       Kernel (globals k) (rng_objects k ++ [new_RandomState 0])
              (numpy_global_rng k) (calls k))) in
  assign "init_random_params" (VFunction (F_init_random_params rng)).

Definition cell_def_fcn : M unit := assign "fcn" (VFunction F_fcn).

Definition cell_def_NODE_gd : M unit := assign "NODE_gd" (VFunction F_NODE_gd).

(** <<
    NODE_width = [2, 20, 1] # layer sizes
    step_size = 0.0005 # size of training steps
    train_iters = 1000 # number of training steps

    NODE_theta = init_random_params(NODE_width)
    >> *)
Definition cell_hyperparameters : M unit :=
  let* _ := assign "NODE_width" (VInts [2; 20; 1]) in
  let* _ := assign "step_size" (VFloat (5 # 10000)) in
  let* _ := assign "train_iters" (VInt 1000) in
  let* f := load_global "init_random_params" in
  let* n := load_global "NODE_width" in
  let* r := call_function f [n] in
  assign "NODE_theta" r.

(** <<
    for i in range(train_iters):
        NODE_theta = NODE_gd(NODE_theta, input, target)
    >> *)
Definition training_step (i : nat) : M unit :=
  let* _ := assign "i" (VInt (Z.of_nat i)) in
  let* f := load_global "NODE_gd" in
  let* theta := load_global "NODE_theta" in
  let* xs := load_global "input" in
  let* ys := load_global "target" in
  let* r := call_function f [theta; xs; ys] in
  assign "NODE_theta" r.

Definition cell_training_loop : M unit :=
  let* n := load_int "train_iters" in
  for_each (seq 0 (Z.to_nat n)) training_step.

(** <<
    fig = plt.figure(figsize=(6, 4), dpi=150)
    ax = fig.gca()
    ax.scatter(input, target, lw=0.5, color='red')
    new_inputs = jnp.reshape(jnp.linspace(-3.0, 3.0, 300), (300, 1))
    ax.plot(new_inputs, batched_ODESolve(NODE_theta, new_inputs), lw=0.5, color='green')
    ax.set_xlabel('input')
    ax.set_ylabel('output')
    plt.legend(('Neural ODE'))
    >>
    The drawing calls are recorded and taken to return. *)
Definition cell_plot : M unit :=
  let* _ := load_module "plt" pyplot in
  let* _ := record plt_figure in
  let* _ := assign "fig" (VObject "Figure") in
  let* _ := load_object "fig" "Figure" in
  let* _ := record Figure_gca in
  let* _ := assign "ax" (VObject "Axes") in
  let* _ := load_object "ax" "Axes" in
  let* _ := load_global "input" in
  let* _ := load_global "target" in
  let* _ := record Axes_scatter in
  let* x := column_linspace (-3) 3 300 in
  let* _ := assign "new_inputs" (VArray x) in
  let* _ := load_object "ax" "Axes" in
  let* _ := load_global "new_inputs" in
  let* f := load_global "batched_ODESolve" in
  let* theta := load_global "NODE_theta" in
  let* xs := load_global "new_inputs" in
  let* _ := call_function f [theta; xs] in
  let* _ := record Axes_plot in
  let* _ := load_object "ax" "Axes" in
  let* _ := record Axes_set_xlabel in
  let* _ := load_object "ax" "Axes" in
  let* _ := record Axes_set_ylabel in
  let* _ := load_module "plt" pyplot in
  record plt_legend.

(** <<
    import numpy as np
    import matplotlib.pyplot as plt
    import tensorflow as tf
    >> *)
Definition cell_imports_oscillator : M unit :=
  let* _ := assign "np" (VModule numpy) in
  let* _ := assign "plt" (VModule pyplot) in
  assign "tf" (VModule tensorflow).

(** [f(input)] for a global function name [f]. *)
Definition apply_to_input (f : string) : M array :=
  let* g := load_global f in
  let* x := load_global "input" in
  let* r := call_function g [x] in
  match r with
  | VArray a => ret a
  | _ => raise (TypeError f)
  end.

(** <<
    input = np.random.rand(200)*30
    target = np.array([y(input), y_prime(input)]).T
    >> *)
Definition cell_oscillator_data : M unit :=
  let* _ := load_module "np" numpy in
  let* _ := record np_random_rand in
  let* u := (fun k =>
      let '(a, g) := rand (numpy_global_rng k) [200%nat] in
      (Ok a, Kernel (globals k) (rng_objects k) g (calls k))) in
  let* x := library op_mul (Some (np_scale 30 u)) in
  let* _ := assign "input" (VArray x) in
  let* _ := load_module "np" numpy in
  let* a := apply_to_input "y" in
  let* b := apply_to_input "y_prime" in
  let* s := library np_array (np_stack [a; b]) in
  let* t := library ndarray_T (Some (np_transpose s)) in
  assign "target" (VArray t).

(** [tf.keras.layers.Dense(n, activation=tf.nn.tanh, ...)] *)
Definition dense_tanh : M unit :=
  let* _ := load_module "tf" tensorflow in
  let* _ := load_module "tf" tensorflow in
  record keras_Dense.

(** <<
    ODE_model = tf.keras.Sequential([
        tf.keras.layers.Dense(100, activation=tf.nn.tanh, input_shape=(1,)),
        tf.keras.layers.Dense(100, activation=tf.nn.tanh),
        tf.keras.layers.Dense(2)
    ])
    ODE_model.compile(
        optimizer=tf.keras.optimizers.Adam(0.01),
        loss=tf.keras.losses.MeanSquaredError()
    )
    >> *)
Definition cell_model : M unit :=
  let* _ := load_module "tf" tensorflow in
  let* _ := dense_tanh in
  let* _ := dense_tanh in
  let* _ := load_module "tf" tensorflow in
  let* _ := record keras_Dense in
  let* _ := record keras_Sequential in
  let* _ := assign "ODE_model" (VObject "Sequential") in
  let* _ := load_object "ODE_model" "Sequential" in
  let* _ := load_module "tf" tensorflow in
  let* _ := record keras_Adam in
  let* _ := load_module "tf" tensorflow in
  let* _ := record keras_MeanSquaredError in
  record Model_compile.

(** <<
    checkpoint = tf.keras.callbacks.ModelCheckpoint("weights",
        save_weights_only=True, monitor="loss", verbose=1, save_best_only=True)
    >> *)
Definition cell_checkpoint : M unit :=
  let* _ := load_module "tf" tensorflow in
  let* _ := record keras_ModelCheckpoint in
  assign "checkpoint" (VObject "ModelCheckpoint").

(** <<
    history = ODE_model.fit(input, target, epochs=4500, batch_size=100,
        callbacks=[checkpoint])
    >> *)
Definition cell_fit : M unit :=
  let* _ := load_object "ODE_model" "Sequential" in
  let* x := load_global "input" in
  let* y := load_global "target" in
  let* _ := load_global "checkpoint" in
  let* _ := library Model_fit
              match x, y with
              | VArray a, VArray b => if fit_accepts a b then Some tt else None
              | _, _ => None
              end in
  assign "history" (VObject "History").

Definition notebook : list (M unit) :=
  [ cell_imports; cell_data; cell_def_init_random_params; cell_def_fcn;
    cell_def_NODE_gd; cell_hyperparameters; cell_training_loop; cell_plot;
    cell_imports_oscillator; cell_oscillator_data; cell_model;
    cell_checkpoint; cell_fit ].

(** A kernel that has run nothing; [entropy] is the state numpy's own
    generator starts in. *)
Definition fresh_kernel (entropy : random_state) : kernel :=
  Kernel ∅ [] entropy [].

(** Running cells one after the other; a cell that raises leaves the
    kernel as it was at the raise, and the next cell is run all the same. *)
Fixpoint run_cells (cells : list (M unit)) (k : kernel)
  : list (result unit) * kernel :=
  match cells with
  | [] => ([], k)
  | c :: cells' =>
      let '(r, k') := c k in
      let '(rs, k'') := run_cells cells' k' in
      (r :: rs, k'')
  end.

(** What a library entry point is for. *)
Inductive purpose : Type :=
  | ArrayArithmetic | RandomNumbers | Differentiation | Plotting
  | Layers | Optimizer | Loss | Training | ReaderCode.

Definition purpose_of (f : api) : purpose :=
  match f with
  | jnp_linspace | jnp_reshape | op_pow | op_mul | op_add | op_sub
  | jnp_dot | jnp_tanh | np_array | ndarray_T => ArrayArithmetic
  | RandomState_new | RandomState_randn | np_random_rand => RandomNumbers
  | jax_grad_call => Differentiation
  | plt_figure | Figure_gca | Axes_scatter | Axes_plot
  | Axes_set_xlabel | Axes_set_ylabel | plt_legend => Plotting
  | keras_Dense | keras_Sequential => Layers
  | keras_Adam => Optimizer
  | keras_MeanSquaredError => Loss
  | Model_compile | keras_ModelCheckpoint | Model_fit => Training
  | reader_call => ReaderCode
  end.

(** ** The vocabulary of the statements

    What the functions compute, written without the kernel, and the
    conditions on the namespace under which the cells are run. *)

(** *** The feedforward pass *)

(** One layer's linear transform, [jnp.dot(x, w) + b]. *)
Definition linear (x w b : array) : result array :=
  rbind (from_library jnp_dot (np_dot x w))
        (fun d => from_library op_add (np_add d b)).

(** One layer in full: the linear transform, then [tanh]. *)
Definition layer (x : array) (wb : array * array) : result array :=
  rbind (linear x (fst wb) (snd wb)) (fun o => Ok (np_tanh o)).

(** The layers composed, first to last. *)
Fixpoint layers (theta : params) (x : array) : result array :=
  match theta with
  | [] => Ok x
  | wb :: theta' => rbind (layer x wb) (layers theta')
  end.

(** [fcn] reads one global, the module [jnp]. *)
Definition jnp_imported (k : kernel) : Prop :=
  globals k !! "jnp" = Some (VModule jax_numpy).

(** The [xs] of a frame of [fcn]'s loop, when the loop got that far. *)
Definition frame_input (r : result fcn_frame) : result array :=
  rbind r (fun fr => Ok (xs_ fr)).

(** The library calls of one layer, in the order the body makes them. *)
Definition layer_calls : list api := [jnp_dot; op_add; jnp_tanh].

(** [k] with the calls [cs] made after those it has recorded. *)
Definition with_calls (k : kernel) (cs : list api) : kernel :=
  Kernel (globals k) (rng_objects k) (numpy_global_rng k) (calls k ++ cs).

(** *** The layout of a parameter collection *)

(** The (rows, columns) of each layer's weight: [zip(N[:-1], N[1:])]. *)
Definition layer_sizes {A} (N : list A) : list (A * A) :=
  zip (removelast N) (tail N).

(** A weight of shape (p, q) with a bias of shape (q,). *)
Definition layer_shaped (pq : nat * nat) (wb : array * array) : Prop :=
  shape (fst wb) = [fst pq; snd pq] /\ shape (snd wb) = [snd pq].

(** [theta] has one pair per consecutive pair of sizes in [N], the weight
    of shape (N[i], N[i+1]) and the bias of shape (N[i+1],). *)
Definition has_layout (N : list nat) (theta : params) : Prop :=
  Forall2 layer_shaped (layer_sizes N) theta.

(** [k] with the generator at [loc] advanced to [g]. *)
Definition with_rng (k : kernel) (loc : nat) (g : random_state) : kernel :=
  Kernel (globals k) (<[loc := g]> (rng_objects k)) (numpy_global_rng k)
         (calls k).

(** *** One gradient-descent step *)

(** [a - step_size * da] *)
Definition updated (s : Q) (a da : array) : result array :=
  from_library op_sub (np_sub a (np_scale s da)).

(** The update of one layer from its (weight, bias) and their gradients. *)
Definition gd_layer (s : Q) (l : (array * array) * (array * array))
  : result (array * array) :=
  rbind (updated s (fst (fst l)) (fst (snd l))) (fun w' =>
  rbind (updated s (snd (fst l)) (snd (snd l))) (fun b' =>
  Ok (w', b'))).

(** [f] on each element, stopping at the first error. *)
Fixpoint rmap {A B} (f : A -> result B) (l : list A) : result (list B) :=
  match l with
  | [] => Ok []
  | a :: l' =>
      rbind (f a) (fun b => rbind (rmap f l') (fun bs => Ok (b :: bs)))
  end.

(** The parameters after one step from [theta], for the loss [f] and the
    step size [s]. *)
Definition gd_step (f : reader_function) (s : Q) (xs ys : array)
    (theta : params) : result params :=
  rbind (gradient f theta xs ys) (fun g => rmap (gd_layer s) (zip theta g)).

(** The parameters after each of [n] steps. *)
Fixpoint trajectory (n : nat) (step : params -> result params)
    (theta : params) : result (list params) :=
  match n with
  | O => Ok []
  | S n' =>
      rbind (step theta) (fun theta' =>
      rbind (trajectory n' step theta') (fun rest => Ok (theta' :: rest)))
  end.

(** The library calls that update one layer, and those of one step that
    ends with the parameters [theta']. *)
Definition update_calls : list api := [op_mul; op_sub; op_mul; op_sub].

Definition step_calls (theta' : params) : list api :=
  jax_grad_call :: concat (replicate (length theta') update_calls).

(** The names [NODE_gd] reads from the namespace when it is called. *)
Record gd_ready (k : kernel) (f : reader_function) (s : Q) : Prop := {
  ready_grad : globals k !! "grad" = Some (VModule jax_grad);
  ready_loss : globals k !! "NODE_L2loss" = Some (VReader f);
  ready_step_size : globals k !! "step_size" = Some (VFloat s)
}.

(** Two layers whose weights, and whose biases, have equal shapes. *)
Definition same_shapes (wb wb' : array * array) : Prop :=
  shape (fst wb) = shape (fst wb') /\ shape (snd wb) = shape (snd wb').

(** The names the loop reads, with the values it finds. *)
Record loop_ready (k : kernel) (f : reader_function) (s : Q)
    (xs ys : array) (theta : params) : Prop := {
  loop_gd : gd_ready k f s;
  loop_NODE_gd : globals k !! "NODE_gd" = Some (VFunction F_NODE_gd);
  loop_input : globals k !! "input" = Some (VArray xs);
  loop_target : globals k !! "target" = Some (VArray ys);
  loop_theta : globals k !! "NODE_theta" = Some (VParams theta)
}.

(** The kernel [k] once an iteration with counter [i] has stored
    [theta] and recorded the calls [cs]: nothing else differs. *)
Definition after_iteration (k : kernel) (i : Z) (theta : params)
    (cs : list api) : kernel :=
  Kernel (<["NODE_theta" := VParams theta]> (<["i" := VInt i]> (globals k)))
         (rng_objects k) (numpy_global_rng k) (calls k ++ cs).

(** *** Library calls by purpose *)

Definition is_optimizer (c : api) : bool :=
  match purpose_of c with
  | Optimizer => true
  | _ => false
  end.

(** The model cell reads one global, the module [tf]. *)
Definition tf_imported (k : kernel) : Prop :=
  globals k !! "tf" = Some (VModule tensorflow).

(** The library calls of the model cell, [Adam] among them. *)
Definition model_calls : list api :=
  [keras_Dense; keras_Dense; keras_Dense; keras_Sequential; keras_Adam;
   keras_MeanSquaredError; Model_compile].

(** *** Names *)

(** Every name that some cell of the notebook assigns. *)
Definition notebook_names : list string :=
  [ "jnp"; "nprand"; "grad"; "jit"; "vmap"; "random"; "odeint"; "plt";
    "input"; "target"; "init_random_params"; "fcn"; "NODE_gd";
    "NODE_width"; "step_size"; "train_iters"; "NODE_theta"; "i";
    "fig"; "ax"; "new_inputs"; "np"; "tf"; "ODE_model"; "checkpoint";
    "history" ].

(** The functions the notebook uses and leaves to the reader. *)
Definition exercise_names : list string :=
  [ "NODE_L2loss"; "batched_ODESolve"; "y"; "y_prime" ].

(** [m] changes the binding of no name outside [notebook_names]. *)
Definition assigns_within {A} (m : M A) : Prop :=
  forall k x, x ∉ notebook_names ->
    globals (snd (m k)) !! x = globals k !! x.

(** [m] leaves the namespace as it found it. *)
Definition keeps_globals {A} (m : M A) : Prop :=
  forall k, globals (snd (m k)) = globals k.

Definition unbound (k : kernel) (x : string) : Prop := globals k !! x = None.

(** What the training-loop cell reads before [NODE_gd] is entered. *)
Record training_ready (k : kernel) : Prop := {
  tr_iters : exists n, globals k !! "train_iters" = Some (VInt n) /\ 0 < n;
  tr_NODE_gd : globals k !! "NODE_gd" = Some (VFunction F_NODE_gd);
  tr_theta : exists theta, globals k !! "NODE_theta" = Some (VParams theta);
  tr_input : exists xs, globals k !! "input" = Some (VArray xs);
  tr_target : exists ys, globals k !! "target" = Some (VArray ys);
  tr_grad : globals k !! "grad" = Some (VModule jax_grad)
}.

(** What the plotting cell reads before it comes to [batched_ODESolve]. *)
Record plot_ready (k : kernel) : Prop := {
  pl_plt : globals k !! "plt" = Some (VModule pyplot);
  pl_jnp : globals k !! "jnp" = Some (VModule jax_numpy);
  pl_input : exists v, globals k !! "input" = Some v;
  pl_target : exists v, globals k !! "target" = Some v
}.

(** The library calls of the plotting cell before the unbound name. *)
Definition plot_calls : list api :=
  [plt_figure; Figure_gca; Axes_scatter; jnp_linspace; jnp_reshape].

(** *** The notebook run from the top *)

(** The namespace after the first six cells, over the namespace [m]
    they started from, for the arrays and the parameters that the
    library calls returned. *)
Definition setup_globals (m : gmap string value) (x t : array)
    (theta : params) : gmap string value :=
  <["NODE_theta" := VParams theta]>
  (<["train_iters" := VInt 1000]>
  (<["step_size" := VFloat (5 # 10000)]>
  (<["NODE_width" := VInts [2; 20; 1]]>
  (<["NODE_gd" := VFunction F_NODE_gd]>
  (<["fcn" := VFunction F_fcn]>
  (<["init_random_params" := VFunction (F_init_random_params 0)]>
  (<["target" := VArray t]>
  (<["input" := VArray x]>
  (<["plt" := VModule pyplot]>
  (<["odeint" := VModule jax_odeint]>
  (<["random" := VModule jax_random]>
  (<["vmap" := VModule jax_vmap]>
  (<["jit" := VModule jax_jit]>
  (<["grad" := VModule jax_grad]>
  (<["nprand" := VModule numpy_random]>
  (<["jnp" := VModule jax_numpy]> m)))))))))))))))).

(** The library calls of the first six cells. *)
Definition setup_calls : list api :=
  [ jnp_linspace; jnp_reshape; op_pow; op_mul; op_add; RandomState_new;
    RandomState_randn; RandomState_randn; RandomState_randn;
    RandomState_randn ].

(** *** Drawing the parameters *)

(** The (weight, bias) of one layer drawn from the generator [g], then
    the generator as the two calls leave it: [rng.randn(p, q)] first,
    [rng.randn(q)] second. *)
Definition sample_layer (g : random_state) (pq : nat * nat)
  : (array * array) * random_state :=
  let (w, g1) := randn g [fst pq; snd pq] in
  let (b, g2) := randn g1 [snd pq] in
  ((w, b), g2).

(** The layers drawn one after the other from the same generator. *)
Fixpoint sample_layers (g : random_state) (l : list (nat * nat))
  : params * random_state :=
  match l with
  | [] => ([], g)
  | pq :: l' =>
      let (wb, g1) := sample_layer g pq in
      let (theta, g2) := sample_layers g1 l' in
      (wb :: theta, g2)
  end.

(** What the hyperparameter cell draws from [g] for its sizes
    [2, 20, 1], and the generator afterwards. *)
Definition NODE_draw (g : random_state) : params * random_state :=
  sample_layers g (layer_sizes [2; 20; 1]%nat).

(** The library calls of [init_random_params] for [n] layers. *)
Definition init_calls (n : nat) : list api :=
  concat (replicate n [RandomState_randn; RandomState_randn]).

(** *** What a computation leaves of the kernel *)

(** [m] changes nothing of the kernel but the record of calls, which it
    extends. *)
Definition only_records {A} (m : M A) : Prop :=
  forall k, exists cs, snd (m k) = with_calls k cs.

(** *** The remaining cells *)


(** *** Shapes through a layer *)

(** What the libraries document about the three calls of a layer on a
    batch of [n] rows: the product of an (n, p) by a (p, q) array is
    (n, q), adding a (q,) bias broadcasts over the rows, and [tanh]
    keeps the shape. *)
Record batch_shapes : Prop := {
  dot_shape : forall a w n p q,
    shape a = [n; p] -> shape w = [p; q] ->
    exists d, np_dot a w = Some d /\ shape d = [n; q];
  add_bias_shape : forall d b n q,
    shape d = [n; q] -> shape b = [q] ->
    exists c, np_add d b = Some c /\ shape c = [n; q];
  tanh_shape : forall a, shape (np_tanh a) = shape a
}.

(** ** The KL notebook: the cell that lays out the images

    <<
    if K.image_data_format() == 'channels_first':
        i_train = i_train.reshape(i_train.shape[0],3, img_width, img_height)
        i_test = i_test.reshape(i_test.shape[0], 3, img_width, img_height)
        i_shape = (3, img_width, img_height)
    else:
        i_train = i_train.reshape(i_train.shape[0], img_width, img_height, 3)
        i_test = i_test.reshape(i_test.shape[0], img_width, img_height, 3)
        i_shape = (img_width  , img_height, 3)
    >>
    The rest of that notebook is one library call after the other on
    data that the library downloads.  This cell is run here on the
    values of the names it reads: [format] is what
    [K.image_data_format()] returns, [img_width] and [img_height] are
    the two numbers of the configuration cell. *)

(** The three names the cell rebinds; [i_shape] has no value before
    the cell has run. *)
Record images : Type := Images {
  i_train : array;
  i_test : array;
  i_shape : option (list nat)
}.

Inductive layout_error : Type :=
  | IndexError   (* [a.shape[0]] of an array without axes *)
  | ValueError.  (* [reshape] to a shape of another size *)

(** [a.reshape(a.shape[0], d1, d2, d3)] *)
Definition reshape_samples (a : array) (d1 d2 d3 : nat)
  : layout_error + array :=
  match shape a with
  | [] => inl IndexError
  | n :: _ =>
      match np_reshape a [n; d1; d2; d3] with
      | Some c => inr c
      | None => inl ValueError
      end
  end.

(** The three assignments of a branch, in order; an assignment made
    before a later one raises stays. *)
Definition layout_branch (s : images) (d1 d2 d3 : nat)
  : option layout_error * images :=
  match reshape_samples (i_train s) d1 d2 d3 with
  | inl e => (Some e, s)
  | inr tr =>
      match reshape_samples (i_test s) d1 d2 d3 with
      | inl e => (Some e, Images tr (i_test s) (i_shape s))
      | inr te => (None, Images tr te (Some [d1; d2; d3]))
      end
  end.

Definition cell_layout (format : string) (img_width img_height : nat)
    (s : images) : option layout_error * images :=
  if String.eqb format "channels_first"
  then layout_branch s 3 img_width img_height
  else layout_branch s img_width img_height 3.

End Notebook.

(** * Concrete data over the real-number model *)

Module Data.
Import RealModel.

(** Generators that only ever return 0: the statements below do not
    depend on the samples. *)
Definition quiet : Z -> nat -> R := fun _ _ => 0%R.

(** The library the notebook is run against. *)
Definition lib : ArrayLibrary := real_library quiet.

(** A kernel just started. *)
Definition k_fresh : @kernel lib := @fresh_kernel lib (fun _ => 0%R).

(** The kernel after the first [n] cells of the notebook, run from the
    top. *)
Definition after (n : nat) : @kernel lib :=
  snd (@run_cells lib (take n (@notebook lib)) k_fresh).

(** ** A one-layer network *)

(** One layer with two inputs and one output. *)
Definition w21 : ndarray := NDArray [2; 1]%nat [1; 1]%R.
Definition b1 : ndarray := NDArray [1]%nat [1%R].
Definition x2 : ndarray := NDArray [2]%nat [0; 0]%R.

(** What the one layer gives on [x2]: the linear output, and the layer
    in full. *)
Definition o_linear : ndarray := NDArray [1]%nat [(0 * 1 + (0 * 1 + 0) + 1)%R].
Definition y_layer : ndarray :=
  NDArray [1]%nat [tanh (0 * 1 + (0 * 1 + 0) + 1)%R].

(** ** Kernels part-way through the notebook *)

(** The kernel in which cell 6 calls [init_random_params]: the imports
    and the [def] have run. *)
Definition k_defined : @kernel lib :=
  snd (@cell_def_init_random_params lib (after 1)).

(** ** A loss for Exercise 2 *)

(** An array of ones shaped like [a], and a collection of them shaped
    like [theta]. *)
Definition ones_like (a : ndarray) : ndarray :=
  NDArray (nd_shape a) (map (fun _ => 1%R) (nd_data a)).

Definition ones_for (theta : list (@array lib * @array lib))
  : list (@array lib * @array lib) :=
  map (fun wb : ndarray * ndarray => (ones_like (fst wb), ones_like (snd wb)))
      theta.

(** A loss whose gradient is 1 in every component (the sum of all the
    parameters, say): enough to run the loop. *)
Definition slope_loss : @reader_function lib := {|
  on_array := fun _ => Err (TypeError "loss");
  on_params_array := fun _ _ => Err (TypeError "loss");
  gradient := fun theta _ _ => Ok (ones_for theta)
|}.

(** Cells 1 to 6, then [NODE_L2loss] defined by the reader. *)
Definition k_exercise : @kernel lib :=
  snd (@assign lib "NODE_L2loss" (VReader slope_loss) (after 6)).

(** ** Data for the further properties *)

(** Generators that count: sample [i] is the number [i], for every
    seed; the library over them, and a kernel holding one RandomState
    object. *)
Definition counting : Z -> nat -> R := fun _ i => INR i.

Definition lib_counting : ArrayLibrary := real_library counting.

Definition k_counting : @kernel lib_counting :=
  Kernel ∅ [@new_RandomState lib_counting 0]
         (@new_RandomState lib_counting 0) [].

(** The number of samples that the layers of sizes [l] take: a weight
    of [p * q] numbers and a bias of [q] for each. *)
Definition param_count (l : list (nat * nat)) : nat :=
  foldr (fun pq acc => (fst pq * snd pq + snd pq + acc)%nat) 0%nat l.

(** The numbers of a parameter collection, layer after layer, each
    weight (row by row) before its bias. *)
Definition flatten (theta : list (ndarray * ndarray)) : list R :=
  concat (map (fun wb => nd_data (fst wb) ++ nd_data (snd wb)) theta).

(** A loss whose gradient has no entry, and one whose gradient raises. *)
Definition no_gradient_loss : @reader_function lib := {|
  on_array := fun _ => Err (TypeError "loss");
  on_params_array := fun _ _ => Err (TypeError "loss");
  gradient := fun _ _ _ => Ok []
|}.

Definition failing_loss : @reader_function lib := {|
  on_array := fun _ => Err (TypeError "loss");
  on_params_array := fun _ _ => Err (TypeError "loss");
  gradient := fun _ _ _ => Err (TypeError "loss")
|}.

(** Cells 1 to 6, then [NODE_L2loss] bound to [f]. *)
Definition k_with_loss (f : @reader_function lib) : @kernel lib :=
  snd (@assign lib "NODE_L2loss" (VReader f) (after 6)).

(** The imports and a loss, but no [step_size]. *)
Definition k_no_step_size : @kernel lib :=
  snd (@assign lib "NODE_L2loss" (VReader slope_loss) (after 1)).

(** Nothing but a count of zero. *)
Definition k_no_iterations : @kernel lib :=
  snd (@assign lib "train_iters" (VInt 0) k_fresh).

(** The imports of the oscillator example alone. *)
Definition k_oscillator : @kernel lib :=
  snd (@cell_imports_oscillator lib k_fresh).

(** A batch of one row with two columns. *)
Definition x12 : ndarray := NDArray [1; 2]%nat [0; 0]%R.

(** Two images and one image of one pixel, channels last. *)
Definition tiny_train : ndarray :=
  NDArray [2; 1; 1; 3]%nat [0; 0; 0; 0; 0; 0]%R.

Definition tiny_test : ndarray := NDArray [1; 1; 1; 3]%nat [0; 0; 0]%R.

Definition tiny_images : @images lib := @Images lib tiny_train tiny_test None.

(** A function of the reader that returns, for every array, an array of
    the same shape (as a function applied to each sample does); the
    one that hands its argument back; and a fresh kernel in which the
    two functions of the oscillator exercise are bound to it. *)
Definition keeps_shape (noise : Z -> nat -> R)
    (f : @reader_function (real_library noise)) : Prop :=
  forall x, exists a, on_array f x = Ok a /\ nd_shape a = nd_shape x.

Definition same_array : @reader_function lib := {|
  on_array := fun x => Ok x;
  on_params_array := fun _ x => Ok x;
  gradient := fun _ _ _ => Err (TypeError "loss")
|}.

Definition k_with_y : @kernel lib :=
  snd (@assign lib "y_prime" (VReader same_array)
         (snd (@assign lib "y" (VReader same_array) k_fresh))).


End Data.

(** * Properties of the notebook, for any library *)

Section Properties.
Context {L : ArrayLibrary}.

Abbreviation params := (list (array * array)).

(** ** Running [fcn] *)

Lemma fold_loop_app {A S} (body : S -> A -> M S) (l1 l2 : list A) (s : S) k :
  fold_loop body (l1 ++ l2) s k =
  bind (fold_loop body l1 s) (fold_loop body l2) k.
Proof.
  revert s k. induction l1 as [|a l1 IH]; intros s k; simpl.
  - reflexivity.
  - unfold bind in *. destruct (body s a k) as [[s'|e] k']; [|reflexivity].
    apply IH.
Qed.

Lemma load_global_run x v k :
  globals k !! x = Some v -> load_global x k = (Ok v, k).
Proof. intros H. unfold load_global. rewrite H. reflexivity. Qed.

Lemma load_global_unbound x k :
  globals k !! x = None -> load_global x k = (Err (NameError x), k).
Proof. intros H. unfold load_global. rewrite H. reflexivity. Qed.

Lemma load_module_run x m k :
  globals k !! x = Some (VModule m) -> load_module x m k = (Ok tt, k).
Proof.
  intros H. unfold load_module, bind, load_global. rewrite H.
  rewrite decide_True by reflexivity. reflexivity.
Qed.

Lemma load_object_run x c k :
  globals k !! x = Some (VObject c) -> load_object x c k = (Ok tt, k).
Proof.
  intros H. unfold load_object, bind, load_global. rewrite H.
  rewrite decide_True by reflexivity. reflexivity.
Qed.

Lemma record_run f k :
  record f k =
    (Ok tt, Kernel (globals k) (rng_objects k) (numpy_global_rng k)
                   (calls k ++ [f])).
Proof. reflexivity. Qed.

Lemma assign_run x v k :
  assign x v k =
    (Ok tt, Kernel (<[x := v]> (globals k)) (rng_objects k)
                   (numpy_global_rng k) (calls k)).
Proof. reflexivity. Qed.

Lemma library_run {A} f (o : option A) k :
  library f o k =
    (from_library f o,
     Kernel (globals k) (rng_objects k) (numpy_global_rng k) (calls k ++ [f])).
Proof. reflexivity. Qed.

(** Stepping through straight-line cell code: [bound] finds what a name
    is bound to after the assignments made so far. *)
Ltac bound :=
  cbn [globals];
  repeat (rewrite lookup_insert_ne by discriminate);
  first [ apply lookup_insert_eq | eassumption ].

Ltac run1 :=
  match goal with
  | |- context [load_module ?x ?m ?k] =>
      rewrite (load_module_run x m k) by bound
  | |- context [load_object ?x ?c ?k] =>
      rewrite (load_object_run x c k) by bound
  | |- context [load_global ?x ?k] =>
      erewrite (load_global_run x _ k) by bound
  | |- context [record ?f ?k] => rewrite (record_run f k)
  | |- context [assign ?x ?v ?k] => rewrite (assign_run x v k)
  | |- context [library ?f ?o ?k] =>
      rewrite (library_run f o k); cbn [from_library]
  end.

Ltac run :=
  unfold bind;
  repeat (run1; cbn [globals rng_objects numpy_global_rng calls]).

(** One pass through the loop body: the new frame, and a kernel whose
    namespace is untouched. *)
Lemma fcn_body_run fr w b k :
  jnp_imported k ->
  fst (fcn_body fr (w, b) k) =
    rbind (linear (xs_ fr) w b) (fun o => Ok (Frame (np_tanh o) (Some o)))
  /\ globals (snd (fcn_body fr (w, b) k)) = globals k.
Proof.
  intros J. unfold jnp_imported in J.
  unfold fcn_body, linear, load_module, library, bind, load_global, record, lift,
    ret, raise. simpl. rewrite J. simpl.
  destruct (np_dot (xs_ fr) w) as [d|]; simpl; [|split; reflexivity].
  destruct (np_add d b) as [o|]; simpl; [|split; reflexivity].
  rewrite J. simpl. split; reflexivity.
Qed.

(** The loop over a prefix of the layers leaves in [xs] what the layers
    compose to. *)
Lemma fcn_loop_input theta fr k :
  jnp_imported k ->
  frame_input (fst (fold_loop fcn_body theta fr k)) = layers theta (xs_ fr)
  /\ globals (snd (fold_loop fcn_body theta fr k)) = globals k.
Proof.
  revert fr k. induction theta as [|[w b] theta IH]; intros fr k J;
    cbn [fold_loop layers].
  - split; reflexivity.
  - destruct (fcn_body_run fr w b k J) as [R G].
    unfold bind. destruct (fcn_body fr (w, b) k) as [[fr'|e] k'] eqn:E;
      simpl in R, G |- *.
    + assert (J' : jnp_imported k') by (unfold jnp_imported; rewrite G; exact J).
      destruct (IH fr' k' J') as [R' G']. rewrite R', G'. split; [|exact G].
      unfold layer. simpl. destruct (linear (xs_ fr) w b) as [o|e']; simpl in *.
      * injection R as ->. reflexivity.
      * discriminate R.
    + split; [|exact G]. unfold layer. simpl.
      destruct (linear (xs_ fr) w b) as [o|e']; simpl in *.
      * discriminate R.
      * injection R as ->. reflexivity.
Qed.

(** With at least one layer, [fcn] hands back the last layer's linear
    output: the [tanh] of the last layer is computed and dropped. *)
Lemma fcn_snoc init w b xs k :
  jnp_imported k ->
  fst (fcn (init ++ [(w, b)]) xs k) =
    rbind (layers init xs) (fun h => linear h w b).
Proof.
  intros J. unfold fcn. unfold bind at 1. rewrite fold_loop_app.
  unfold bind at 1.
  destruct (fcn_loop_input init (Frame xs None) k J) as [R G].
  destruct (fold_loop fcn_body init (Frame xs None) k) as [[fr|e] k'] eqn:E;
    cbn [fst snd frame_input rbind xs_] in R, G |- *.
  - rewrite <- R. cbn [fold_loop rbind].
    assert (J' : jnp_imported k') by (unfold jnp_imported; rewrite G; exact J).
    destruct (fcn_body_run fr w b k' J') as [R' _].
    unfold bind, ret, raise.
    destruct (fcn_body fr (w, b) k') as [[fr'|e] k''] eqn:E2; cbn [fst] in R';
      destruct (linear (xs_ fr) w b) as [o|e']; cbn [rbind] in R';
      try discriminate R'.
    + injection R' as ->. reflexivity.
    + injection R' as ->. reflexivity.
  - rewrite <- R. reflexivity.
Qed.

(** An exception raised inside the loop body is never the unbound local. *)
Lemma fcn_body_outputs fr wb k :
  match fst (fcn_body fr wb k) with
  | Ok fr' => outputs_ fr' <> None
  | Err e => e <> UnboundLocalError "outputs"
  end.
Proof.
  destruct wb as [w b]. unfold fcn_body, load_module, library, bind, load_global,
    record, lift, ret, raise. simpl.
  destruct (globals k !! "jnp") as [[]|]; simpl; try discriminate.
  destruct (decide _); simpl; try discriminate.
  destruct (np_dot (xs_ fr) w) as [d|]; simpl; try discriminate.
  destruct (np_add d b) as [o|]; simpl; try discriminate.
  destruct (globals k !! "jnp") as [[]|]; simpl; try discriminate.
  destruct (decide _); simpl; discriminate.
Qed.

Lemma fcn_loop_outputs theta fr k :
  outputs_ fr <> None ->
  match fst (fold_loop fcn_body theta fr k) with
  | Ok fr' => outputs_ fr' <> None
  | Err e => e <> UnboundLocalError "outputs"
  end.
Proof.
  revert fr k. induction theta as [|wb theta IH]; intros fr k H;
    cbn [fold_loop].
  - exact H.
  - unfold bind. pose proof (fcn_body_outputs fr wb k) as B.
    destruct (fcn_body fr wb k) as [[fr'|e] k']; cbn [fst] in *.
    + apply IH. exact B.
    + exact B.
Qed.

Lemma fcn_nonempty_bound wb theta xs k :
  fst (fcn (wb :: theta) xs k) <> Err (UnboundLocalError "outputs").
Proof.
  unfold fcn. unfold bind at 1. cbn [fold_loop]. unfold bind at 1.
  pose proof (fcn_body_outputs (Frame xs None) wb k) as B.
  destruct (fcn_body (Frame xs None) wb k) as [[fr|e] k']; cbn [fst] in *.
  - pose proof (fcn_loop_outputs theta fr k' B) as B'.
    destruct (fold_loop fcn_body theta fr k') as [[fr'|e] k'']; cbn [fst] in *.
    + destruct (outputs_ fr'); [discriminate | congruence].
    + congruence.
  - congruence.
Qed.

Lemma with_calls_nil k : with_calls k [] = k.
Proof. destruct k. unfold with_calls. simpl. rewrite app_nil_r. reflexivity. Qed.

Lemma with_calls_app k cs cs' :
  with_calls (with_calls k cs) cs' = with_calls k (cs ++ cs').
Proof. unfold with_calls. simpl. rewrite app_assoc. reflexivity. Qed.

Lemma fcn_body_ok fr w b o k :
  jnp_imported k ->
  linear (xs_ fr) w b = Ok o ->
  fcn_body fr (w, b) k =
    (Ok (Frame (np_tanh o) (Some o)), with_calls k layer_calls).
Proof.
  intros J. unfold jnp_imported in J.
  unfold fcn_body, linear, load_module, library, bind, load_global, record, lift,
    ret, raise, with_calls, layer_calls. simpl. rewrite J. simpl.
  destruct (np_dot (xs_ fr) w) as [d|]; simpl; [|discriminate].
  destruct (np_add d b) as [o'|]; simpl; [|discriminate].
  intros [= ->]. rewrite J. simpl. rewrite <- !app_assoc. reflexivity.
Qed.

(** When every layer's library calls return, the loop ends with the
    composition in [xs], an [outputs] whose [tanh] it is, and three
    recorded calls per layer. *)
Lemma fcn_loop_ok theta fr y k :
  jnp_imported k ->
  theta <> [] ->
  layers theta (xs_ fr) = Ok y ->
  exists o,
    fold_loop fcn_body theta fr k =
      (Ok (Frame y (Some o)),
       with_calls k (concat ((fun _ => layer_calls) <$> theta)))
    /\ y = np_tanh o.
Proof.
  revert fr k. induction theta as [|[w b] theta IH]; intros fr k J NE H;
    [congruence|].
  cbn [layers] in H. unfold layer in H. cbn [fst snd] in H.
  destruct (linear (xs_ fr) w b) as [o|e] eqn:E; cbn [rbind] in H;
    [|discriminate].
  cbn [fold_loop]. unfold bind. rewrite (fcn_body_ok fr w b o k J E).
  destruct theta as [|wb theta].
  - cbn in H. injection H as <-. exists o. split; [|reflexivity].
    reflexivity.
  - destruct (IH (Frame (np_tanh o) (Some o)) (with_calls k layer_calls))
      as [o' [R T]]; [exact J | discriminate | exact H |].
    exists o'. split; [|exact T]. rewrite R, with_calls_app. reflexivity.
Qed.

(** ** Properties of [fcn] *)

(** C9. [fcn] needs a non-empty parameter list.  With [theta = []] the
    loop body never runs, [outputs] is never bound and the [return]
    raises the unbound-name error.  With at least one layer the call
    returns the last layer's linear output [jnp.dot(h, w) + b], where [h]
    is what the layers before it produce (or raises what a library call
    raised), and the unbound-name error cannot occur. *)
Theorem fcn_requires_nonempty_theta (theta : params) (xs : array) (k : kernel) :
  jnp_imported k ->
  (theta = [] -> fst (fcn theta xs k) = Err (UnboundLocalError "outputs"))
  /\ (forall init w b, theta = init ++ [(w, b)] ->
        fst (fcn theta xs k) = rbind (layers init xs) (fun h => linear h w b))
  /\ (theta <> [] ->
        fst (fcn theta xs k) <> Err (UnboundLocalError "outputs")).
Proof.
  intros J. split; [|split].
  - intros ->. reflexivity.
  - intros init w b ->. apply fcn_snoc. exact J.
  - intros NE. destruct theta as [|wb theta]; [congruence|].
    apply fcn_nonempty_bound.
Qed.

(** C1, as the code has it.  For a non-empty [theta] and an input on
    which every layer's library calls return, [fcn] makes, for each
    layer in order, the calls dot, +, tanh and nothing else, leaves the
    namespace alone, and returns the linear output [o] of the last
    layer: the composition of all the per-layer steps is [tanh o], one
    [tanh] further than what is returned. *)
Theorem fcn_feedforward (theta : params) (xs y : array) (k : kernel) :
  jnp_imported k ->
  theta <> [] ->
  layers theta xs = Ok y ->
  exists o,
    fcn theta xs k =
      (Ok o, with_calls k (concat ((fun _ => layer_calls) <$> theta)))
    /\ np_tanh o = y
    /\ (forall init w b, theta = init ++ [(w, b)] ->
          rbind (layers init xs) (fun h => linear h w b) = Ok o).
Proof.
  intros J NE H.
  destruct (fcn_loop_ok theta (Frame xs None) y k J NE H) as [o [R T]].
  exists o. unfold fcn, bind. rewrite R. cbn. split; [reflexivity|].
  split; [symmetry; exact T|].
  intros init w b ->.
  rewrite <- (fcn_snoc init w b xs k J). unfold fcn, bind. rewrite R.
  reflexivity.
Qed.

(** ** The layout of a parameter collection *)

Lemma layer_sizes_cons2 {A} (a b : A) (N : list A) :
  layer_sizes (a :: b :: N) = (a, b) :: layer_sizes (b :: N).
Proof. reflexivity. Qed.

Lemma layer_sizes_length {A} (N : list A) :
  length (layer_sizes N) = Nat.pred (length N).
Proof.
  induction N as [|a [|b N] IH]; [reflexivity | reflexivity |].
  rewrite layer_sizes_cons2. cbn [length]. rewrite IH. reflexivity.
Qed.

Lemma layer_sizes_lookup {A} (N : list A) (i : nat) (p q : A) :
  layer_sizes N !! i = Some (p, q) <-> N !! i = Some p /\ N !! S i = Some q.
Proof.
  revert i. induction N as [|a [|b N] IH]; intros i.
  - split; [discriminate | intros [H _]; discriminate].
  - split; [discriminate|]. intros [_ H]. destruct i; discriminate.
  - rewrite layer_sizes_cons2. destruct i as [|i].
    + cbn. split; [intros [= -> ->]; split; reflexivity|].
      intros [[= ->] [= ->]]. reflexivity.
    + cbn [lookup list_lookup]. change ((a :: b :: N) !! S i) with ((b :: N) !! i).
      change ((a :: b :: N) !! S (S i)) with ((b :: N) !! S i). apply IH.
Qed.

Lemma layer_sizes_fmap {A B} (f : A -> B) (N : list A) :
  layer_sizes (f <$> N) = prod_map f f <$> layer_sizes N.
Proof.
  induction N as [|a [|b N] IH]; [reflexivity | reflexivity |].
  change (f <$> a :: b :: N) with (f a :: f b :: (f <$> N)).
  rewrite !layer_sizes_cons2. cbn [fmap list_fmap]. f_equal. exact IH.
Qed.

(** ** Running [init_random_params] *)

Lemma call_randn_ok loc g (dims : list nat) k :
  rng_objects k !! loc = Some g ->
  call_randn loc (Z.of_nat <$> dims) k =
    (Ok (fst (randn g dims)),
     with_rng (with_calls k [RandomState_randn]) loc (snd (randn g dims))).
Proof.
  intros H. unfold call_randn, bind, record.
  replace (forallb (Z.leb 0) (Z.of_nat <$> dims)) with true.
  2:{ symmetry. apply forallb_forall. intros z Hz. apply in_map_iff in Hz.
      destruct Hz as [n [<- _]]. apply Z.leb_le. lia. }
  cbn [rng_objects]. rewrite H.
  replace (Z.to_nat <$> (Z.of_nat <$> dims)) with dims.
  2:{ rewrite <- list_fmap_compose. symmetry. rewrite <- (list_fmap_id dims) at 2.
      apply list_fmap_ext. intros _ n _. cbn. apply Nat2Z.id. }
  destruct (randn g dims) as [a g']. reflexivity.
Qed.

Lemma with_rng_lookup k loc g g' :
  rng_objects k !! loc = Some g ->
  rng_objects (with_rng k loc g') !! loc = Some g'.
Proof.
  intros H. cbn. apply list_lookup_insert_eq. eapply lookup_lt_Some. exact H.
Qed.

Lemma init_layer_ok rng g (p q : nat) k :
  rng_objects k !! rng = Some g ->
  exists w b k' g',
    init_layer rng (Z.of_nat p, Z.of_nat q) k = (Ok (w, b), k')
    /\ layer_shaped (p, q) (w, b)
    /\ rng_objects k' !! rng = Some g'
    /\ globals k' = globals k
    /\ numpy_global_rng k' = numpy_global_rng k
    /\ calls k' = calls k ++ [RandomState_randn; RandomState_randn].
Proof.
  intros H. unfold init_layer, bind.
  change [Z.of_nat p; Z.of_nat q] with (Z.of_nat <$> [p; q]).
  rewrite (call_randn_ok rng g [p; q] k H).
  set (k1 := with_rng _ rng _).
  assert (H1 : rng_objects k1 !! rng = Some (snd (randn g [p; q])))
    by (apply (with_rng_lookup _ _ g); exact H).
  change [Z.of_nat q] with (Z.of_nat <$> [q]).
  rewrite (call_randn_ok rng _ [q] k1 H1).
  eexists _, _, _, _. split; [reflexivity|].
  split; [split; apply shape_randn|].
  split; [eapply with_rng_lookup; cbn; exact H1|].
  split; [reflexivity|]. split; [reflexivity|].
  cbn. rewrite <- app_assoc. reflexivity.
Qed.

Lemma init_layers_ok rng (l : list (nat * nat)) g k :
  rng_objects k !! rng = Some g ->
  exists theta k',
    comprehension (init_layer rng) (prod_map Z.of_nat Z.of_nat <$> l) k =
      (Ok theta, k')
    /\ Forall2 layer_shaped l theta
    /\ globals k' = globals k
    /\ numpy_global_rng k' = numpy_global_rng k
    /\ calls k' =
         calls k ++ concat ((fun _ => [RandomState_randn; RandomState_randn])
                            <$> l).
Proof.
  revert g k. induction l as [|[p q] l IH]; intros g k H.
  - exists [], k. cbn. rewrite app_nil_r. repeat split. constructor.
  - cbn [fmap list_fmap comprehension prod_map fst snd]. unfold bind.
    destruct (init_layer_ok rng g p q k H)
      as (w & b & k1 & g1 & E & S & H1 & G1 & N1 & C1).
    rewrite E. destruct (IH g1 k1 H1) as (theta & k2 & E2 & F & G2 & N2 & C2).
    rewrite E2. exists ((w, b) :: theta), k2. split; [reflexivity|].
    split; [constructor; assumption|]. split; [congruence|].
    split; [congruence|].
    rewrite C2, C1. cbn. rewrite <- !app_assoc. reflexivity.
Qed.

(** C3, as the code has it.  For every list [N] of layer sizes,
    [init_random_params(N)] returns a list of (weight, bias) pairs: as
    many as [len(N) - 1] when [N] is not empty and none when it is; the
    i-th weight has shape (N[i], N[i+1]) and the i-th bias shape
    (N[i+1],), so the columns of one layer's weight are the rows of the
    next layer's.  The namespace is left alone. *)
Theorem init_random_params_layout (N : list nat) (rng : nat)
    (g : random_state) (k : kernel) :
  rng_objects k !! rng = Some g ->
  exists theta k',
    init_random_params (Z.of_nat <$> N) rng k = (Ok theta, k')
    /\ Z.of_nat (length theta) = Z.max 0 (Z.of_nat (length N) - 1)
    /\ (forall i p q, N !! i = Some p -> N !! S i = Some q ->
          exists w b, theta !! i = Some (w, b)
                      /\ shape w = [p; q] /\ shape b = [q])
    /\ (forall i w b w' b',
          theta !! i = Some (w, b) -> theta !! S i = Some (w', b') ->
          exists p q r, shape w = [p; q] /\ shape b = [q]
                        /\ shape w' = [q; r])
    /\ globals k' = globals k.
Proof.
  intros H. unfold init_random_params.
  change (zip (removelast (Z.of_nat <$> N)) (tail (Z.of_nat <$> N)))
    with (layer_sizes (Z.of_nat <$> N)).
  rewrite layer_sizes_fmap.
  destruct (init_layers_ok rng (layer_sizes N) g k H)
    as (theta & k' & E & F & G & _).
  exists theta, k'. split; [exact E|].
  assert (Hlen : length theta = Nat.pred (length N)).
  { rewrite <- (Forall2_length _ _ _ F). apply layer_sizes_length. }
  assert (Hidx : forall i p q, N !! i = Some p -> N !! S i = Some q ->
            exists w b, theta !! i = Some (w, b)
                        /\ shape w = [p; q] /\ shape b = [q]).
  { intros i p q Hp Hq.
    assert (Hl : layer_sizes N !! i = Some (p, q))
      by (apply layer_sizes_lookup; split; assumption).
    destruct (Forall2_lookup_l _ _ _ _ _ F Hl) as ([w b] & Hw & S1 & S2).
    exists w, b. split; [exact Hw|]. split; assumption. }
  split; [lia|]. split; [exact Hidx|]. split; [|exact G].
  intros i w b w' b' Hw Hw'.
  destruct (Forall2_lookup_r _ _ _ _ _ F Hw) as ([p q] & Hl & S1 & S2).
  destruct (Forall2_lookup_r _ _ _ _ _ F Hw') as ([q' r] & Hl' & S1' & S2').
  apply layer_sizes_lookup in Hl, Hl'. destruct Hl as [_ Hq], Hl' as [Hq' _].
  assert (q' = q) as -> by congruence.
  exists p, q, r. cbn in *. repeat split; assumption.
Qed.

(** ** Running [NODE_gd] *)

Lemma rmap_length {A B} (f : A -> result B) l l' :
  rmap f l = Ok l' -> length l' = length l.
Proof.
  revert l'. induction l as [|a l IH]; intros l' H; cbn in H.
  - injection H as <-. reflexivity.
  - destruct (f a) as [b|]; cbn in H; [|discriminate].
    destruct (rmap f l) as [bs|]; cbn in H; [|discriminate].
    injection H as <-. cbn. f_equal. apply IH. reflexivity.
Qed.

Lemma descend_run s a da k :
  globals k !! "step_size" = Some (VFloat s) ->
  descend a da k = (updated s a da, with_calls k [op_mul; op_sub]).
Proof.
  intros H. unfold descend, load_number, library, bind, load_global, record, lift,
    ret, updated, with_calls. rewrite H. cbn. rewrite <- app_assoc.
  reflexivity.
Qed.

Lemma NODE_gd_layer_run s l k :
  globals k !! "step_size" = Some (VFloat s) ->
  match gd_layer s l with
  | Ok wb' => NODE_gd_layer l k = (Ok wb', with_calls k update_calls)
  | Err e => fst (NODE_gd_layer l k) = Err e
             /\ globals (snd (NODE_gd_layer l k)) = globals k
  end.
Proof.
  intros H. destruct l as [[w b] [dw db]]. unfold gd_layer, NODE_gd_layer, bind.
  cbn [fst snd]. rewrite (descend_run s w dw k H).
  destruct (updated s w dw) as [w'|e]; cbn [rbind]; [|split; reflexivity].
  rewrite (descend_run s b db (with_calls k [op_mul; op_sub]) H).
  destruct (updated s b db) as [b'|e]; cbn [rbind]; [|split; reflexivity].
  unfold ret. rewrite with_calls_app. reflexivity.
Qed.

Lemma NODE_gd_layers_run s l k :
  globals k !! "step_size" = Some (VFloat s) ->
  match rmap (gd_layer s) l with
  | Ok theta' =>
      comprehension NODE_gd_layer l k =
        (Ok theta',
         with_calls k (concat (replicate (length theta') update_calls)))
  | Err e => fst (comprehension NODE_gd_layer l k) = Err e
             /\ globals (snd (comprehension NODE_gd_layer l k)) = globals k
  end.
Proof.
  revert k. induction l as [|a l IH]; intros k H; cbn [rmap comprehension].
  - unfold ret. cbn. rewrite with_calls_nil. reflexivity.
  - unfold bind. pose proof (NODE_gd_layer_run s a k H) as A.
    destruct (gd_layer s a) as [wb'|e]; cbn [rbind].
    + rewrite A. specialize (IH (with_calls k update_calls) H).
      destruct (rmap (gd_layer s) l) as [theta'|e]; cbn [rbind].
      * rewrite IH. unfold ret. rewrite with_calls_app. reflexivity.
      * destruct (comprehension NODE_gd_layer l _) as [[?|?] ?];
          cbn in IH |- *; destruct IH as [E G]; [discriminate|].
        split; [exact E | exact G].
    + destruct (NODE_gd_layer a k) as [[?|?] ?]; cbn in A |- *;
        destruct A as [E G]; [discriminate|]. split; [congruence | exact G].
Qed.

(** A call of [NODE_gd] in a kernel where the names it reads are bound:
    it is one [gd_step]; when the step returns, the kernel differs only
    by the calls of that step. *)
Lemma NODE_gd_run k f s theta xs ys :
  gd_ready k f s ->
  match gd_step f s xs ys theta with
  | Ok theta' =>
      NODE_gd theta xs ys k = (Ok theta', with_calls k (step_calls theta'))
  | Err e => fst (NODE_gd theta xs ys k) = Err e
             /\ globals (snd (NODE_gd theta xs ys k)) = globals k
  end.
Proof.
  intros [Hg Hl Hs]. unfold NODE_gd, gd_step, bind.
  rewrite (load_module_run _ _ _ Hg), (load_global_run _ _ _ Hl).
  unfold record, lift. cbn [globals].
  destruct (gradient f theta xs ys) as [g|e]; cbn [rbind];
    [|split; reflexivity].
  match goal with |- context [comprehension _ _ ?k1] =>
    pose proof (NODE_gd_layers_run s (zip theta g) k1 Hs) as R end.
  destruct (rmap (gd_layer s) (zip theta g)) as [theta'|e].
  - rewrite R. unfold with_calls, step_calls. cbn. rewrite <- app_assoc.
    reflexivity.
  - exact R.
Qed.

Lemma updated_shape s a da :
  shape a = shape da ->
  exists a', updated s a da = Ok a' /\ shape a' = shape a.
Proof.
  intros H. unfold updated.
  destruct (shape_sub a (np_scale s da)) as (a' & E & S).
  - rewrite shape_scale. exact H.
  - exists a'. rewrite E. split; [reflexivity | exact S].
Qed.

(** Gradients shaped like the parameters give new parameters shaped like
    the old ones, and no library call raises. *)
Lemma gd_layers_shape s theta grads :
  Forall2 same_shapes theta grads ->
  exists theta', rmap (gd_layer s) (zip theta grads) = Ok theta'
                 /\ Forall2 same_shapes theta theta'.
Proof.
  induction 1 as [|[w b] [dw db] theta grads [Sw Sb] F IH].
  - exists []. split; [reflexivity | constructor].
  - destruct IH as (theta' & E & F').
    destruct (updated_shape s w dw Sw) as (w' & Ew & Sw').
    destruct (updated_shape s b db Sb) as (b' & Eb & Sb').
    exists ((w', b') :: theta'). cbn [zip_with rmap]. unfold gd_layer at 1.
    cbn [fst snd]. rewrite Ew, Eb. cbn [rbind]. rewrite E. cbn [rbind].
    split; [reflexivity|].
    constructor; [split; cbn; congruence | exact F'].
Qed.

Lemma same_shapes_layout N theta theta' :
  Forall2 same_shapes theta theta' -> has_layout N theta -> has_layout N theta'.
Proof.
  unfold has_layout. intros F. revert theta'  F.
  generalize (layer_sizes N) as l. intros l theta' F H. revert theta' F.
  induction H as [|pq wb l theta [S1 S2] H IH]; intros theta' F.
  - inversion F. constructor.
  - inversion F as [|? wb' ? theta'' [T1 T2] F']; subst.
    constructor; [split; congruence | apply IH; exact F'].
Qed.

(** C10. [NODE_gd] keeps the structure of the parameter collection: for
    gradients shaped like [theta], the step returns a list as long as
    [theta] whose pairs have the shapes of the pairs they replace; so a
    collection laid out for the sizes [N], as [init_random_params]
    builds it, is still laid out for [N] after the step. *)
Theorem NODE_gd_preserves_layout (k : kernel) (f : reader_function) (s : Q)
    (theta grads : params) (xs ys : array) :
  gd_ready k f s ->
  gradient f theta xs ys = Ok grads ->
  Forall2 same_shapes theta grads ->
  exists theta' k',
    NODE_gd theta xs ys k = (Ok theta', k')
    /\ length theta' = length theta
    /\ Forall2 same_shapes theta theta'
    /\ (forall N, has_layout N theta -> has_layout N theta')
    /\ globals k' = globals k.
Proof.
  intros R G F. destruct (gd_layers_shape s theta grads F) as (theta' & E & F').
  pose proof (NODE_gd_run k f s theta xs ys R) as Run.
  unfold gd_step in Run. rewrite G in Run. cbn [rbind] in Run. rewrite E in Run.
  exists theta', (with_calls k (step_calls theta')). split; [exact Run|].
  split; [symmetry; eapply Forall2_length; exact F'|].
  split; [exact F'|]. split; [|reflexivity].
  intros N. apply same_shapes_layout. exact F'.
Qed.

(** ** Running the training loop *)

Lemma after_iteration_twice k i j theta theta' cs cs' :
  after_iteration (after_iteration k i theta cs) j theta' cs' =
  after_iteration k j theta' (cs ++ cs').
Proof.
  unfold after_iteration. cbn. f_equal; [|apply eq_sym, app_assoc].
  apply map_eq. intros x. rewrite !lookup_insert.
  repeat case_decide; congruence.
Qed.

Lemma loop_ready_after k f s xs ys theta i theta' cs :
  loop_ready k f s xs ys theta ->
  loop_ready (after_iteration k i theta' cs) f s xs ys theta'.
Proof.
  intros [[Hg Hl Hs] Hf Hx Hy Ht].
  repeat split; cbn; rewrite ?lookup_insert_eq; try reflexivity;
    rewrite !lookup_insert_ne by discriminate; assumption.
Qed.

Lemma training_step_run k f s xs ys theta theta' i :
  loop_ready k f s xs ys theta ->
  gd_step f s xs ys theta = Ok theta' ->
  training_step i k =
    (Ok tt, after_iteration k (Z.of_nat i) theta' (step_calls theta')).
Proof.
  intros [[Hg Hl Hs] Hf Hx Hy Ht] E.
  unfold training_step, bind. unfold assign at 1.
  set (k1 := Kernel (<["i" := VInt (Z.of_nat i)]> (globals k)) _ _ _).
  assert (R1 : gd_ready k1 f s)
    by (split; cbn; rewrite lookup_insert_ne by discriminate; assumption).
  rewrite (load_global_run "NODE_gd" (VFunction F_NODE_gd) k1)
    by (cbn; rewrite lookup_insert_ne by discriminate; assumption).
  rewrite (load_global_run "NODE_theta" (VParams theta) k1)
    by (cbn; rewrite lookup_insert_ne by discriminate; assumption).
  rewrite (load_global_run "input" (VArray xs) k1)
    by (cbn; rewrite lookup_insert_ne by discriminate; assumption).
  rewrite (load_global_run "target" (VArray ys) k1)
    by (cbn; rewrite lookup_insert_ne by discriminate; assumption).
  cbn [call_function]. unfold bind.
  pose proof (NODE_gd_run k1 f s theta xs ys R1) as Run. rewrite E in Run.
  rewrite Run. reflexivity.
Qed.

Lemma training_steps_run n start k f s xs ys theta hist :
  loop_ready k f s xs ys theta ->
  trajectory n (gd_step f s xs ys) theta = Ok hist ->
  for_each (seq start n) training_step k =
    (Ok tt,
     match last hist with
     | Some thetaN =>
         after_iteration k (Z.of_nat (start + n - 1)) thetaN
           (concat (step_calls <$> hist))
     | None => k
     end).
Proof.
  revert start k theta hist. induction n as [|n IH]; intros start k theta hist R T.
  - cbn in T. injection T as <-. reflexivity.
  - cbn [trajectory] in T.
    destruct (gd_step f s xs ys theta) as [theta1|] eqn:E; cbn [rbind] in T;
      [|discriminate].
    destruct (trajectory n (gd_step f s xs ys) theta1) as [rest|] eqn:T1;
      cbn [rbind] in T; [|discriminate].
    injection T as <-. cbn [seq for_each]. unfold bind.
    rewrite (training_step_run k f s xs ys theta theta1 start R E).
    rewrite (IH (S start) _ theta1 rest
               (loop_ready_after k f s xs ys theta _ theta1 _ R) T1).
    f_equal. rewrite last_cons. cbn [fmap list_fmap concat].
    destruct (last rest) as [thetaN|] eqn:La.
    + rewrite after_iteration_twice. do 3 f_equal. destruct n; [|lia].
      cbn in T1. injection T1 as <-. discriminate La.
    + apply last_None in La. subst rest. cbn. rewrite app_nil_r.
      destruct n.
      * do 3 f_equal. lia.
      * cbn in T1. destruct (gd_step f s xs ys theta1); cbn in T1;
          [|discriminate].
        destruct (trajectory n _ _); cbn in T1; discriminate.
Qed.

Lemma trajectory_length n step theta hist :
  trajectory n step theta = Ok hist -> length hist = n.
Proof.
  revert theta hist. induction n as [|n IH]; intros theta hist T; cbn in T.
  - injection T as <-. reflexivity.
  - destruct (step theta) as [theta1|]; cbn in T; [|discriminate].
    destruct (trajectory n step theta1) as [rest|] eqn:T1; cbn in T;
      [|discriminate].
    injection T as <-. cbn. f_equal. eapply IH. exact T1.
Qed.




Lemma cell_training_loop_run k f s xs ys theta hist (n : nat) :
  loop_ready k f s xs ys theta ->
  globals k !! "train_iters" = Some (VInt (Z.of_nat n)) ->
  trajectory n (gd_step f s xs ys) theta = Ok hist ->
  cell_training_loop k =
    (Ok tt,
     match last hist with
     | Some thetaN =>
         after_iteration k (Z.of_nat (n - 1)) thetaN
           (concat (step_calls <$> hist))
     | None => k
     end).
Proof.
  intros R N T. unfold cell_training_loop, load_int, bind.
  rewrite (load_global_run _ _ _ N). unfold ret. rewrite Nat2Z.id.
  apply (training_steps_run n 0 k f s xs ys theta hist R T).
Qed.


(** ** Who computes the parameter update *)

Lemma Forall_concat_fmap {A B} (P : B -> Prop) (f : A -> list B) (l : list A) :
  (forall a, Forall P (f a)) -> Forall P (concat (f <$> l)).
Proof.
  intros H. induction l as [|a l IH]; cbn; [constructor|].
  apply Forall_app. split; [apply H | exact IH].
Qed.

Lemma step_calls_arithmetic theta' :
  Forall (fun c => c = jax_grad_call \/ c = op_mul \/ c = op_sub)
         (step_calls theta').
Proof.
  unfold step_calls. constructor; [left; reflexivity|].
  induction (length theta') as [|n IH]; cbn; [constructor|].
  repeat (constructor; [right; (left; reflexivity) || (right; reflexivity)|]).
  exact IH.
Qed.

Lemma cell_model_run k :
  tf_imported k ->
  cell_model k =
    (Ok tt,
     Kernel (<["ODE_model" := VObject "Sequential"]> (globals k))
            (rng_objects k) (numpy_global_rng k) (calls k ++ model_calls)).
Proof.
  intros T. unfold tf_imported in T. unfold cell_model, dense_tanh. run.
  cbn [globals rng_objects numpy_global_rng calls]. rewrite <- !app_assoc.
  reflexivity.
Qed.

(** C6, as the code has it.  The training loop of Example 0 updates the
    parameters by arithmetic written in the notebook: each iteration
    calls the library for one gradient and then, per layer, for two
    scalar products and two subtractions, and for nothing else; no
    optimizer of a library takes part.  A library optimizer appears
    only in the harmonic-oscillator example, whose model cell hands
    [Adam] to [compile]. *)
Theorem training_update_is_handwritten (k : kernel) (f : reader_function)
    (s : Q) (xs ys : array) (theta0 : params) (hist : list params) :
  loop_ready k f s xs ys theta0 ->
  globals k !! "train_iters" = Some (VInt 1000) ->
  trajectory 1000 (gd_step f s xs ys) theta0 = Ok hist ->
  (exists k',
     cell_training_loop k = (Ok tt, k')
     /\ calls k' = calls k ++ concat (step_calls <$> hist)
     /\ Forall (fun c => c = jax_grad_call \/ c = op_mul \/ c = op_sub)
               (concat (step_calls <$> hist))
     /\ Forall (fun c => purpose_of c <> Optimizer)
               (concat (step_calls <$> hist)))
  /\ (forall k1, tf_imported k1 ->
        exists k2, cell_model k1 = (Ok tt, k2)
                   /\ calls k2 = calls k1 ++ model_calls
                   /\ Exists (fun c => purpose_of c = Optimizer) model_calls).
Proof.
  intros R N T. split.
  - pose proof (cell_training_loop_run k f s xs ys theta0 hist 1000 R N T) as Run.
    destruct (last hist) as [thetaN|] eqn:La.
    2:{ apply last_None in La. subst hist.
        apply trajectory_length in T. discriminate T. }
    eexists. split; [exact Run|]. split; [reflexivity|].
    pose proof (Forall_concat_fmap _ step_calls hist step_calls_arithmetic) as A.
    split; [exact A|]. eapply Forall_impl; [exact A|].
    intros c [-> | [-> | ->]]; discriminate.
  - intros k1 T1. eexists. split; [apply cell_model_run; exact T1|].
    split; [reflexivity|].
    unfold model_calls. do 4 apply Exists_cons_tl. apply Exists_cons_hd.
    reflexivity.
Qed.

(** ** Which names the cells bind *)

Lemma keeps_within {A} (m : M A) : keeps_globals m -> assigns_within m.
Proof. intros H k x _. rewrite H. reflexivity. Qed.

Lemma within_bind {A B} (m : M A) (f : A -> M B) :
  assigns_within m -> (forall a, assigns_within (f a)) ->
  assigns_within (bind m f).
Proof.
  intros Hm Hf k x Hx. unfold bind. specialize (Hm k x Hx).
  destruct (m k) as [[a|e] k']; cbn [snd] in *.
  - rewrite (Hf a k' x Hx). exact Hm.
  - exact Hm.
Qed.

Lemma within_assign x v : x ∈ notebook_names -> assigns_within (assign x v).
Proof.
  intros Hx k y Hy. cbn. apply lookup_insert_ne. intros ->. contradiction.
Qed.

Lemma within_ret {A} (a : A) : assigns_within (ret a).
Proof. apply keeps_within. intros k. reflexivity. Qed.

Lemma within_raise {A} e : assigns_within (raise e : M A).
Proof. apply keeps_within. intros k. reflexivity. Qed.

Lemma within_lift {A} (r : result A) : assigns_within (lift r).
Proof. apply keeps_within. intros k. reflexivity. Qed.

Lemma within_record f : assigns_within (record f).
Proof. apply keeps_within. intros k. reflexivity. Qed.

Lemma within_load_global x : assigns_within (load_global x).
Proof.
  apply keeps_within. intros k. unfold load_global.
  destruct (globals k !! x); reflexivity.
Qed.

Lemma within_for_each {A} (l : list A) (body : A -> M unit) :
  (forall a, assigns_within (body a)) -> assigns_within (for_each l body).
Proof.
  intros H. induction l as [|a l IH]; cbn [for_each].
  - apply within_ret.
  - apply within_bind; [apply H | intros _; exact IH].
Qed.

Lemma within_fold_loop {A S} (body : S -> A -> M S) (l : list A) (s : S) :
  (forall s a, assigns_within (body s a)) -> assigns_within (fold_loop body l s).
Proof.
  intros H. revert s. induction l as [|a l IH]; intros s; cbn [fold_loop].
  - apply within_ret.
  - apply within_bind; [apply H | intros s'; apply IH].
Qed.

Lemma within_comprehension {A B} (f : A -> M B) (l : list A) :
  (forall a, assigns_within (f a)) -> assigns_within (comprehension f l).
Proof.
  intros H. induction l as [|a l IH]; cbn [comprehension].
  - apply within_ret.
  - apply within_bind; [apply H | intros b].
    apply within_bind; [exact IH | intros bs; apply within_ret].
Qed.

Create HintDb frame.

#[local] Hint Resolve within_ret within_raise within_lift within_record
  within_load_global : frame.

(** One rule per construct of the cell code. *)
Ltac frame :=
  repeat first
    [ solve [auto with frame]
    | apply within_bind; [|intros ?]
    | apply within_assign; compute_done
    | apply within_for_each; intros ?
    | apply within_fold_loop; intros ? ?
    | apply within_comprehension; intros ?
    | progress cbv beta
    | match goal with
      | |- assigns_within (match ?v with _ => _ end) => destruct v
      end ].

Lemma within_library {A} f (o : option A) : assigns_within (library f o).
Proof. unfold library. frame. Qed.

Lemma within_load_module x m : assigns_within (load_module x m).
Proof. unfold load_module. frame. Qed.

Lemma within_load_object x c : assigns_within (load_object x c).
Proof. unfold load_object. frame. Qed.

Lemma within_load_array x : assigns_within (load_array x).
Proof. unfold load_array. frame. Qed.

Lemma within_load_int x : assigns_within (load_int x).
Proof. unfold load_int. frame. Qed.

Lemma within_load_number x : assigns_within (load_number x).
Proof. unfold load_number. frame. Qed.

#[local] Hint Resolve within_library within_load_module within_load_object
  within_load_array within_load_int within_load_number : frame.

Lemma within_call_randn loc dims : assigns_within (call_randn loc dims).
Proof.
  unfold call_randn. apply within_bind; [auto with frame | intros _].
  destruct (forallb _ dims); [|auto with frame].
  apply keeps_within. intros k. destruct (rng_objects k !! loc); [|reflexivity].
  destruct (randn _ _). reflexivity.
Qed.

#[local] Hint Resolve within_call_randn : frame.

Lemma within_init_random_params N rng :
  assigns_within (init_random_params N rng).
Proof. unfold init_random_params, init_layer. frame. Qed.

Lemma within_fcn theta xs : assigns_within (fcn theta xs).
Proof. unfold fcn, fcn_body. frame. Qed.

Lemma within_NODE_gd theta xs ys : assigns_within (NODE_gd theta xs ys).
Proof. unfold NODE_gd, NODE_gd_layer, descend. frame. Qed.

#[local] Hint Resolve within_init_random_params within_fcn within_NODE_gd
  : frame.

Lemma within_call_function f args : assigns_within (call_function f args).
Proof. unfold call_function. frame. Qed.

#[local] Hint Resolve within_call_function : frame.

Lemma within_cell c : c ∈ notebook -> assigns_within c.
Proof.
  unfold notebook. intros H.
  repeat (apply elem_of_cons in H; destruct H as [-> | H]);
    [..|apply elem_of_nil in H; contradiction].
  - unfold cell_imports. frame.
  - unfold cell_data, column_linspace. frame.
  - unfold cell_def_init_random_params.
    apply within_bind; [auto with frame | intros _].
    apply within_bind; [auto with frame | intros _].
    apply within_bind; [apply keeps_within; intros k; reflexivity | intros ?].
    frame.
  - unfold cell_def_fcn. frame.
  - unfold cell_def_NODE_gd. frame.
  - unfold cell_hyperparameters. frame.
  - unfold cell_training_loop, training_step. frame.
  - unfold cell_plot, column_linspace. frame.
  - unfold cell_imports_oscillator. frame.
  - unfold cell_oscillator_data, apply_to_input.
    apply within_bind; [auto with frame | intros _].
    apply within_bind; [auto with frame | intros _].
    apply within_bind;
      [apply keeps_within; intros k; destruct (rand _ _); reflexivity
      | intros ?].
    frame.
  - unfold cell_model, dense_tanh. frame.
  - unfold cell_checkpoint. frame.
  - unfold cell_fit. frame.
Qed.

(** However the cells are run, a name none of them assigns stays as it
    was. *)
Lemma run_cells_frame cells k x :
  Forall (fun c => c ∈ notebook) cells ->
  x ∉ notebook_names ->
  globals (snd (run_cells cells k)) !! x = globals k !! x.
Proof.
  intros F Hx. revert k. induction F as [|c cells Hc F IH]; intros k;
    cbn [run_cells]; [reflexivity|].
  pose proof (within_cell c Hc k x Hx) as W.
  destruct (c k) as [r k']. specialize (IH k').
  destruct (run_cells cells k') as [rs k'']. cbn [snd] in *.
  rewrite IH. exact W.
Qed.

(** ** The cells that use what the notebook leaves undefined *)

Lemma NODE_gd_unresolved k theta xs ys :
  globals k !! "grad" = Some (VModule jax_grad) ->
  unbound k "NODE_L2loss" ->
  NODE_gd theta xs ys k = (Err (NameError "NODE_L2loss"), k).
Proof.
  intros G U. unfold NODE_gd. run.
  rewrite (load_global_unbound _ _ U). reflexivity.
Qed.

(** The loop stops in its first iteration, having bound only [i]. *)
Lemma cell_training_loop_unresolved k :
  training_ready k ->
  unbound k "NODE_L2loss" ->
  cell_training_loop k =
    (Err (NameError "NODE_L2loss"),
     Kernel (<["i" := VInt 0]> (globals k)) (rng_objects k)
            (numpy_global_rng k) (calls k)).
Proof.
  intros [(n & N & Pos) F (theta & T) (xs & X) (ys & Y) G] U.
  unfold cell_training_loop, load_int. run. unfold ret.
  destruct (Z.to_nat n) as [|m] eqn:E; [lia|].
  cbn [seq for_each]. unfold training_step. run.
  cbn [call_function]. unfold bind.
  rewrite NODE_gd_unresolved.
  - reflexivity.
  - bound.
  - unfold unbound. cbn [globals]. rewrite lookup_insert_ne by discriminate.
    exact U.
Qed.

Lemma column_linspace_run a b n k :
  jnp_imported k ->
  exists x,
    column_linspace a b n k =
      (Ok x, Kernel (globals k) (rng_objects k) (numpy_global_rng k)
                    (calls k ++ [jnp_linspace; jnp_reshape]))
    /\ shape x = [n; 1%nat].
Proof.
  intros J. unfold jnp_imported in J.
  destruct (shape_reshape (np_linspace a b n) [n; 1%nat]) as (x & E & S).
  { rewrite shape_linspace. cbn. lia. }
  exists x. split; [|exact S]. unfold column_linspace. run.
  rewrite E. cbn. rewrite <- app_assoc. reflexivity.
Qed.

(** The plot stops at [batched_ODESolve], after the scatter plot has
    been drawn and [new_inputs] bound. *)
Lemma cell_plot_unresolved k :
  plot_ready k ->
  unbound k "batched_ODESolve" ->
  exists x,
    cell_plot k =
      (Err (NameError "batched_ODESolve"),
       Kernel (<["new_inputs" := VArray x]>
              (<["ax" := VObject "Axes"]>
              (<["fig" := VObject "Figure"]> (globals k))))
              (rng_objects k) (numpy_global_rng k) (calls k ++ plot_calls)).
Proof.
  intros [P J (vi & I) (vt & T)] U. unfold cell_plot. run.
  match goal with |- context [column_linspace ?a ?b ?n ?k1] =>
    destruct (column_linspace_run a b n k1) as (x & E & _);
      [unfold jnp_imported; bound|];
    rewrite E end.
  exists x. cbn [globals rng_objects numpy_global_rng calls]. run.
  rewrite load_global_unbound.
  - unfold plot_calls. rewrite <- !app_assoc. reflexivity.
  - unfold unbound. cbn [globals]. rewrite !lookup_insert_ne by discriminate.
    exact U.
Qed.


(** The [def] of [NODE_gd] itself only binds the name: the body, and
    with it the reference to [NODE_L2loss], is evaluated when the
    function is called. *)
Lemma cell_def_NODE_gd_binds k :
  cell_def_NODE_gd k =
    (Ok tt, Kernel (<["NODE_gd" := VFunction F_NODE_gd]> (globals k))
                   (rng_objects k) (numpy_global_rng k) (calls k)).
Proof. reflexivity. Qed.

(** ** The notebook run from the top *)

Lemma load_array_run x a k :
  globals k !! x = Some (VArray a) -> load_array x k = (Ok a, k).
Proof.
  intros H. unfold load_array, bind. rewrite (load_global_run _ _ _ H).
  reflexivity.
Qed.

Lemma cell_data_run k :
  jnp_imported k ->
  exists x t,
    cell_data k =
      (Ok tt,
       Kernel (<["target" := VArray t]> (<["input" := VArray x]> (globals k)))
              (rng_objects k) (numpy_global_rng k)
              (calls k ++ [jnp_linspace; jnp_reshape; op_pow; op_mul; op_add]))
    /\ shape x = [15; 1]%nat /\ shape t = [15; 1]%nat.
Proof.
  intros J. destruct (column_linspace_run (-5 # 2) (5 # 2) 15 k J) as (x & E & S).
  destruct (shape_add (np_power x 3) (np_scale (1 # 10) x)) as (t & A & St).
  { rewrite shape_power, shape_scale. reflexivity. }
  exists x, t. split; [|split; [exact S | rewrite St, shape_power; exact S]].
  unfold cell_data. unfold bind at 1. rewrite E. run.
  rewrite (load_array_run "input" x) by bound. cbn beta iota. run.
  rewrite (load_array_run "input" x) by bound. cbn beta iota. run.
  rewrite A. cbn beta iota. run. cbn [globals rng_objects numpy_global_rng calls].
  rewrite <- !app_assoc. reflexivity.
Qed.

Lemma init_random_params_run (N : list nat) rng g k :
  rng_objects k !! rng = Some g ->
  exists theta k',
    init_random_params (Z.of_nat <$> N) rng k = (Ok theta, k')
    /\ has_layout N theta
    /\ globals k' = globals k
    /\ numpy_global_rng k' = numpy_global_rng k
    /\ calls k' =
         calls k ++ concat ((fun _ => [RandomState_randn; RandomState_randn])
                            <$> layer_sizes N).
Proof.
  intros H. unfold init_random_params.
  change (zip (removelast (Z.of_nat <$> N)) (tail (Z.of_nat <$> N)))
    with (layer_sizes (Z.of_nat <$> N)).
  rewrite layer_sizes_fmap.
  destruct (init_layers_ok rng (layer_sizes N) g k H)
    as (theta & k' & E & F & G & Nu & C).
  exists theta, k'. repeat split; assumption.
Qed.

Lemma run_cells_cons c cs k r k1 rs k2 :
  c k = (r, k1) -> run_cells cs k1 = (rs, k2) ->
  run_cells (c :: cs) k = (r :: rs, k2).
Proof. intros E1 E2. cbn [run_cells]. rewrite E1, E2. reflexivity. Qed.

Lemma cell_imports_run k :
  cell_imports k =
    (Ok tt,
     Kernel (<["plt" := VModule pyplot]>
            (<["odeint" := VModule jax_odeint]>
            (<["random" := VModule jax_random]>
            (<["vmap" := VModule jax_vmap]>
            (<["jit" := VModule jax_jit]>
            (<["grad" := VModule jax_grad]>
            (<["nprand" := VModule numpy_random]>
            (<["jnp" := VModule jax_numpy]> (globals k)))))))))
            (rng_objects k) (numpy_global_rng k) (calls k)).
Proof. reflexivity. Qed.

Lemma cell_def_init_random_params_run k :
  globals k !! "nprand" = Some (VModule numpy_random) ->
  cell_def_init_random_params k =
    (Ok tt,
     Kernel (<["init_random_params" :=
                 VFunction (F_init_random_params (length (rng_objects k)))]>
               (globals k))
            (rng_objects k ++ [new_RandomState 0]) (numpy_global_rng k)
            (calls k ++ [RandomState_new])).
Proof. intros H. unfold cell_def_init_random_params. run. reflexivity. Qed.

Lemma cell_def_fcn_run k :
  cell_def_fcn k =
    (Ok tt, Kernel (<["fcn" := VFunction F_fcn]> (globals k))
                   (rng_objects k) (numpy_global_rng k) (calls k)).
Proof. reflexivity. Qed.

Lemma cell_hyperparameters_run k g :
  globals k !! "init_random_params" = Some (VFunction (F_init_random_params 0)) ->
  rng_objects k !! 0%nat = Some g ->
  exists theta rngs,
    cell_hyperparameters k =
      (Ok tt,
       Kernel (<["NODE_theta" := VParams theta]>
              (<["train_iters" := VInt 1000]>
              (<["step_size" := VFloat (5 # 10000)]>
              (<["NODE_width" := VInts [2; 20; 1]]> (globals k)))))
              rngs (numpy_global_rng k)
              (calls k ++ [RandomState_randn; RandomState_randn;
                           RandomState_randn; RandomState_randn]))
    /\ has_layout [2; 20; 1]%nat theta.
Proof.
  intros F R. unfold cell_hyperparameters. run. cbn [call_function].
  unfold bind.
  match goal with |- context [init_random_params ?N 0 ?k1] =>
    destruct (init_random_params_run [2; 20; 1]%nat 0 g k1 R)
      as (theta & k' & E & Lay & G & Nu & C) end.
  change (Z.of_nat <$> [2; 20; 1]%nat) with [2; 20; 1] in E.
  rewrite E. unfold ret. rewrite assign_run.
  exists theta, (rng_objects k'). split; [|exact Lay].
  rewrite G, Nu, C. reflexivity.
Qed.

(** Cells 1 to 6 all return when run in a kernel that holds no
    RandomState object yet, and leave this kernel. *)
Lemma setup_run k0 :
  rng_objects k0 = [] ->
  exists x t theta rngs,
    run_cells (take 6 notebook) k0 =
      (replicate 6 (Ok tt),
       Kernel (setup_globals (globals k0) x t theta) rngs
              (numpy_global_rng k0) (calls k0 ++ setup_calls))
    /\ shape x = [15; 1]%nat /\ shape t = [15; 1]%nat
    /\ has_layout [2; 20; 1]%nat theta.
Proof.
  intros R0.
  pose proof (cell_imports_run k0) as E1.
  set (k1 := Kernel _ _ _ _) in E1.
  destruct (cell_data_run k1) as (x & t & E2 & Sx & St);
    [unfold jnp_imported, k1; bound|].
  set (k2 := Kernel _ _ _ _) in E2.
  pose proof (cell_def_init_random_params_run k2) as E3.
  set (k3 := Kernel _ _ _ _) in E3.
  pose proof (cell_def_fcn_run k3) as E4.
  set (k4 := Kernel _ _ _ _) in E4.
  pose proof (cell_def_NODE_gd_binds k4) as E5.
  set (k5 := Kernel _ _ _ _) in E5.
  destruct (cell_hyperparameters_run k5 (new_RandomState 0))
    as (theta & rngs & E6 & Lay).
  { unfold k5, k4, k3, k2, k1. cbn [rng_objects]. rewrite R0. cbn [length app].
    bound. }
  { unfold k5, k4, k3, k2, k1. cbn [rng_objects]. rewrite R0. reflexivity. }
  exists x, t, theta, rngs.
  split; [|split; [exact Sx | split; [exact St | exact Lay]]].
  change (take 6 notebook)
    with [cell_imports; cell_data; cell_def_init_random_params; cell_def_fcn;
          cell_def_NODE_gd; cell_hyperparameters].
  etrans.
  { exact (run_cells_cons _ _ _ _ _ _ _ E1
            (run_cells_cons _ _ _ _ _ _ _ E2
            (run_cells_cons _ _ _ _ _ _ _ (E3 ltac:(unfold k2, k1; bound))
            (run_cells_cons _ _ _ _ _ _ _ E4
            (run_cells_cons _ _ _ _ _ _ _ E5
            (run_cells_cons _ [] _ _ _ _ _ E6 eq_refl)))))). }
  unfold k5, k4, k3, k2, k1, setup_globals, setup_calls.
  cbn [globals rng_objects numpy_global_rng calls replicate].
  rewrite <- !app_assoc, R0. reflexivity.
Qed.

Lemma run_cells_snoc cs c k rs k1 r k2 :
  run_cells cs k = (rs, k1) -> c k1 = (r, k2) ->
  run_cells (cs ++ [c]) k = (rs ++ [r], k2).
Proof.
  revert k rs. induction cs as [|c0 cs IH]; intros k rs E1 E2;
    cbn [run_cells app] in *.
  - injection E1 as <- <-. rewrite E2. reflexivity.
  - destruct (c0 k) as [r0 k0]. destruct (run_cells cs k0) as [rs0 k0'] eqn:E.
    injection E1 as <- <-. rewrite (IH k0 rs0 E E2). reflexivity.
Qed.

Lemma setup_training_ready m x t theta rngs e cs :
  training_ready (Kernel (setup_globals m x t theta) rngs e cs).
Proof.
  unfold setup_globals. split.
  - exists 1000. split; [bound | lia].
  - bound.
  - exists theta. bound.
  - exists x. bound.
  - exists t. bound.
  - bound.
Qed.

Lemma setup_unbound m x t theta rngs e cs name :
  name ∉ notebook_names -> m !! name = None ->
  unbound (Kernel (setup_globals m x t theta) rngs e cs) name.
Proof.
  intros Hn Hm. unfold unbound, setup_globals. cbn [globals].
  rewrite !lookup_insert_ne; [exact Hm | intros <-; apply Hn; compute_done ..].
Qed.



(** ** Gradients shaped like the parameters keep the loop going *)

Lemma trajectory_total f s xs ys N :
  (forall theta, has_layout N theta ->
     exists grads, gradient f theta xs ys = Ok grads
                   /\ Forall2 same_shapes theta grads) ->
  forall n theta, has_layout N theta ->
    exists hist, trajectory n (gd_step f s xs ys) theta = Ok hist
                 /\ Forall (has_layout N) hist.
Proof.
  intros G. induction n as [|n IH]; intros theta Lay.
  - exists []. split; [reflexivity | constructor].
  - destruct (G theta Lay) as (grads & Eg & F).
    destruct (gd_layers_shape s theta grads F) as (theta' & E & F').
    pose proof (same_shapes_layout N theta theta' F' Lay) as Lay'.
    destruct (IH theta' Lay') as (rest & Er & Fr).
    exists (theta' :: rest). split; [|constructor; assumption].
    cbn [trajectory]. unfold gd_step at 1. rewrite Eg. cbn [rbind].
    rewrite E. cbn [rbind]. rewrite Er. reflexivity.
Qed.

Lemma no_optimizer_in_steps hist :
  existsb is_optimizer (concat (step_calls <$> hist)) = false.
Proof.
  pose proof (Forall_concat_fmap _ step_calls hist step_calls_arithmetic) as A.
  induction A as [|c cs [-> | [-> | ->]] _ IH]; cbn; [reflexivity | exact IH ..].
Qed.

(** ** The notebook with Exercise 2 done *)

(** After the first six cells, once the reader has bound [NODE_L2loss]
    to a loss [f], the training loop finds every name it reads. *)
Lemma exercise_loop_ready m x t theta rngs e cs f :
  let k := snd (assign "NODE_L2loss" (VReader f)
                  (Kernel (setup_globals m x t theta) rngs e cs)) in
  loop_ready k f (5 # 10000) x t theta
  /\ globals k !! "train_iters" = Some (VInt 1000)
  /\ calls k = cs.
Proof.
  cbn [snd assign globals rng_objects numpy_global_rng calls].
  unfold setup_globals. repeat split; bound.
Qed.

(** * Further properties of the notebook's code *)

(** ** The generator behind [init_random_params] *)

Lemma init_layer_draws rng g (pq : nat * nat) k :
  rng_objects k !! rng = Some g ->
  init_layer rng (Z.of_nat (fst pq), Z.of_nat (snd pq)) k =
    (Ok (fst (sample_layer g pq)),
     Kernel (globals k) (<[rng := snd (sample_layer g pq)]> (rng_objects k))
            (numpy_global_rng k)
            (calls k ++ [RandomState_randn; RandomState_randn])).
Proof.
  intros H. destruct pq as [p q]. unfold init_layer, sample_layer, bind.
  cbn [fst snd].
  change [Z.of_nat p; Z.of_nat q] with (Z.of_nat <$> [p; q]).
  rewrite (call_randn_ok rng g [p; q] k H).
  destruct (randn g [p; q]) as [w g1]. cbn [fst snd].
  set (k1 := with_rng _ rng g1).
  assert (H1 : rng_objects k1 !! rng = Some g1)
    by (apply (with_rng_lookup _ _ g); exact H).
  change [Z.of_nat q] with (Z.of_nat <$> [q]).
  rewrite (call_randn_ok rng g1 [q] k1 H1).
  destruct (randn g1 [q]) as [b g2]. cbn [fst snd].
  unfold ret, k1, with_rng, with_calls.
  cbn [globals rng_objects numpy_global_rng calls].
  rewrite list_insert_insert_eq, <- app_assoc. reflexivity.
Qed.

Lemma init_layers_draw rng (l : list (nat * nat)) g k :
  rng_objects k !! rng = Some g ->
  comprehension (init_layer rng) (prod_map Z.of_nat Z.of_nat <$> l) k =
    (Ok (fst (sample_layers g l)),
     Kernel (globals k) (<[rng := snd (sample_layers g l)]> (rng_objects k))
            (numpy_global_rng k) (calls k ++ init_calls (length l))).
Proof.
  revert g k. induction l as [|pq l IH]; intros g k H.
  - cbn. unfold ret. rewrite (list_insert_id _ _ _ H), app_nil_r.
    destruct k; reflexivity.
  - cbn [fmap list_fmap comprehension sample_layers length]. unfold bind.
    change (prod_map Z.of_nat Z.of_nat pq)
      with (Z.of_nat (fst pq), Z.of_nat (snd pq)).
    rewrite (init_layer_draws rng g pq k H).
    destruct (sample_layer g pq) as [wb g1]. cbn [fst snd].
    match goal with |- context [comprehension _ _ ?k1] =>
      rewrite (IH g1 k1)
        by (cbn [rng_objects]; apply list_lookup_insert_eq;
            eapply lookup_lt_Some; exact H) end.
    destruct (sample_layers g1 l) as [theta g2]. cbn [fst snd].
    unfold ret, init_calls.
    cbn [globals rng_objects numpy_global_rng calls replicate concat].
    rewrite list_insert_insert_eq, <- app_assoc. reflexivity.
Qed.

(** What a call returns and where it leaves the kernel: the layers are
    drawn in order from the RandomState object the call was given, and
    that object is advanced in place. *)
Lemma init_random_params_draws (N : list nat) rng g k :
  rng_objects k !! rng = Some g ->
  init_random_params (Z.of_nat <$> N) rng k =
    (Ok (fst (sample_layers g (layer_sizes N))),
     Kernel (globals k)
            (<[rng := snd (sample_layers g (layer_sizes N))]> (rng_objects k))
            (numpy_global_rng k)
            (calls k ++ init_calls (length (layer_sizes N)))).
Proof.
  intros H. unfold init_random_params.
  change (zip (removelast (Z.of_nat <$> N)) (tail (Z.of_nat <$> N)))
    with (layer_sizes (Z.of_nat <$> N)).
  rewrite layer_sizes_fmap. apply init_layers_draw. exact H.
Qed.

(** X1.  Two calls of [init_random_params] on the same RandomState object
    (as when the default argument is used twice) do not return the same
    parameters drawn again: the second call draws where the first one
    stopped. *)
Theorem init_random_params_shares_generator (N : list nat) (rng : nat)
    (g : random_state) (k : kernel) :
  rng_objects k !! rng = Some g ->
  exists k1 k2,
    init_random_params (Z.of_nat <$> N) rng k =
      (Ok (fst (sample_layers g (layer_sizes N))), k1)
    /\ init_random_params (Z.of_nat <$> N) rng k1 =
         (Ok (fst (sample_layers (snd (sample_layers g (layer_sizes N)))
                                 (layer_sizes N))), k2)
    /\ rng_objects k2 !! rng =
         Some (snd (sample_layers (snd (sample_layers g (layer_sizes N)))
                                  (layer_sizes N)))
    /\ globals k2 = globals k.
Proof.
  intros H. pose proof (init_random_params_draws N rng g k H) as E1.
  set (k1 := Kernel _ _ _ _) in E1.
  assert (H1 : rng_objects k1 !! rng
               = Some (snd (sample_layers g (layer_sizes N)))).
  { unfold k1. cbn [rng_objects]. apply list_lookup_insert_eq.
    eapply lookup_lt_Some. exact H. }
  pose proof (init_random_params_draws N rng _ k1 H1) as E2.
  set (k2 := Kernel _ _ _ _) in E2.
  exists k1, k2. split; [exact E1|]. split; [exact E2|]. split.
  - unfold k2. cbn [rng_objects]. apply list_lookup_insert_eq.
    eapply lookup_lt_Some. exact H1.
  - reflexivity.
Qed.

(** ** [init_random_params] on sizes that give no layer, or no array *)

Lemma call_randn_negative loc (dims : list Z) k :
  Exists (fun n => n < 0) dims ->
  call_randn loc dims k =
    (Err (LibraryError RandomState_randn), with_calls k [RandomState_randn]).
Proof.
  intros H. unfold call_randn, bind, record.
  replace (forallb (Z.leb 0) dims) with false; [reflexivity|].
  symmetry. apply not_true_is_false. intros F.
  rewrite forallb_forall in F. apply Exists_exists in H as (n & Hn & Neg).
  apply list_elem_of_In, F, Z.leb_le in Hn. lia.
Qed.

Lemma init_layers_negative rng (l : list (Z * Z)) g k :
  rng_objects k !! rng = Some g ->
  Exists (fun pq => fst pq < 0 \/ snd pq < 0) l ->
  fst (comprehension (init_layer rng) l k)
    = Err (LibraryError RandomState_randn).
Proof.
  intros H E. revert g k H.
  induction l as [|[p q] l IH]; intros g k H; [inversion E|].
  cbn [comprehension]. unfold bind.
  destruct (decide (p < 0 \/ q < 0)) as [Neg|Pos].
  - unfold init_layer, bind. rewrite call_randn_negative; [reflexivity|].
    destruct Neg as [Neg|Neg].
    + apply Exists_cons_hd. exact Neg.
    + apply Exists_cons_tl, Exists_cons_hd. exact Neg.
  - apply Exists_cons in E as [E|E]; [contradiction|].
    replace (p, q) with (Z.of_nat (fst (Z.to_nat p, Z.to_nat q)),
                         Z.of_nat (snd (Z.to_nat p, Z.to_nat q)))
      by (cbn [fst snd]; f_equal; lia).
    rewrite (init_layer_draws rng g _ k H).
    match goal with |- context [comprehension _ _ ?k1] =>
      specialize (IH E _ k1
        ltac:(cbn [rng_objects]; apply list_lookup_insert_eq;
              eapply lookup_lt_Some; exact H)) end.
    destruct (comprehension _ l _) as [[theta|e] k2]; cbn [fst] in IH |- *;
      [discriminate | exact IH].
Qed.

Lemma layer_sizes_covers {A} (N : list A) (a : A) :
  (2 <= length N)%nat -> a ∈ N ->
  exists pq, pq ∈ layer_sizes N /\ (fst pq = a \/ snd pq = a).
Proof.
  intros Len H. apply list_elem_of_lookup in H as [i Hi].
  destruct (N !! S i) as [b|] eqn:Hb.
  - exists (a, b). split; [|left; reflexivity].
    apply (list_elem_of_lookup_2 _ i), layer_sizes_lookup. split; assumption.
  - destruct i as [|i].
    + destruct N as [|? [|? ?]]; cbn in Len, Hb; [lia | lia | discriminate].
    + destruct (N !! i) as [c|] eqn:Hc.
      * exists (c, a). split; [|right; reflexivity].
        apply (list_elem_of_lookup_2 _ i), layer_sizes_lookup.
        split; assumption.
      * apply lookup_ge_None in Hc. apply lookup_lt_Some in Hi. lia.
Qed.

(** X2.  A negative size: as soon as [N] has two entries, every entry
    is a dimension of some array, and the call fails with the error
    that [randn] raises on a negative dimension.  (A single negative
    size goes unnoticed: see the next statement.) *)
Theorem init_random_params_negative_size (N : list Z) (rng : nat)
    (g : random_state) (k : kernel) :
  rng_objects k !! rng = Some g ->
  (2 <= length N)%nat ->
  Exists (fun n => n < 0) N ->
  fst (init_random_params N rng k) = Err (LibraryError RandomState_randn).
Proof.
  intros H Len E. unfold init_random_params.
  change (zip (removelast N) (tail N)) with (layer_sizes N).
  apply (init_layers_negative rng _ g k H).
  apply Exists_exists in E as (n & Hn & Neg).
  destruct (layer_sizes_covers N n Len Hn) as (pq & Hpq & Hor).
  apply Exists_exists. exists pq. split; [exact Hpq|].
  destruct Hor as [-> | ->]; [left | right]; exact Neg.
Qed.

(** X3.  With fewer than two sizes there is no pair of consecutive sizes:
    the call returns the empty list without touching the generator,
    whatever the one size is, and [fcn] cannot run on what it returned. *)
Theorem single_size_gives_no_layer (N : list Z) (rng : nat) (xs : array)
    (k : kernel) :
  (length N <= 1)%nat ->
  exists theta,
    init_random_params N rng k = (Ok theta, k)
    /\ theta = []
    /\ fcn theta xs k = (Err (UnboundLocalError "outputs"), k).
Proof.
  intros Len. exists []. split; [|split; reflexivity].
  destruct N as [|a [|b N]]; [reflexivity | reflexivity | cbn in Len; lia].
Qed.

(** ** [NODE_gd] on gradients that do not match, or without a step size *)

(** X4.  [zip] stops at the shorter of its arguments: given fewer gradients
    than layers (or more), [NODE_gd] updates the layers that have a
    gradient and returns only those. *)
Theorem NODE_gd_truncates (k : kernel) (f : reader_function) (s : Q)
    (theta grads : params) (xs ys : array) :
  gd_ready k f s ->
  gradient f theta xs ys = Ok grads ->
  Forall2 same_shapes (take (length grads) theta) (take (length theta) grads) ->
  exists theta',
    NODE_gd theta xs ys k = (Ok theta', with_calls k (step_calls theta'))
    /\ length theta' = (length theta `min` length grads)%nat
    /\ Forall2 same_shapes (take (length grads) theta) theta'.
Proof.
  intros R G F.
  destruct (gd_layers_shape s _ _ F) as (theta' & E & F').
  rewrite (zip_with_take_both pair theta grads) in E.
  pose proof (NODE_gd_run k f s theta xs ys R) as Run.
  unfold gd_step in Run. rewrite G in Run. cbn [rbind] in Run.
  rewrite E in Run.
  exists theta'. split; [exact Run|]. split; [|exact F'].
  rewrite <- (Forall2_length _ _ _ F'), length_take. lia.
Qed.

(** X5.  [step_size] is a global read inside the comprehension, once for
    each array that is updated, after the gradient has been computed.
    When it is not bound, the call still returns for an empty update
    and raises NameError as soon as there is a layer to update. *)
Theorem NODE_gd_reads_step_size_late (k : kernel) (f : reader_function)
    (theta grads : params) (xs ys : array) :
  globals k !! "grad" = Some (VModule jax_grad) ->
  globals k !! "NODE_L2loss" = Some (VReader f) ->
  unbound k "step_size" ->
  gradient f theta xs ys = Ok grads ->
  NODE_gd theta xs ys k =
    (match zip theta grads with
     | [] => Ok []
     | _ :: _ => Err (NameError "step_size")
     end,
     with_calls k [jax_grad_call]).
Proof.
  intros Hg Hl U G. unfold NODE_gd, bind.
  rewrite (load_module_run _ _ _ Hg), (load_global_run _ _ _ Hl).
  unfold record, lift. rewrite G.
  destruct (zip theta grads) as [|[[w b] [dw db]] l]; [reflexivity|].
  cbn [comprehension NODE_gd_layer]. unfold bind, descend, load_number, bind.
  rewrite load_global_unbound; [reflexivity | exact U].
Qed.

(** ** [fcn] and [NODE_gd] assign nothing outside their own frame *)

Lemma records_ret {A} (a : A) : only_records (ret a).
Proof. intros k. exists []. symmetry. apply with_calls_nil. Qed.

Lemma records_raise {A} e : only_records (raise e : M A).
Proof. intros k. exists []. symmetry. apply with_calls_nil. Qed.

Lemma records_lift {A} (r : result A) : only_records (lift r).
Proof. intros k. exists []. symmetry. apply with_calls_nil. Qed.

Lemma records_load_global x : only_records (load_global x).
Proof.
  intros k. exists []. unfold load_global.
  destruct (globals k !! x); symmetry; apply with_calls_nil.
Qed.

Lemma records_record f : only_records (record f).
Proof. intros k. exists [f]. reflexivity. Qed.

Lemma records_bind {A B} (m : M A) (f : A -> M B) :
  only_records m -> (forall a, only_records (f a)) -> only_records (bind m f).
Proof.
  intros Hm Hf k. unfold bind. destruct (Hm k) as [cs E].
  destruct (m k) as [[a|e] k1]; cbn [snd] in E |- *; subst k1.
  - destruct (Hf a (with_calls k cs)) as [cs' E']. exists (cs ++ cs').
    rewrite E'. apply with_calls_app.
  - exists cs. reflexivity.
Qed.

Lemma records_fold_loop {A S} (body : S -> A -> M S) (l : list A) (s : S) :
  (forall s a, only_records (body s a)) -> only_records (fold_loop body l s).
Proof.
  intros H. revert s. induction l as [|a l IH]; intros s; cbn [fold_loop].
  - apply records_ret.
  - apply records_bind; [apply H | exact IH].
Qed.

Lemma records_comprehension {A B} (f : A -> M B) (l : list A) :
  (forall a, only_records (f a)) -> only_records (comprehension f l).
Proof.
  intros H. induction l as [|a l IH]; cbn [comprehension].
  - apply records_ret.
  - apply records_bind; [apply H | intros b].
    apply records_bind; [exact IH | intros bs; apply records_ret].
Qed.

Lemma records_library {A} f (o : option A) : only_records (library f o).
Proof.
  apply records_bind; [apply records_record | intros _; apply records_lift].
Qed.

Lemma records_load_module x m : only_records (load_module x m).
Proof.
  apply records_bind; [apply records_load_global | intros v].
  destruct v; try apply records_raise.
  destruct (decide _); [apply records_ret | apply records_raise].
Qed.

Lemma records_load_number x : only_records (load_number x).
Proof.
  apply records_bind; [apply records_load_global | intros v].
  destruct v; first [apply records_ret | apply records_raise].
Qed.

(** X6.  The assignments in the body of [fcn] ([outputs], and [xs], which
    names the argument) are to locals, and [NODE_gd] assigns nothing:
    whatever the arguments, and whether the call returns or raises, the
    namespace and the generators are as they were, and only the record
    of library calls has grown. *)
Theorem fcn_and_NODE_gd_only_record :
  (forall theta xs, only_records (fcn theta xs))
  /\ (forall theta xs ys, only_records (NODE_gd theta xs ys)).
Proof.
  split.
  - intros theta xs. unfold fcn. apply records_bind.
    + apply records_fold_loop. intros fr [w b]. unfold fcn_body.
      repeat first [ apply records_ret
                   | apply records_load_module
                   | apply records_library
                   | apply records_bind; [|intros ?] ].
    + intros fr.
      destruct (outputs_ fr); [apply records_ret | apply records_raise].
  - intros theta xs ys. unfold NODE_gd.
    apply records_bind; [apply records_load_module | intros _].
    apply records_bind; [apply records_load_global | intros v].
    destruct v; try apply records_raise.
    apply records_bind; [apply records_record | intros _].
    apply records_bind; [apply records_lift | intros g].
    apply records_comprehension. intros [[w b] [dw db]].
    unfold NODE_gd_layer, descend.
    repeat first [ apply records_ret
                 | apply records_load_number
                 | apply records_library
                 | apply records_bind; [|intros ?] ].
Qed.

(** ** The training loop at its edges *)

(** X7.  [range(train_iters)] is empty for a count of zero or less: the cell
    returns at once, binds no [i], and reads no other name (it would
    return even with [NODE_gd] or [NODE_L2loss] undefined). *)
Theorem training_loop_without_iterations (k : kernel) (n : Z) :
  globals k !! "train_iters" = Some (VInt n) ->
  n <= 0 ->
  cell_training_loop k = (Ok tt, k).
Proof.
  intros N Le. unfold cell_training_loop, load_int, bind.
  rewrite (load_global_run _ _ _ N). unfold ret.
  replace (Z.to_nat n) with 0%nat by lia. reflexivity.
Qed.

Lemma for_each_app {A} (l1 l2 : list A) (body : A -> M unit) k :
  for_each (l1 ++ l2) body k =
  bind (for_each l1 body) (fun _ => for_each l2 body) k.
Proof.
  revert k. induction l1 as [|a l1 IH]; intros k; cbn [app for_each].
  - reflexivity.
  - unfold bind. destruct (body a k) as [[[]|e] k1]; [apply IH | reflexivity].
Qed.

Lemma training_step_fails k f s xs ys theta e i :
  loop_ready k f s xs ys theta ->
  gd_step f s xs ys theta = Err e ->
  exists k',
    training_step i k = (Err e, k')
    /\ globals k' = <["i" := VInt (Z.of_nat i)]> (globals k).
Proof.
  intros [[Hg Hl Hs] Hf Hx Hy Ht] E.
  unfold training_step, bind. unfold assign at 1.
  set (k1 := Kernel (<["i" := VInt (Z.of_nat i)]> (globals k)) _ _ _).
  assert (R1 : gd_ready k1 f s)
    by (split; cbn; rewrite lookup_insert_ne by discriminate; assumption).
  rewrite (load_global_run "NODE_gd" (VFunction F_NODE_gd) k1)
    by (cbn; rewrite lookup_insert_ne by discriminate; assumption).
  rewrite (load_global_run "NODE_theta" (VParams theta) k1)
    by (cbn; rewrite lookup_insert_ne by discriminate; assumption).
  rewrite (load_global_run "input" (VArray xs) k1)
    by (cbn; rewrite lookup_insert_ne by discriminate; assumption).
  rewrite (load_global_run "target" (VArray ys) k1)
    by (cbn; rewrite lookup_insert_ne by discriminate; assumption).
  cbn [call_function]. unfold bind.
  pose proof (NODE_gd_run k1 f s theta xs ys R1) as Run. rewrite E in Run.
  destruct (NODE_gd theta xs ys k1) as [[r|e'] k2]; cbn [fst snd] in Run |- *;
    destruct Run as [Er G]; [discriminate|].
  injection Er as ->. exists k2. split; [reflexivity | exact G].
Qed.

(** X8.  An iteration that raises ends the cell, and nothing is rolled
    back: if the first [j] steps return and the next one raises [e]
    (the gradient, or a subtraction), the cell raises [e] with
    [NODE_theta] holding the parameters after [j] steps and [i] the
    index of the iteration that failed. *)
Theorem training_loop_keeps_progress (k : kernel) (f : reader_function)
    (s : Q) (xs ys : array) (theta0 thetaj : params) (hist : list params)
    (e : exn) (n : Z) (j : nat) :
  loop_ready k f s xs ys theta0 ->
  globals k !! "train_iters" = Some (VInt n) ->
  Z.of_nat j < n ->
  trajectory j (gd_step f s xs ys) theta0 = Ok hist ->
  last (theta0 :: hist) = Some thetaj ->
  gd_step f s xs ys thetaj = Err e ->
  exists k',
    cell_training_loop k = (Err e, k')
    /\ globals k' !! "NODE_theta" = Some (VParams thetaj)
    /\ globals k' !! "i" = Some (VInt (Z.of_nat j))
    /\ (forall x, x <> "i" -> x <> "NODE_theta" ->
          globals k' !! x = globals k !! x).
Proof.
  intros R N Lt T La E.
  unfold cell_training_loop, load_int, bind.
  rewrite (load_global_run _ _ _ N). unfold ret.
  replace (Z.to_nat n) with (j + S (Z.to_nat n - S j))%nat by lia.
  rewrite seq_app, for_each_app. unfold bind.
  rewrite (training_steps_run j 0 k f s xs ys theta0 hist R T).
  cbn [seq for_each Nat.add]. unfold bind.
  set (kj := match last hist with Some _ => _ | None => k end).
  assert (Rj : loop_ready kj f s xs ys thetaj).
  { unfold kj. rewrite last_cons in La. destruct (last hist) as [th|].
    - injection La as ->. apply (loop_ready_after k f s xs ys theta0). exact R.
    - injection La as ->. exact R. }
  assert (Gj : forall x, x <> "i" -> x <> "NODE_theta" ->
                 globals kj !! x = globals k !! x).
  { intros x Hi Ht. unfold kj. destruct (last hist); [|reflexivity].
    cbn [globals after_iteration].
    rewrite !lookup_insert_ne by congruence. reflexivity. }
  destruct (training_step_fails kj f s xs ys thetaj e j Rj E) as (k' & St & G).
  rewrite St. exists k'. split; [reflexivity|]. rewrite G. split.
  - rewrite lookup_insert_ne by discriminate. apply Rj.
  - split; [apply lookup_insert_eq|].
    intros x Hi Ht. rewrite lookup_insert_ne by congruence. apply Gj; assumption.
Qed.

Lemma trajectory_app (m n : nat) (step : params -> result params)
    (theta theta1 : params) (h1 h2 : list params) :
  trajectory m step theta = Ok h1 ->
  last (theta :: h1) = Some theta1 ->
  trajectory n step theta1 = Ok h2 ->
  trajectory (m + n) step theta = Ok (h1 ++ h2).
Proof.
  revert theta h1. induction m as [|m IH]; intros theta h1 T1 La T2.
  - cbn in T1. injection T1 as <-. cbn in La. injection La as ->. exact T2.
  - cbn [trajectory Nat.add] in T1 |- *.
    destruct (step theta) as [th|] eqn:E; cbn [rbind] in T1 |- *;
      [|discriminate].
    destruct (trajectory m step th) as [rest|] eqn:T; cbn [rbind] in T1;
      [|discriminate].
    injection T1 as <-.
    rewrite (IH th rest T); [reflexivity | | exact T2].
    rewrite last_cons in La.
    destruct (last (th :: rest)) as [z|] eqn:Lr; [exact La|].
    apply last_None in Lr. discriminate Lr.
Qed.

(** X9.  Running the training cell again continues the training: the
    second run starts from the [NODE_theta] that the first one left,
    so two runs of [n] iterations leave the parameters that [n + n]
    iterations from the first parameters give. *)
Theorem training_cell_rerun_continues (k : kernel) (f : reader_function)
    (s : Q) (xs ys : array) (theta0 theta1 theta2 : params)
    (h1 h2 : list params) (n : nat) :
  loop_ready k f s xs ys theta0 ->
  globals k !! "train_iters" = Some (VInt (Z.of_nat n)) ->
  trajectory n (gd_step f s xs ys) theta0 = Ok h1 ->
  last (theta0 :: h1) = Some theta1 ->
  trajectory n (gd_step f s xs ys) theta1 = Ok h2 ->
  last (theta1 :: h2) = Some theta2 ->
  exists k1 k2,
    cell_training_loop k = (Ok tt, k1)
    /\ cell_training_loop k1 = (Ok tt, k2)
    /\ globals k1 !! "NODE_theta" = Some (VParams theta1)
    /\ globals k2 !! "NODE_theta" = Some (VParams theta2)
    /\ trajectory (n + n) (gd_step f s xs ys) theta0 = Ok (h1 ++ h2).
Proof.
  intros R N T1 L1 T2 L2.
  pose proof (cell_training_loop_run k f s xs ys theta0 h1 n R N T1) as E1.
  set (k1 := match last h1 with Some _ => _ | None => k end) in E1.
  assert (R1 : loop_ready k1 f s xs ys theta1).
  { unfold k1. rewrite last_cons in L1. destruct (last h1) as [th|].
    - injection L1 as ->. apply (loop_ready_after k f s xs ys theta0). exact R.
    - injection L1 as ->. exact R. }
  assert (N1 : globals k1 !! "train_iters" = Some (VInt (Z.of_nat n))).
  { unfold k1. destruct (last h1); [|exact N]. cbn [globals after_iteration].
    rewrite !lookup_insert_ne by discriminate. exact N. }
  pose proof (cell_training_loop_run k1 f s xs ys theta1 h2 n R1 N1 T2) as E2.
  set (k2 := match last h2 with Some _ => _ | None => k1 end) in E2.
  assert (R2 : loop_ready k2 f s xs ys theta2).
  { unfold k2. rewrite last_cons in L2. destruct (last h2) as [th|].
    - injection L2 as ->. apply (loop_ready_after k1 f s xs ys theta1). exact R1.
    - injection L2 as ->. exact R1. }
  exists k1, k2. split; [exact E1|]. split; [exact E2|].
  split; [apply R1|]. split; [apply R2|].
  exact (trajectory_app n n _ theta0 theta1 h1 h2 T1 L1 T2).
Qed.

(** ** The data cell of Example 0 *)

Lemma column_linspace_exact a b n k x :
  jnp_imported k ->
  np_reshape (np_linspace a b n) [n; 1%nat] = Some x ->
  column_linspace a b n k =
    (Ok x, Kernel (globals k) (rng_objects k) (numpy_global_rng k)
                  (calls k ++ [jnp_linspace; jnp_reshape])).
Proof.
  intros J E. unfold jnp_imported in J. unfold column_linspace. run.
  rewrite E. cbn. rewrite <- app_assoc. reflexivity.
Qed.

Lemma cell_data_exact k x t :
  jnp_imported k ->
  np_reshape (np_linspace (-5 # 2) (5 # 2) 15) [15; 1]%nat = Some x ->
  np_add (np_power x 3) (np_scale (1 # 10) x) = Some t ->
  cell_data k =
    (Ok tt,
     Kernel (<["target" := VArray t]> (<["input" := VArray x]> (globals k)))
            (rng_objects k) (numpy_global_rng k)
            (calls k ++ [jnp_linspace; jnp_reshape; op_pow; op_mul; op_add])).
Proof.
  intros J E A.
  unfold cell_data. unfold bind at 1.
  rewrite (column_linspace_exact _ _ _ k x J E). run.
  rewrite (load_array_run "input" x) by bound. cbn beta iota. run.
  rewrite (load_array_run "input" x) by bound. cbn beta iota. run.
  rewrite A. cbn beta iota. run. cbn [globals rng_objects numpy_global_rng calls].
  rewrite <- !app_assoc. reflexivity.
Qed.

Lemma data_arrays :
  exists x t,
    np_reshape (np_linspace (-5 # 2) (5 # 2) 15) [15; 1]%nat = Some x
    /\ np_add (np_power x 3) (np_scale (1 # 10) x) = Some t
    /\ shape x = [15; 1]%nat /\ shape t = [15; 1]%nat.
Proof.
  destruct (shape_reshape (np_linspace (-5 # 2) (5 # 2) 15) [15; 1]%nat)
    as (x & E & S).
  { rewrite shape_linspace. reflexivity. }
  destruct (shape_add (np_power x 3) (np_scale (1 # 10) x)) as (t & A & St).
  { rewrite shape_power, shape_scale. reflexivity. }
  exists x, t. split; [exact E|]. split; [exact A|]. split; [exact S|].
  rewrite St, shape_power. exact S.
Qed.

(** X10.  With [jnp] imported the cell returns: it binds [input] to a column
    of 15 points and [target] to the cubic of that column, an array of
    the same shape, computed from the [input] just bound. *)
Theorem data_cell_binds_two_columns (k : kernel) :
  jnp_imported k ->
  exists x t k',
    cell_data k = (Ok tt, k')
    /\ globals k' = <["target" := VArray t]> (<["input" := VArray x]> (globals k))
    /\ np_reshape (np_linspace (-5 # 2) (5 # 2) 15) [15; 1]%nat = Some x
    /\ np_add (np_power x 3) (np_scale (1 # 10) x) = Some t
    /\ shape x = [15; 1]%nat /\ shape t = shape x.
Proof.
  intros J. destruct data_arrays as (x & t & E & A & Sx & St).
  exists x, t. eexists. split; [exact (cell_data_exact k x t J E A)|].
  split; [reflexivity|]. split; [exact E|]. split; [exact A|].
  split; [exact Sx | congruence].
Qed.

Lemma load_module_fails x m k :
  globals k !! x <> Some (VModule m) ->
  exists e, load_module x m k = (Err e, k).
Proof.
  intros H. unfold load_module, bind, load_global.
  destruct (globals k !! x) as [v|]; [|eexists; reflexivity].
  destruct v; try (eexists; reflexivity).
  destruct (decide _) as [->|]; [contradiction | eexists; reflexivity].
Qed.

(** X11.  The cell reads nothing that an earlier run of it could have
    changed: run a second time, it leaves the namespace as the first
    run left it.  This holds in every kernel, also one where the cell
    raises. *)
Theorem data_cell_can_be_rerun (k : kernel) :
  globals (snd (cell_data (snd (cell_data k)))) = globals (snd (cell_data k)).
Proof.
  assert (J : jnp_imported k \/ globals k !! "jnp" <> Some (VModule jax_numpy)).
  { unfold jnp_imported.
    destruct (globals k !! "jnp") as [v|]; [|right; discriminate].
    destruct v as [| | | | |m| | |]; try (right; discriminate).
    destruct m; first [left; reflexivity | right; discriminate]. }
  destruct J as [J|J].
  - destruct data_arrays as (x & t & E & A & _).
    rewrite (cell_data_exact k x t J E A). cbn [snd].
    rewrite (cell_data_exact _ x t);
      [|unfold jnp_imported; bound | exact E | exact A].
    cbn [snd globals]. apply map_eq. intros y. rewrite !lookup_insert.
    repeat case_decide; reflexivity.
  - destruct (load_module_fails "jnp" jax_numpy k J) as [e Fail].
    assert (D : cell_data k = (Err e, k)).
    { unfold cell_data, column_linspace, bind. rewrite Fail. reflexivity. }
    rewrite D. cbn [snd]. rewrite D. reflexivity.
Qed.

(** ** The cells that stop half-way *)



Lemma cell_oscillator_data_stops k :
  globals k !! "np" = Some (VModule numpy) ->
  unbound k "y" ->
  cell_oscillator_data k =
    (Err (NameError "y"),
     Kernel (<["input" :=
                 VArray (np_scale 30 (fst (rand (numpy_global_rng k) [200%nat])))]>
               (globals k))
            (rng_objects k)
            (snd (rand (numpy_global_rng k) [200%nat]))
            (calls k ++ [np_random_rand; op_mul])).
Proof.
  intros N U. unfold cell_oscillator_data. run.
  destruct (rand (numpy_global_rng k) [200%nat]) as [u g]. cbn beta iota.
  cbn [fst snd]. run. unfold apply_to_input at 1. unfold bind.
  rewrite load_global_unbound.
  - rewrite <- !app_assoc. reflexivity.
  - unfold unbound. cbn [globals]. rewrite lookup_insert_ne by discriminate.
    exact U.
Qed.

(** X14.  The data cell of the oscillator example rebinds [input] before it
    raises on [y]: afterwards [input] holds the 200 samples scaled by
    30, numpy's own generator has advanced, and [target] is whatever it
    was before. *)
Theorem oscillator_cell_rebinds_input_only (k : kernel) :
  globals k !! "np" = Some (VModule numpy) ->
  unbound k "y" ->
  exists k',
    cell_oscillator_data k = (Err (NameError "y"), k')
    /\ globals k' !! "input"
         = Some (VArray (np_scale 30 (fst (rand (numpy_global_rng k) [200%nat]))))
    /\ (forall x, x <> "input" -> globals k' !! x = globals k !! x)
    /\ numpy_global_rng k' = snd (rand (numpy_global_rng k) [200%nat])
    /\ rng_objects k' = rng_objects k
    /\ calls k' = calls k ++ [np_random_rand; op_mul].
Proof.
  intros N U. eexists. split; [exact (cell_oscillator_data_stops k N U)|].
  cbn [globals rng_objects numpy_global_rng calls].
  split; [apply lookup_insert_eq|]. split; [|repeat split].
  intros x Hx. apply lookup_insert_ne. congruence.
Qed.

(** ** The last cell *)


(** ** What the reader adds stays *)

(** X16.  A name that no cell of the notebook assigns keeps its value through
    any run of cells of the notebook, in any order and any number of
    times: a [NODE_L2loss] written by the reader, say, is never
    overwritten. *)
Theorem reader_definitions_survive (cells : list (M unit)) (k : kernel)
    (x : string) (v : value) :
  Forall (fun c => c ∈ notebook) cells ->
  x ∉ notebook_names ->
  globals k !! x = Some v ->
  globals (snd (run_cells cells k)) !! x = Some v.
Proof.
  intros F Hx Hv. rewrite (run_cells_frame cells k x F Hx). exact Hv.
Qed.

(** ** Running the hyperparameter cell again *)

Lemma cell_hyperparameters_draws k loc g :
  globals k !! "init_random_params"
    = Some (VFunction (F_init_random_params loc)) ->
  rng_objects k !! loc = Some g ->
  cell_hyperparameters k =
    (Ok tt,
     Kernel (<["NODE_theta" := VParams (fst (NODE_draw g))]>
            (<["train_iters" := VInt 1000]>
            (<["step_size" := VFloat (5 # 10000)]>
            (<["NODE_width" := VInts [2; 20; 1]]> (globals k)))))
            (<[loc := snd (NODE_draw g)]> (rng_objects k))
            (numpy_global_rng k) (calls k ++ init_calls 2)).
Proof.
  intros F R. unfold cell_hyperparameters. run. cbn [call_function].
  unfold bind.
  match goal with |- context [init_random_params ?N loc ?k1] =>
    pose proof (init_random_params_draws [2; 20; 1]%nat loc g k1 R) as E end.
  change (Z.of_nat <$> [2; 20; 1]%nat) with [2; 20; 1] in E.
  rewrite E. unfold ret. rewrite assign_run. reflexivity.
Qed.

(** X17.  The default argument [nprand.RandomState(0)] is created when the
    [def] runs, not when the function is called.  So the hyperparameter
    cell run right after the [def] binds [NODE_theta] to the first
    draw from seed 0, whatever was run before; run once more, it binds
    the draw that follows in the same stream, not the first one
    again. *)
Theorem hyperparameter_cell_rerun (k : kernel) :
  globals k !! "nprand" = Some (VModule numpy_random) ->
  exists k1 k2,
    run_cells [cell_def_init_random_params; cell_hyperparameters] k
      = ([Ok tt; Ok tt], k1)
    /\ globals k1 !! "NODE_theta"
         = Some (VParams (fst (NODE_draw (new_RandomState 0))))
    /\ cell_hyperparameters k1 = (Ok tt, k2)
    /\ globals k2 !! "NODE_theta"
         = Some (VParams (fst (NODE_draw (snd (NODE_draw (new_RandomState 0)))))).
Proof.
  intros H. pose proof (cell_def_init_random_params_run k H) as E1.
  set (kd := Kernel _ _ _ _) in E1.
  assert (Fd : globals kd !! "init_random_params"
               = Some (VFunction (F_init_random_params (length (rng_objects k)))))
    by (unfold kd; cbn [globals]; apply lookup_insert_eq).
  assert (Rd : rng_objects kd !! length (rng_objects k) = Some (new_RandomState 0)).
  { unfold kd. cbn [rng_objects]. rewrite lookup_app_r by lia.
    rewrite Nat.sub_diag. reflexivity. }
  pose proof (cell_hyperparameters_draws kd _ _ Fd Rd) as E2.
  set (k1 := Kernel _ _ _ _) in E2.
  assert (F1 : globals k1 !! "init_random_params"
               = Some (VFunction (F_init_random_params (length (rng_objects k))))).
  { unfold k1. cbn [globals]. rewrite !lookup_insert_ne by discriminate.
    exact Fd. }
  assert (R1 : rng_objects k1 !! length (rng_objects k)
               = Some (snd (NODE_draw (new_RandomState 0)))).
  { unfold k1. cbn [rng_objects]. apply list_lookup_insert_eq.
    eapply lookup_lt_Some. exact Rd. }
  pose proof (cell_hyperparameters_draws k1 _ _ F1 R1) as E3.
  set (k2 := Kernel _ _ _ _) in E3.
  exists k1, k2. split.
  { exact (run_cells_cons _ _ _ _ _ _ _ E1
            (run_cells_cons _ [] _ _ _ _ _ E2 eq_refl)). }
  split; [unfold k1; cbn [globals]; apply lookup_insert_eq|].
  split; [exact E3|]. unfold k2. cbn [globals]. apply lookup_insert_eq.
Qed.

(** ** Shapes from [init_random_params] through [fcn] *)

Lemma layers_shape (N : list nat) (p n : nat) theta xs :
  batch_shapes ->
  N <> [] ->
  has_layout (p :: N) theta ->
  shape xs = [n; p] ->
  exists y q, layers theta xs = Ok y /\ last (p :: N) = Some q /\ shape y = [n; q].
Proof.
  intros [Hdot Hadd Htanh] NE. revert p theta xs.
  induction N as [|q N IH]; intros p theta xs Lay Sx; [congruence|].
  unfold has_layout in Lay. rewrite layer_sizes_cons2 in Lay.
  inversion Lay as [|pq [w b] l theta' [Sw Sb] Lay']; subst.
  cbn [fst snd] in Sw, Sb.
  destruct (Hdot xs w n p q Sx Sw) as (d & Ed & Sd).
  destruct (Hadd d b n q Sd Sb) as (o & Eo & So).
  assert (Sy : shape (np_tanh o) = [n; q]) by (rewrite Htanh; exact So).
  cbn [layers]. unfold layer, linear. cbn [fst snd]. rewrite Ed.
  cbn [from_library rbind].
  rewrite Eo. cbn [from_library rbind].
  destruct N as [|r N].
  - inversion Lay'; subst. exists (np_tanh o), q. split; [reflexivity|].
    split; [reflexivity | exact Sy].
  - destruct (IH ltac:(discriminate) q theta' (np_tanh o) Lay' Sy)
      as (y & q' & E & La & S).
    exists y, q'. split; [exact E|]. split; [|exact S].
    rewrite last_cons. rewrite La. reflexivity.
Qed.

(** X18.  What [init_random_params] returns is what [fcn] takes: for sizes
    [N] (two at least) and a batch of [n] rows with [N[0]] columns, no
    call of a layer raises, and the output has [n] rows and [N[-1]]
    columns. *)
Theorem fcn_accepts_init_random_params (N : list nat) (n p q rng : nat)
    (g : random_state) (xs : array) (k : kernel) :
  batch_shapes ->
  jnp_imported k ->
  rng_objects k !! rng = Some g ->
  (2 <= length N)%nat ->
  N !! 0%nat = Some p ->
  last N = Some q ->
  shape xs = [n; p] ->
  exists theta k1 o k2,
    init_random_params (Z.of_nat <$> N) rng k = (Ok theta, k1)
    /\ fcn theta xs k1 = (Ok o, k2)
    /\ shape o = [n; q].
Proof.
  intros B J R Len Hp Hq Sx.
  destruct (init_random_params_run N rng g k R)
    as (theta & k1 & E & Lay & G & _).
  assert (J1 : jnp_imported k1) by (unfold jnp_imported; rewrite G; exact J).
  destruct N as [|p' N]; [discriminate|]. injection Hp as ->.
  assert (NE : N <> []) by (destruct N; [cbn in Len; lia | discriminate]).
  destruct (layers_shape N p n theta xs B NE Lay Sx) as (y & q' & Ey & La & Sy).
  assert (q' = q) as -> by congruence.
  assert (TN : theta <> []).
  { intros ->. unfold has_layout in Lay. destruct N as [|r N]; [congruence|].
    rewrite layer_sizes_cons2 in Lay. inversion Lay. }
  destruct (fcn_loop_ok theta (Frame xs None) y k1 J1 TN Ey) as (o & Run & Ty).
  exists theta, k1, o. eexists. split; [exact E|].
  split; [unfold fcn, bind; rewrite Run; reflexivity|].
  destruct B as [_ _ Htanh]. rewrite <- (Htanh o), <- Ty. exact Sy.
Qed.

(** ** Example 0 as the cells set it up *)

Lemma setup_fcn_first_dot k0 :
  rng_objects k0 = [] ->
  (forall a w, shape a = [15; 1]%nat -> shape w = [2; 20]%nat ->
     np_dot a w = None) ->
  exists x theta k6,
    run_cells (take 6 notebook) k0 = (replicate 6 (Ok tt), k6)
    /\ globals k6 !! "input" = Some (VArray x)
    /\ globals k6 !! "NODE_theta" = Some (VParams theta)
    /\ fcn theta x k6 = (Err (LibraryError jnp_dot), with_calls k6 [jnp_dot]).
Proof.
  intros R0 Hdot.
  destruct (setup_run k0 R0)
    as (x & t & theta & rngs & E6 & Sx & _ & Lay).
  set (k6 := Kernel _ _ _ _) in E6.
  exists x, theta, k6. split; [exact E6|].
  split; [unfold k6, setup_globals; bound|].
  split; [unfold k6, setup_globals; bound|].
  unfold has_layout in Lay.
  change (layer_sizes [2; 20; 1]%nat) with [(2, 20); (20, 1)]%nat in Lay.
  inversion Lay as [|pq [w b] l theta' [Sw _] _]; subst. cbn [fst snd] in Sw.
  unfold fcn. cbn [fold_loop]. unfold fcn_body. cbn beta iota. unfold bind.
  rewrite (load_module_run "jnp" jax_numpy k6)
    by (unfold k6, setup_globals; bound).
  rewrite library_run. cbn [xs_]. rewrite (Hdot x w Sx Sw). reflexivity.
Qed.

(** X19.  The first weight drawn for the sizes [2, 20, 1] has 2 rows, and the
    [input] of the data cell has 1 column.  Where the library rejects
    such a product (jax and numpy contract the last axis of the first
    array with the first axis of the second), [fcn] applied to
    [NODE_theta] and [input], as the first six cells bind them, raises
    in its first [jnp.dot]. *)
Theorem example_0_sizes_and_input (entropy : random_state) :
  (forall a w, shape a = [15; 1]%nat -> shape w = [2; 20]%nat ->
     np_dot a w = None) ->
  exists x theta k6,
    run_cells (take 6 notebook) (fresh_kernel entropy) = (replicate 6 (Ok tt), k6)
    /\ globals k6 !! "input" = Some (VArray x)
    /\ globals k6 !! "NODE_theta" = Some (VParams theta)
    /\ fcn theta x k6 = (Err (LibraryError jnp_dot), with_calls k6 [jnp_dot]).
Proof.
  intros Hdot. exact (setup_fcn_first_dot (fresh_kernel entropy) eq_refl Hdot).
Qed.



Lemma cell_imports_oscillator_run k :
  cell_imports_oscillator k =
    (Ok tt,
     Kernel (<["tf" := VModule tensorflow]>
            (<["plt" := VModule pyplot]>
            (<["np" := VModule numpy]> (globals k))))
            (rng_objects k) (numpy_global_rng k) (calls k)).
Proof. reflexivity. Qed.

(** ** The last cell, called *)

Lemma cell_fit_run k a b c :
  globals k !! "ODE_model" = Some (VObject "Sequential") ->
  globals k !! "input" = Some (VArray a) ->
  globals k !! "target" = Some (VArray b) ->
  globals k !! "checkpoint" = Some c ->
  cell_fit k =
    if fit_accepts a b
    then (Ok tt,
          Kernel (<["history" := VObject "History"]> (globals k))
                 (rng_objects k) (numpy_global_rng k) (calls k ++ [Model_fit]))
    else (Err (LibraryError Model_fit), with_calls k [Model_fit]).
Proof.
  intros Hm Hx Hy Hc. unfold cell_fit. run.
  destruct (fit_accepts a b); cbn [from_library]; [run|]; reflexivity.
Qed.

(** ** The oscillator example with its exercise done *)

Lemma apply_to_input_run f g x a k :
  globals k !! f = Some (VReader g) ->
  globals k !! "input" = Some (VArray x) ->
  on_array g x = Ok a ->
  apply_to_input f k = (Ok a, with_calls k [reader_call]).
Proof.
  intros F X A. unfold apply_to_input, bind.
  rewrite (load_global_run _ _ _ F), (load_global_run _ _ _ X).
  cbn [call_function]. unfold bind, record, lift. rewrite A. reflexivity.
Qed.

Lemma cell_oscillator_data_run k (y y' : reader_function) a b s :
  globals k !! "np" = Some (VModule numpy) ->
  globals k !! "y" = Some (VReader y) ->
  globals k !! "y_prime" = Some (VReader y') ->
  on_array y (np_scale 30 (fst (rand (numpy_global_rng k) [200%nat]))) = Ok a ->
  on_array y' (np_scale 30 (fst (rand (numpy_global_rng k) [200%nat]))) = Ok b ->
  np_stack [a; b] = Some s ->
  cell_oscillator_data k =
    (Ok tt,
     Kernel (<["target" := VArray (np_transpose s)]>
            (<["input" :=
                 VArray (np_scale 30 (fst (rand (numpy_global_rng k) [200%nat])))]>
               (globals k)))
            (rng_objects k)
            (snd (rand (numpy_global_rng k) [200%nat]))
            (calls k ++ [np_random_rand; op_mul; reader_call; reader_call;
                         np_array; ndarray_T])).
Proof.
  intros N Y Y' A B S. unfold cell_oscillator_data. run.
  destruct (rand (numpy_global_rng k) [200%nat]) as [u g]. cbn beta iota.
  cbn [fst snd] in A, B |- *. run.
  match goal with |- context [apply_to_input "y" ?k1] =>
    rewrite (apply_to_input_run "y" y (np_scale 30 u) a k1)
      by (first [exact A | cbn [globals];
                 rewrite ?lookup_insert_ne by discriminate;
                 first [apply lookup_insert_eq | exact Y]]) end.
  match goal with |- context [apply_to_input "y_prime" ?k1] =>
    rewrite (apply_to_input_run "y_prime" y' (np_scale 30 u) b k1)
      by (first [exact B | cbn [globals with_calls];
                 rewrite ?lookup_insert_ne by discriminate;
                 first [apply lookup_insert_eq | exact Y']]) end.
  unfold with_calls. cbn [globals rng_objects numpy_global_rng calls]. run.
  rewrite S. cbn [from_library]. run.
  cbn [globals rng_objects numpy_global_rng calls].
  rewrite <- !app_assoc. reflexivity.
Qed.

(** The five cells of the oscillator example, when [y] and [y_prime]
    are functions of the reader that return on the input, the two
    results stack, and [fit] takes the data. *)
Lemma oscillator_cells_run k (y y' : reader_function) a b s :
  globals k !! "y" = Some (VReader y) ->
  globals k !! "y_prime" = Some (VReader y') ->
  on_array y (np_scale 30 (fst (rand (numpy_global_rng k) [200%nat]))) = Ok a ->
  on_array y' (np_scale 30 (fst (rand (numpy_global_rng k) [200%nat]))) = Ok b ->
  np_stack [a; b] = Some s ->
  fit_accepts (np_scale 30 (fst (rand (numpy_global_rng k) [200%nat])))
              (np_transpose s) = true ->
  exists k',
    run_cells [cell_imports_oscillator; cell_oscillator_data; cell_model;
               cell_checkpoint; cell_fit] k = (replicate 5 (Ok tt), k')
    /\ globals k' !! "input"
         = Some (VArray (np_scale 30 (fst (rand (numpy_global_rng k) [200%nat]))))
    /\ globals k' !! "target" = Some (VArray (np_transpose s))
    /\ calls k' = calls k ++ [np_random_rand; op_mul; reader_call; reader_call;
                              np_array; ndarray_T]
                          ++ model_calls ++ [keras_ModelCheckpoint; Model_fit].
Proof.
  intros Y Y' A B S Fit.
  pose proof (cell_imports_oscillator_run k) as E1.
  set (k1 := Kernel _ _ _ _) in E1.
  assert (N1 : globals k1 !! "np" = Some (VModule numpy)) by (unfold k1; bound).
  assert (F1 : globals k1 !! "tf" = Some (VModule tensorflow))
    by (unfold k1; bound).
  assert (Y1 : globals k1 !! "y" = Some (VReader y)) by (unfold k1; bound).
  assert (Y1' : globals k1 !! "y_prime" = Some (VReader y'))
    by (unfold k1; bound).
  pose proof (cell_oscillator_data_run k1 y y' a b s N1 Y1 Y1' A B S) as E2.
  change (numpy_global_rng k1) with (numpy_global_rng k) in E2.
  set (u := np_scale 30 (fst (rand (numpy_global_rng k) [200%nat]))) in *.
  set (k2 := Kernel _ _ _ _) in E2.
  assert (F2 : tf_imported k2) by (unfold tf_imported, k2; bound).
  pose proof (cell_model_run k2 F2) as E3.
  set (k3 := Kernel _ _ _ _) in E3.
  assert (E4 : cell_checkpoint k3 =
                 (Ok tt, Kernel (<["checkpoint" := VObject "ModelCheckpoint"]>
                                   (globals k3))
                                (rng_objects k3) (numpy_global_rng k3)
                                (calls k3 ++ [keras_ModelCheckpoint]))).
  { unfold cell_checkpoint, bind.
    rewrite (load_module_run "tf" tensorflow k3) by (unfold k3, k2; bound).
    reflexivity. }
  set (k4 := Kernel _ _ _ _) in E4.
  pose proof (cell_fit_run k4 u (np_transpose s) (VObject "ModelCheckpoint")
                ltac:(unfold k4, k3; bound) ltac:(unfold k4, k3, k2; bound)
                ltac:(unfold k4, k3, k2; bound) ltac:(unfold k4; bound)) as E5.
  rewrite Fit in E5. set (k5 := Kernel _ _ _ _) in E5.
  exists k5. split.
  { exact (run_cells_cons _ _ _ _ _ _ _ E1
            (run_cells_cons _ _ _ _ _ _ _ E2
            (run_cells_cons _ _ _ _ _ _ _ E3
            (run_cells_cons _ _ _ _ _ _ _ E4
            (run_cells_cons _ [] _ _ _ _ _ E5 eq_refl))))). }
  split; [unfold k5, k4, k3, k2; bound|].
  split; [unfold k5, k4, k3, k2; bound|].
  unfold k5, k4, k3, k2, k1. cbn [calls]. rewrite <- !app_assoc. reflexivity.
Qed.

(** ** The whole notebook, run from the top *)

(** The parameters that the first six cells leave in [NODE_theta] are
    the first draw from seed 0. *)
Lemma setup_theta k0 :
  rng_objects k0 = [] ->
  exists k6,
    snd (run_cells (take 6 notebook) k0) = k6
    /\ globals k6 !! "NODE_theta"
         = Some (VParams (fst (NODE_draw (new_RandomState 0)))).
Proof.
  intros R0.
  pose proof (cell_imports_run k0) as E1.
  set (k1 := Kernel _ _ _ _) in E1.
  destruct (cell_data_run k1) as (x & t & E2 & _);
    [unfold jnp_imported, k1; bound|].
  set (k2 := Kernel _ _ _ _) in E2.
  pose proof (cell_def_init_random_params_run k2) as E3.
  set (k3 := Kernel _ _ _ _) in E3.
  pose proof (cell_def_fcn_run k3) as E4.
  set (k4 := Kernel _ _ _ _) in E4.
  pose proof (cell_def_NODE_gd_binds k4) as E5.
  set (k5 := Kernel _ _ _ _) in E5.
  assert (F5 : globals k5 !! "init_random_params"
               = Some (VFunction (F_init_random_params 0))).
  { unfold k5, k4, k3, k2, k1. cbn [rng_objects]. rewrite R0. cbn [length app].
    bound. }
  assert (R5 : rng_objects k5 !! 0%nat = Some (new_RandomState 0)).
  { unfold k5, k4, k3, k2, k1. cbn [rng_objects]. rewrite R0. reflexivity. }
  pose proof (cell_hyperparameters_draws k5 0 _ F5 R5) as E6.
  set (k6 := Kernel _ _ _ _) in E6.
  exists k6. split; [|unfold k6; cbn [globals]; apply lookup_insert_eq].
  pose proof (run_cells_cons _ _ _ _ _ _ _ E1
            (run_cells_cons _ _ _ _ _ _ _ E2
            (run_cells_cons _ _ _ _ _ _ _ (E3 ltac:(unfold k2, k1; bound))
            (run_cells_cons _ _ _ _ _ _ _ E4
            (run_cells_cons _ _ _ _ _ _ _ E5
            (run_cells_cons _ [] _ _ _ _ _ E6 eq_refl)))))) as Run.
  apply (f_equal snd) in Run. exact Run.
Qed.

Lemma notebook_run k0 :
  rng_objects k0 = [] ->
  Forall (unbound k0) exercise_names ->
  exists t k13,
    run_cells notebook k0 =
      ([ Ok tt; Ok tt; Ok tt; Ok tt; Ok tt; Ok tt;
         Err (NameError "NODE_L2loss");
         Err (NameError "batched_ODESolve");
         Ok tt;
         Err (NameError "y");
         Ok tt; Ok tt;
         if fit_accepts (np_scale 30 (fst (rand (numpy_global_rng k0) [200%nat]))) t
         then Ok tt else Err (LibraryError Model_fit) ], k13)
    /\ shape t = [15; 1]%nat
    /\ globals k13 !! "input"
         = Some (VArray (np_scale 30 (fst (rand (numpy_global_rng k0) [200%nat]))))
    /\ globals k13 !! "target" = Some (VArray t)
    /\ globals k13 !! "NODE_theta"
         = Some (VParams (fst (NODE_draw (new_RandomState 0)))).
Proof.
  intros R0 U. unfold exercise_names in U.
  apply Forall_cons in U as [U1 U]. apply Forall_cons in U as [U2 U].
  apply Forall_cons in U as [U3 _].
  set (entropy := numpy_global_rng k0).
  destruct (setup_run k0 R0) as (x & t & theta & rngs & E6 & _ & St & _).
  destruct (setup_theta k0 R0) as (k6' & K & Th6).
  rewrite E6 in K. cbn [snd] in K. subst k6'.
  set (k6 := Kernel _ _ _ _) in E6, Th6.
  assert (T6 : training_ready k6) by apply setup_training_ready.
  assert (U6 : unbound k6 "NODE_L2loss")
    by (apply setup_unbound; [compute_done | exact U1]).
  assert (Ub6 : unbound k6 "batched_ODESolve")
    by (apply setup_unbound; [compute_done | exact U2]).
  assert (Uy6 : unbound k6 "y")
    by (apply setup_unbound; [compute_done | exact U3]).
  assert (P6 : globals k6 !! "plt" = Some (VModule pyplot))
    by (unfold k6, setup_globals; bound).
  assert (J6 : globals k6 !! "jnp" = Some (VModule jax_numpy))
    by (unfold k6, setup_globals; bound).
  assert (X6 : globals k6 !! "input" = Some (VArray x))
    by (unfold k6, setup_globals; bound).
  assert (Y6 : globals k6 !! "target" = Some (VArray t))
    by (unfold k6, setup_globals; bound).
  assert (R6 : numpy_global_rng k6 = entropy) by reflexivity.
  clearbody k6.
  pose proof (cell_training_loop_unresolved k6 T6 U6) as E7.
  set (k7 := Kernel _ _ _ _) in E7.
  assert (P7 : plot_ready k7).
  { unfold k7. split; cbn [globals]; [| |exists (VArray x)|exists (VArray t)];
      rewrite lookup_insert_ne by discriminate; assumption. }
  assert (U7 : unbound k7 "batched_ODESolve").
  { unfold unbound, k7. cbn [globals]. rewrite lookup_insert_ne by discriminate.
    exact Ub6. }
  assert (Uy7 : unbound k7 "y").
  { unfold unbound, k7. cbn [globals]. rewrite lookup_insert_ne by discriminate.
    exact Uy6. }
  assert (Y7 : globals k7 !! "target" = Some (VArray t)).
  { unfold k7. cbn [globals]. rewrite lookup_insert_ne by discriminate.
    exact Y6. }
  assert (R7 : numpy_global_rng k7 = entropy) by exact R6.
  assert (Th7 : globals k7 !! "NODE_theta"
                = Some (VParams (fst (NODE_draw (new_RandomState 0))))).
  { unfold k7. cbn [globals]. rewrite lookup_insert_ne by discriminate.
    exact Th6. }
  clearbody k7.
  destruct (cell_plot_unresolved k7 P7 U7) as (x' & E8).
  set (k8 := Kernel _ _ _ _) in E8.
  assert (E9 : cell_imports_oscillator k8 =
                 (Ok tt, Kernel (<["tf" := VModule tensorflow]>
                                (<["plt" := VModule pyplot]>
                                (<["np" := VModule numpy]> (globals k8))))
                                (rng_objects k8) (numpy_global_rng k8) (calls k8)))
    by reflexivity.
  set (k9 := Kernel _ _ _ _) in E9.
  assert (Y9 : globals k9 !! "target" = Some (VArray t)).
  { unfold k9, k8. cbn [globals]. rewrite !lookup_insert_ne by discriminate.
    exact Y7. }
  assert (N9 : globals k9 !! "np" = Some (VModule numpy)).
  { unfold k9. cbn [globals]. rewrite !lookup_insert_ne by discriminate.
    apply lookup_insert_eq. }
  assert (F9 : globals k9 !! "tf" = Some (VModule tensorflow))
    by (unfold k9; cbn [globals]; apply lookup_insert_eq).
  assert (U9 : unbound k9 "y").
  { unfold unbound, k9, k8. cbn [globals].
    rewrite !lookup_insert_ne by discriminate. exact Uy7. }
  assert (R9 : numpy_global_rng k9 = entropy) by exact R7.
  assert (Th9 : globals k9 !! "NODE_theta"
                = Some (VParams (fst (NODE_draw (new_RandomState 0))))).
  { unfold k9, k8. cbn [globals]. rewrite !lookup_insert_ne by discriminate.
    exact Th7. }
  clearbody k9. clearbody k8.
  pose proof (cell_oscillator_data_stops k9 N9 U9) as E10.
  rewrite R9 in E10.
  set (u := np_scale 30 (fst (rand entropy [200%nat]))) in *.
  set (k10 := Kernel _ _ _ _) in E10.
  assert (F10 : tf_imported k10).
  { unfold tf_imported, k10. cbn [globals].
    rewrite lookup_insert_ne by discriminate. exact F9. }
  pose proof (cell_model_run k10 F10) as E11.
  set (k11 := Kernel _ _ _ _) in E11.
  assert (E12 : cell_checkpoint k11 =
                  (Ok tt, Kernel (<["checkpoint" := VObject "ModelCheckpoint"]>
                                    (globals k11))
                                 (rng_objects k11) (numpy_global_rng k11)
                                 (calls k11 ++ [keras_ModelCheckpoint]))).
  { unfold cell_checkpoint, bind.
    rewrite (load_module_run "tf" tensorflow k11)
      by (unfold k11; cbn [globals]; rewrite lookup_insert_ne by discriminate;
          exact F10).
    reflexivity. }
  set (k12 := Kernel _ _ _ _) in E12.
  assert (M12 : globals k12 !! "ODE_model" = Some (VObject "Sequential")).
  { unfold k12, k11. cbn [globals]. rewrite lookup_insert_ne by discriminate.
    apply lookup_insert_eq. }
  assert (X12 : globals k12 !! "input" = Some (VArray u)).
  { unfold k12, k11, k10. cbn [globals].
    rewrite !lookup_insert_ne by discriminate. apply lookup_insert_eq. }
  assert (Y12 : globals k12 !! "target" = Some (VArray t)).
  { unfold k12, k11, k10. cbn [globals].
    rewrite !lookup_insert_ne by discriminate. exact Y9. }
  assert (C12 : globals k12 !! "checkpoint" = Some (VObject "ModelCheckpoint"))
    by (unfold k12; cbn [globals]; apply lookup_insert_eq).
  assert (Th12 : globals k12 !! "NODE_theta"
                 = Some (VParams (fst (NODE_draw (new_RandomState 0))))).
  { unfold k12, k11, k10. cbn [globals].
    rewrite !lookup_insert_ne by discriminate. exact Th9. }
  clearbody k12. clearbody k11. clearbody k10.
  pose proof (cell_fit_run k12 u t _ M12 X12 Y12 C12) as E13.
  destruct (cell_fit k12) as [r13 k13] eqn:R13.
  exists t, k13.
  assert (Run : run_cells notebook k0 =
            (replicate 6 (Ok tt) ++ [Err (NameError "NODE_L2loss")]
               ++ [Err (NameError "batched_ODESolve")] ++ [Ok tt]
               ++ [Err (NameError "y")] ++ [Ok tt] ++ [Ok tt] ++ [r13], k13)).
  { pose proof (run_cells_snoc _ _ _ _ _ _ _ E6 E7) as S7.
    pose proof (run_cells_snoc _ _ _ _ _ _ _ S7 E8) as S8.
    pose proof (run_cells_snoc _ _ _ _ _ _ _ S8 E9) as S9.
    pose proof (run_cells_snoc _ _ _ _ _ _ _ S9 E10) as S10.
    pose proof (run_cells_snoc _ _ _ _ _ _ _ S10 E11) as S11.
    pose proof (run_cells_snoc _ _ _ _ _ _ _ S11 E12) as S12.
    pose proof (run_cells_snoc _ _ _ _ _ _ _ S12 R13) as S13.
    rewrite <- !app_assoc in S13. exact S13. }
  assert (F13 : r13 = if fit_accepts u t then Ok tt
                     else Err (LibraryError Model_fit)).
  { apply (f_equal fst) in E13. cbn [fst] in E13. rewrite E13.
    destruct (fit_accepts u t); reflexivity. }
  assert (G13 : forall y, y <> "history" ->
                  globals k13 !! y = globals k12 !! y).
  { intros y Hy. apply (f_equal snd) in E13. cbn [snd] in E13. rewrite E13.
    destruct (fit_accepts u t); cbn [snd globals with_calls]; [|reflexivity].
    apply lookup_insert_ne. congruence. }
  rewrite Run, F13. split; [reflexivity|]. split; [exact St|].
  rewrite !G13 by discriminate.
  split; [exact X12|]. split; [exact Y12 | exact Th12].
Qed.

(** X20.  All thirteen cells in source order, from a fresh kernel.  Six
    return, the training loop and the plot stop at the missing names,
    the second imports return, the data cell of the oscillator stops at
    [y] after rebinding [input], the model and the checkpoint are
    built; so the last cell hands to [fit] the 200 samples of the
    oscillator as inputs and, as targets, the 15 rows that the data
    cell of Example 0 bound to [target].  [NODE_theta] is at the end
    what the hyperparameter cell drew: no training step has changed
    it. *)
Theorem notebook_from_the_top (entropy : random_state) :
  exists t k13,
    run_cells notebook (fresh_kernel entropy) =
      ([ Ok tt; Ok tt; Ok tt; Ok tt; Ok tt; Ok tt;
         Err (NameError "NODE_L2loss");
         Err (NameError "batched_ODESolve");
         Ok tt;
         Err (NameError "y");
         Ok tt; Ok tt;
         if fit_accepts (np_scale 30 (fst (rand entropy [200%nat]))) t
         then Ok tt else Err (LibraryError Model_fit) ], k13)
    /\ shape t = [15; 1]%nat
    /\ globals k13 !! "input"
         = Some (VArray (np_scale 30 (fst (rand entropy [200%nat]))))
    /\ globals k13 !! "target" = Some (VArray t)
    /\ globals k13 !! "NODE_theta"
         = Some (VParams (fst (NODE_draw (new_RandomState 0)))).
Proof.
  apply (notebook_run (fresh_kernel entropy)); [reflexivity|].
  repeat (constructor; [exact (lookup_empty _)|]). constructor.
Qed.

(** ** The KL notebook: images and [i_shape] *)

Lemma reshape_samples_fits (a : array) (n d1 d2 d3 : nat) (r : list nat) :
  shape a = n :: r ->
  foldr Nat.mul 1%nat r = (d1 * d2 * d3)%nat ->
  exists c, reshape_samples a d1 d2 d3 = inr c /\ shape c = [n; d1; d2; d3].
Proof.
  intros S E. unfold reshape_samples. rewrite S.
  destruct (shape_reshape a [n; d1; d2; d3]) as (c & R & Sc).
  { rewrite S. cbn [foldr]. rewrite E. lia. }
  exists c. rewrite R. split; [reflexivity | exact Sc].
Qed.

(** X21.  Whatever format the backend reports, on image arrays whose samples
    have [3 * img_width * img_height] values each the cell returns, both
    arrays keep their number of samples, and the shape of one sample is
    the [i_shape] that the cell binds (and the model is later built
    for): channels first in one branch, last in the other. *)
Theorem cell_layout_agrees_with_i_shape (format : string)
    (img_width img_height n m : nat) (r1 r2 : list nat) (s : images) :
  shape (i_train s) = n :: r1 ->
  shape (i_test s) = m :: r2 ->
  foldr Nat.mul 1%nat r1 = (3 * img_width * img_height)%nat ->
  foldr Nat.mul 1%nat r2 = (3 * img_width * img_height)%nat ->
  exists tr te sh,
    cell_layout format img_width img_height s = (None, Images tr te (Some sh))
    /\ shape tr = n :: sh
    /\ shape te = m :: sh
    /\ sh = (if String.eqb format "channels_first"
             then [3; img_width; img_height]
             else [img_width; img_height; 3])%nat.
Proof.
  intros S1 S2 E1 E2. unfold cell_layout, layout_branch.
  destruct (String.eqb format "channels_first").
  - destruct (reshape_samples_fits (i_train s) n 3 img_width img_height r1 S1)
      as (tr & R1 & T1); [lia|].
    destruct (reshape_samples_fits (i_test s) m 3 img_width img_height r2 S2)
      as (te & R2 & T2); [lia|].
    rewrite R1, R2. exists tr, te, [3; img_width; img_height]%nat.
    repeat split; assumption.
  - destruct (reshape_samples_fits (i_train s) n img_width img_height 3 r1 S1)
      as (tr & R1 & T1); [lia|].
    destruct (reshape_samples_fits (i_test s) m img_width img_height 3 r2 S2)
      as (te & R2 & T2); [lia|].
    rewrite R1, R2. exists tr, te, [img_width; img_height; 3]%nat.
    repeat split; assumption.
Qed.

End Properties.

(** * The statements on concrete data (real-number model) *)

Module Concrete.
Import RealModel Data.

Lemma prefix_of_notebook (n : nat) :
  Forall (fun c => c ∈ @notebook lib) (take n (@notebook lib)).
Proof. apply Forall_take, Forall_forall. intros c H. exact H. Qed.

Lemma after_1_jnp : @jnp_imported lib (after 1).
Proof.
  unfold after. change (take 1 (@notebook lib)) with [@cell_imports lib].
  cbn [run_cells]. rewrite cell_imports_run. cbn [snd].
  unfold jnp_imported. cbn [globals].
  rewrite !lookup_insert_ne by discriminate. apply lookup_insert_eq.
Qed.

(** *** [fcn] on a one-layer network *)

Lemma tanh_lt_1 (x : R) : (tanh x < 1)%R.
Proof.
  unfold tanh, sinh, cosh.
  pose proof (exp_pos x) as P. pose proof (exp_pos (- x)) as N.
  apply Rmult_lt_reg_r with ((exp x + exp (- x)) / 2)%R; [lra|].
  unfold Rdiv at 1. rewrite Rmult_assoc, Rinv_l; lra.
Qed.

Lemma fcn_one_layer :
  fst (@fcn lib [(w21, b1)] x2 (after 1)) = Ok o_linear.
Proof. exact (@fcn_snoc lib [] w21 b1 x2 (after 1) after_1_jnp). Qed.

(** C1 as stated fails: on a one-layer network whose library calls all
    return, [fcn] returns the linear output (the number 1), which is not
    the composition of the per-layer steps (the number tanh 1). *)
Lemma fcn_is_not_the_composition :
  @layers lib [(w21, b1)] x2 = Ok y_layer
  /\ fst (@fcn lib [(w21, b1)] x2 (after 1)) = Ok o_linear
  /\ fst (@fcn lib [(w21, b1)] x2 (after 1)) <> @layers lib [(w21, b1)] x2.
Proof.
  split; [reflexivity|]. split; [exact fcn_one_layer|].
  rewrite fcn_one_layer. change (@Ok (@array lib) o_linear <> Ok y_layer).
  intros [= H]. pose proof (tanh_lt_1 (0 * 1 + (0 * 1 + 0) + 1)) as T.
  rewrite <- H in T. lra.
Qed.

Lemma fcn_feedforward_witness :
  @jnp_imported lib (after 1)
  /\ [(w21, b1)] <> []
  /\ @layers lib [(w21, b1)] x2 = Ok y_layer
  /\ exists o,
       @fcn lib [(w21, b1)] x2 (after 1) =
         (Ok o, @with_calls lib (after 1) [jnp_dot; op_add; jnp_tanh])
       /\ @np_tanh lib o = y_layer
       /\ (forall init w b, [(w21, b1)] = init ++ [(w, b)] ->
             rbind (@layers lib init x2) (fun h => @linear lib h w b) = Ok o).
Proof.
  split; [exact after_1_jnp|]. split; [discriminate|]. split; [reflexivity|].
  apply (@fcn_feedforward lib [(w21, b1)] x2 y_layer (after 1)).
  - exact after_1_jnp.
  - discriminate.
  - reflexivity.
Defined.

Lemma fcn_requires_nonempty_theta_witness :
  @jnp_imported lib (after 1)
  /\ fst (@fcn lib [] x2 (after 1)) = Err (UnboundLocalError "outputs")
  /\ fst (@fcn lib [(w21, b1)] x2 (after 1)) = Ok o_linear.
Proof.
  split; [exact after_1_jnp|]. split.
  - apply (proj1 (@fcn_requires_nonempty_theta lib [] x2 (after 1)
                    after_1_jnp)).
    reflexivity.
  - apply (proj1 (proj2 (@fcn_requires_nonempty_theta lib [(w21, b1)] x2
                           (after 1) after_1_jnp)) [] w21 b1).
    reflexivity.
Defined.

(** *** The exercises *)


(** *** [init_random_params] *)

Lemma k_defined_rng : rng_objects k_defined !! 0%nat = Some (quiet 0).
Proof.
  unfold k_defined. rewrite cell_def_init_random_params_run.
  - unfold after. change (take 1 (@notebook lib)) with [@cell_imports lib].
    cbn [run_cells]. rewrite cell_imports_run. reflexivity.
  - unfold after. change (take 1 (@notebook lib)) with [@cell_imports lib].
    cbn [run_cells]. rewrite cell_imports_run. cbn [snd globals].
    rewrite !lookup_insert_ne by discriminate. apply lookup_insert_eq.
Qed.

(** C3 as stated fails on the empty list of sizes: the call returns the
    empty list, which has 0 pairs, while [len(N) - 1] is -1. *)
Lemma init_random_params_of_no_sizes :
  exists theta,
    fst (@init_random_params lib [] 0 k_defined) = Ok theta
    /\ Z.of_nat (length theta) <> Z.of_nat (length (@nil Z)) - 1.
Proof. exists []. split; [reflexivity | discriminate]. Qed.

Lemma init_random_params_layout_witness :
  rng_objects k_defined !! 0%nat = Some (quiet 0)
  /\ exists theta k',
       @init_random_params lib [2; 20; 1] 0 k_defined = (Ok theta, k')
       /\ Z.of_nat (length theta) = 2
       /\ exists w b, theta !! 1%nat = Some (w, b)
                      /\ nd_shape w = [20; 1]%nat /\ nd_shape b = [1]%nat.
Proof.
  split; [exact k_defined_rng|].
  destruct (@init_random_params_layout lib [2; 20; 1]%nat 0 (quiet 0)
              k_defined k_defined_rng)
    as (theta & k' & E & Len & Idx & _).
  exists theta, k'. split; [exact E|]. split; [exact Len|].
  apply (Idx 1%nat 20%nat 1%nat); reflexivity.
Defined.

(** *** The notebook with Exercise 2 done *)

Lemma ones_for_shapes theta : Forall2 (@same_shapes lib) theta (ones_for theta).
Proof.
  induction theta as [|[w b] theta IH]; cbn; constructor.
  - split; reflexivity.
  - exact IH.
Qed.

Lemma slope_loss_gradient xs ys N theta :
  @has_layout lib N theta ->
  exists grads, gradient slope_loss theta xs ys = Ok grads
                /\ Forall2 (@same_shapes lib) theta grads.
Proof.
  intros _. exists (ones_for theta). split; [reflexivity|].
  apply ones_for_shapes.
Qed.

(** What the first six cells leave in [input], [target] and
    [NODE_theta], and that the loop is ready to run on them. *)
Lemma k_exercise_ready :
  exists xs ys theta,
    @loop_ready lib k_exercise slope_loss (5 # 10000) xs ys theta
    /\ globals k_exercise !! "train_iters" = Some (VInt 1000)
    /\ calls k_exercise = setup_calls
    /\ @has_layout lib [2; 20; 1]%nat theta.
Proof.
  destruct (@setup_run lib k_fresh eq_refl)
    as (x & t & theta & rngs & E6 & _ & _ & Lay).
  exists x, t, theta. unfold k_exercise, after. rewrite E6. cbn [snd].
  destruct (@exercise_loop_ready lib (globals k_fresh) x t theta rngs
              (numpy_global_rng k_fresh) (calls k_fresh ++ setup_calls)
              slope_loss) as (R & N & C).
  split; [exact R|]. split; [exact N|]. split; [exact C | exact Lay].
Qed.

Lemma NODE_gd_preserves_layout_witness :
  exists xs ys theta theta' k',
    @gd_ready lib k_exercise slope_loss (5 # 10000)
    /\ gradient slope_loss theta xs ys = Ok (ones_for theta)
    /\ Forall2 (@same_shapes lib) theta (ones_for theta)
    /\ @has_layout lib [2; 20; 1]%nat theta
    /\ @NODE_gd lib theta xs ys k_exercise = (Ok theta', k')
    /\ length theta' = length theta
    /\ @has_layout lib [2; 20; 1]%nat theta'.
Proof.
  destruct k_exercise_ready as (xs & ys & theta & [R _ _ _ _] & _ & _ & Lay).
  destruct (@NODE_gd_preserves_layout lib k_exercise slope_loss (5 # 10000)
              theta (ones_for theta) xs ys R eq_refl (ones_for_shapes theta))
    as (theta' & k' & E & Len & _ & Keep & _).
  exists xs, ys, theta, theta', k'.
  split; [exact R|]. split; [reflexivity|].
  split; [exact (ones_for_shapes theta)|]. split; [exact Lay|].
  split; [exact E|]. split; [exact Len | exact (Keep _ Lay)].
Defined.


(** *** The calls of the training loop *)

(** C6 as stated fails on the training loop of Example 0.  With the
    loss defined, the loop returns after 1000 iterations; the calls it
    adds to the record are, per iteration, one gradient evaluation and
    the scalar products and subtractions written out in [NODE_gd]; and
    in the whole record, from the first cell on, there is no call of a
    library optimizer. *)
Lemma training_loop_calls_no_optimizer :
  exists k' hist,
    @cell_training_loop lib k_exercise = (Ok tt, k')
    /\ length hist = 1000%nat
    /\ calls k' = setup_calls ++ concat (@step_calls lib <$> hist)
    /\ Forall (fun c => c = jax_grad_call \/ c = op_mul \/ c = op_sub)
              (concat (@step_calls lib <$> hist))
    /\ existsb is_optimizer (calls k') = false.
Proof.
  destruct k_exercise_ready as (xs & ys & theta & R & N & C & Lay).
  destruct (@trajectory_total lib slope_loss (5 # 10000) xs ys [2; 20; 1]%nat
              (slope_loss_gradient xs ys _) 1000 theta Lay) as (hist & T & _).
  pose proof (@cell_training_loop_run lib k_exercise slope_loss (5 # 10000)
                xs ys theta hist 1000 R N T) as Run.
  pose proof (trajectory_length _ _ _ _ T) as Len.
  destruct (last hist) as [thetaN|] eqn:La.
  2:{ apply last_None in La. subst hist. discriminate Len. }
  eexists _, hist. split; [exact Run|]. split; [exact Len|].
  cbn [calls after_iteration]. rewrite C. split; [reflexivity|].
  split.
  - apply Forall_concat_fmap. apply step_calls_arithmetic.
  - rewrite existsb_app, no_optimizer_in_steps. reflexivity.
Qed.

Lemma training_update_is_handwritten_witness :
  exists xs ys theta hist k',
    @loop_ready lib k_exercise slope_loss (5 # 10000) xs ys theta
    /\ globals k_exercise !! "train_iters" = Some (VInt 1000)
    /\ trajectory 1000 (@gd_step lib slope_loss (5 # 10000) xs ys) theta
       = Ok hist
    /\ @cell_training_loop lib k_exercise = (Ok tt, k')
    /\ calls k' = calls k_exercise ++ concat (@step_calls lib <$> hist)
    /\ Forall (fun c => purpose_of c <> Optimizer)
              (concat (@step_calls lib <$> hist)).
Proof.
  destruct k_exercise_ready as (xs & ys & theta & R & N & _ & Lay).
  destruct (@trajectory_total lib slope_loss (5 # 10000) xs ys [2; 20; 1]%nat
              (slope_loss_gradient xs ys _) 1000 theta Lay) as (hist & T & _).
  destruct (proj1 (@training_update_is_handwritten lib k_exercise slope_loss
                     (5 # 10000) xs ys theta hist R N T))
    as (k' & Run & Calls & _ & NoOpt).
  exists xs, ys, theta, hist, k'.
  split; [exact R|]. split; [exact N|].
  split; [exact T|]. split; [exact Run|]. split; [exact Calls | exact NoOpt].
Defined.

(** ** The further properties on concrete data *)

Lemma after_1_globals :
  globals (after 1) =
    <["plt" := VModule pyplot]>
    (<["odeint" := VModule jax_odeint]>
    (<["random" := VModule jax_random]>
    (<["vmap" := VModule jax_vmap]>
    (<["jit" := VModule jax_jit]>
    (<["grad" := VModule jax_grad]>
    (<["nprand" := VModule numpy_random]>
    (<["jnp" := VModule jax_numpy]> (globals k_fresh)))))))).
Proof.
  unfold after. change (take 1 (@notebook lib)) with [@cell_imports lib].
  cbn [run_cells]. rewrite cell_imports_run. reflexivity.
Qed.

Lemma after_1_nprand : globals (after 1) !! "nprand" = Some (VModule numpy_random).
Proof.
  rewrite after_1_globals. rewrite !lookup_insert_ne by discriminate.
  apply lookup_insert_eq.
Qed.

Lemma after_1_grad : globals (after 1) !! "grad" = Some (VModule jax_grad).
Proof.
  rewrite after_1_globals. rewrite !lookup_insert_ne by discriminate.
  apply lookup_insert_eq.
Qed.

Lemma k_defined_jnp : @jnp_imported lib k_defined.
Proof.
  unfold k_defined. rewrite (cell_def_init_random_params_run _ after_1_nprand).
  unfold jnp_imported. cbn [snd globals].
  rewrite lookup_insert_ne by discriminate. exact after_1_jnp.
Qed.

(** *** The generator behind [init_random_params] *)

Lemma init_random_params_shares_generator_witness :
  rng_objects k_counting !! 0%nat = Some (counting 0)
  /\ exists k1 k2,
       @init_random_params lib_counting [1; 1] 0 k_counting =
         (Ok [(NDArray [1; 1]%nat [INR 0], NDArray [1]%nat [INR 1])], k1)
       /\ @init_random_params lib_counting [1; 1] 0 k1 =
            (Ok [(NDArray [1; 1]%nat [INR 2], NDArray [1]%nat [INR 3])], k2).
Proof.
  split; [reflexivity|].
  destruct (@init_random_params_shares_generator lib_counting [1; 1]%nat 0
              (counting 0) k_counting eq_refl) as (k1 & k2 & E1 & E2 & _).
  exists k1, k2. split; [exact E1 | exact E2].
Defined.

Lemma hyperparameter_cell_rerun_witness :
  globals (after 1) !! "nprand" = Some (VModule numpy_random)
  /\ exists k1 k2,
       @run_cells lib [cell_def_init_random_params; cell_hyperparameters]
         (after 1) = ([Ok tt; Ok tt], k1)
       /\ @cell_hyperparameters lib k1 = (Ok tt, k2).
Proof.
  split; [exact after_1_nprand|].
  destruct (@hyperparameter_cell_rerun lib (after 1) after_1_nprand)
    as (k1 & k2 & E1 & _ & E2 & _).
  exists k1, k2. split; [exact E1 | exact E2].
Defined.

Lemma map_seq_shift (g : nat -> R) (a s b : nat) :
  map (fun i => g (i + a)%nat) (seq s b) = map g (seq (s + a) b).
Proof.
  revert s. induction b as [|b IH]; intros s; [reflexivity|].
  cbn [seq map]. f_equal. apply (IH (S s)).
Qed.

Lemma map_seq_shift2 (g : nat -> R) (a b s c : nat) :
  map (fun i => g (i + b + a)%nat) (seq s c) = map g (seq (s + b + a) c).
Proof.
  revert s. induction c as [|c IH]; intros s; [reflexivity|].
  cbn [seq map]. f_equal. apply (IH (S s)).
Qed.

Lemma sample_layers_stream (noise : Z -> nat -> R) (g : nat -> R)
    (l : list (nat * nat)) :
  flatten (fst (@sample_layers (real_library noise) g l))
    = map g (seq 0 (param_count l))
  /\ forall i, snd (@sample_layers (real_library noise) g l) i
               = g (i + param_count l)%nat.
Proof.
  revert g. induction l as [|[p q] l IH]; intros g.
  - split; [reflexivity|]. intros i. cbn. f_equal. lia.
  - cbn [sample_layers sample_layer randn real_library draw fst snd].
    unfold size_of. cbn [foldr].
    set (g2 := fun i : nat => g (i + q * 1 + p * (q * 1))%nat).
    destruct (IH g2) as [F G].
    destruct (@sample_layers (real_library noise) g2 l) as [theta g3].
    cbn [fst snd] in F, G |- *. split.
    + unfold flatten in F |- *. cbn [map concat fst snd nd_data]. rewrite F.
      unfold g2. rewrite (map_seq_shift2 g (p * (q * 1)) (q * 1) 0).
      rewrite (map_seq_shift g (p * (q * 1)) 0).
      cbn [param_count foldr fst snd]. fold (param_count l).
      rewrite <- !map_app. f_equal.
      replace (0 + q * 1 + p * (q * 1))%nat with (0 + (p * (q * 1) + q * 1))%nat
        by lia.
      rewrite <- !seq_app. f_equal. lia.
    + intros i. rewrite G. unfold g2. cbn [param_count foldr fst snd].
      fold (param_count l). f_equal. lia.
Qed.

(** X22.  Over the real-number model: the numbers of the parameters that a
    call returns are the next samples of the generator's stream, in
    order and without gaps (weight before bias, layer after layer), and
    the generator is left right after them. *)
Theorem init_random_params_takes_next_samples (noise : Z -> nat -> R)
    (N : list nat) (rng : nat) (g : nat -> R)
    (k : @kernel (real_library noise)) :
  rng_objects k !! rng = Some g ->
  exists theta k' g',
    @init_random_params (real_library noise) (Z.of_nat <$> N) rng k
      = (Ok theta, k')
    /\ flatten theta = map g (seq 0 (param_count (layer_sizes N)))
    /\ rng_objects k' !! rng = Some g'
    /\ forall i, g' i = g (i + param_count (layer_sizes N))%nat.
Proof.
  intros H.
  pose proof (@init_random_params_draws (real_library noise) N rng g k H) as E.
  destruct (sample_layers_stream noise g (layer_sizes N)) as [F G].
  eexists _, _, _. split; [exact E|]. split; [exact F|]. split; [|exact G].
  cbn [rng_objects]. apply list_lookup_insert_eq. eapply lookup_lt_Some. exact H.
Qed.

Lemma init_random_params_takes_next_samples_witness :
  rng_objects k_counting !! 0%nat = Some (counting 0)
  /\ exists theta k',
       @init_random_params lib_counting [2; 1] 0 k_counting = (Ok theta, k')
       /\ flatten theta = [INR 0; INR 1; INR 2].
Proof.
  split; [reflexivity|].
  destruct (init_random_params_takes_next_samples counting [2; 1]%nat 0
              (counting 0) k_counting eq_refl)
    as (theta & k' & g' & E & F & _).
  exists theta, k'. split; [exact E | exact F].
Defined.

(** *** Sizes that give no layer, or no array *)

Lemma init_random_params_negative_size_witness :
  rng_objects k_defined !! 0%nat = Some (quiet 0)
  /\ (2 <= length [2; -1]%Z)%nat
  /\ Exists (fun n => n < 0) [2; -1]
  /\ fst (@init_random_params lib [2; -1] 0 k_defined)
     = Err (LibraryError RandomState_randn).
Proof.
  assert (Len : (2 <= length [2; -1]%Z)%nat) by (cbn; lia).
  assert (Neg : Exists (fun n => n < 0) [2; -1])
    by (apply Exists_cons_tl, Exists_cons_hd; lia).
  split; [exact k_defined_rng|]. split; [exact Len|]. split; [exact Neg|].
  exact (@init_random_params_negative_size lib [2; -1] 0 (quiet 0) k_defined
           k_defined_rng Len Neg).
Defined.

Lemma single_size_gives_no_layer_witness :
  (length [-3]%Z <= 1)%nat
  /\ exists theta,
       @init_random_params lib [-3] 0 k_fresh = (Ok theta, k_fresh)
       /\ theta = []
       /\ @fcn lib theta x2 k_fresh = (Err (UnboundLocalError "outputs"), k_fresh).
Proof.
  assert (Len : (length [-3]%Z <= 1)%nat) by (cbn; lia).
  split; [exact Len|].
  exact (@single_size_gives_no_layer lib [-3] 0 x2 k_fresh Len).
Defined.

(** *** [NODE_gd] and the training loop at their edges *)

(** The first six cells, then a loss [f]: the names the loop reads are
    bound, and so is the exercise. *)
Lemma k_with_loss_ready (f : @reader_function lib) :
  exists xs ys theta,
    @loop_ready lib (k_with_loss f) f (5 # 10000) xs ys theta
    /\ globals (k_with_loss f) !! "train_iters" = Some (VInt 1000)
    /\ globals (k_with_loss f) !! "NODE_L2loss" = Some (VReader f).
Proof.
  destruct (@setup_run lib k_fresh eq_refl)
    as (x & t & theta & rngs & E6 & _ & _ & _).
  exists x, t, theta. unfold k_with_loss, after. rewrite E6. cbn [snd].
  destruct (@exercise_loop_ready lib (globals k_fresh) x t theta rngs
              (numpy_global_rng k_fresh) (calls k_fresh ++ setup_calls) f)
    as (R & N & _).
  split; [exact R|]. split; [exact N|]. apply R.
Qed.

Lemma NODE_gd_truncates_witness :
  exists theta',
    @gd_ready lib (k_with_loss no_gradient_loss) no_gradient_loss (5 # 10000)
    /\ gradient no_gradient_loss [(w21, b1)] x2 x2 = Ok []
    /\ fst (@NODE_gd lib [(w21, b1)] x2 x2 (k_with_loss no_gradient_loss))
       = Ok theta'
    /\ length theta' = 0%nat.
Proof.
  destruct (k_with_loss_ready no_gradient_loss)
    as (xs & ys & theta & [R _ _ _ _] & _).
  destruct (@NODE_gd_truncates lib (k_with_loss no_gradient_loss)
              no_gradient_loss (5 # 10000) [(w21, b1)] [] x2 x2 R eq_refl
              (List.Forall2_nil _))
    as (theta' & E & Len & _).
  exists theta'. split; [exact R|]. split; [reflexivity|].
  split; [rewrite E; reflexivity | exact Len].
Defined.

Lemma k_no_step_size_unbound : @unbound lib k_no_step_size "step_size".
Proof.
  unfold unbound, k_no_step_size. cbn [assign snd globals].
  rewrite lookup_insert_ne by discriminate. rewrite after_1_globals.
  rewrite !lookup_insert_ne by discriminate. apply lookup_empty.
Qed.

Lemma NODE_gd_reads_step_size_late_witness :
  globals k_no_step_size !! "grad" = Some (VModule jax_grad)
  /\ globals k_no_step_size !! "NODE_L2loss" = Some (VReader slope_loss)
  /\ @unbound lib k_no_step_size "step_size"
  /\ @NODE_gd lib [(w21, b1)] x2 x2 k_no_step_size =
       (Err (NameError "step_size"),
        @with_calls lib k_no_step_size [jax_grad_call])
  /\ @NODE_gd lib [] x2 x2 k_no_step_size =
       (Ok [], @with_calls lib k_no_step_size [jax_grad_call]).
Proof.
  assert (G : globals k_no_step_size !! "grad" = Some (VModule jax_grad)).
  { unfold k_no_step_size. cbn [assign snd globals].
    rewrite lookup_insert_ne by discriminate. exact after_1_grad. }
  assert (Lo : globals k_no_step_size !! "NODE_L2loss"
               = Some (VReader slope_loss)).
  { unfold k_no_step_size. cbn [assign snd globals]. apply lookup_insert_eq. }
  split; [exact G|]. split; [exact Lo|]. split; [exact k_no_step_size_unbound|].
  split.
  - exact (@NODE_gd_reads_step_size_late lib k_no_step_size slope_loss
             [(w21, b1)] (ones_for [(w21, b1)]) x2 x2 G Lo
             k_no_step_size_unbound eq_refl).
  - exact (@NODE_gd_reads_step_size_late lib k_no_step_size slope_loss
             [] (ones_for []) x2 x2 G Lo k_no_step_size_unbound eq_refl).
Defined.

Lemma training_loop_without_iterations_witness :
  globals k_no_iterations !! "train_iters" = Some (VInt 0)
  /\ @cell_training_loop lib k_no_iterations = (Ok tt, k_no_iterations).
Proof.
  assert (N : globals k_no_iterations !! "train_iters" = Some (VInt 0)).
  { unfold k_no_iterations. cbn [assign snd globals]. apply lookup_insert_eq. }
  split; [exact N|].
  apply (@training_loop_without_iterations lib k_no_iterations 0 N). lia.
Defined.

Lemma training_loop_keeps_progress_witness :
  exists xs ys theta0 k',
    @loop_ready lib (k_with_loss failing_loss) failing_loss (5 # 10000)
      xs ys theta0
    /\ @gd_step lib failing_loss (5 # 10000) xs ys theta0
       = Err (TypeError "loss")
    /\ @cell_training_loop lib (k_with_loss failing_loss)
       = (Err (TypeError "loss"), k')
    /\ globals k' !! "NODE_theta" = Some (VParams theta0)
    /\ globals k' !! "i" = Some (VInt 0).
Proof.
  destruct (k_with_loss_ready failing_loss) as (xs & ys & theta0 & R & N & _).
  destruct (@training_loop_keeps_progress lib (k_with_loss failing_loss)
              failing_loss (5 # 10000) xs ys theta0 theta0 [] (TypeError "loss")
              1000 0 R N ltac:(lia) eq_refl eq_refl eq_refl)
    as (k' & Run & T & I & _).
  exists xs, ys, theta0, k'. split; [exact R|]. split; [reflexivity|].
  split; [exact Run|]. split; [exact T | exact I].
Defined.

Lemma training_cell_rerun_continues_witness :
  exists xs ys theta0 theta2 h k1 k2,
    @loop_ready lib k_exercise slope_loss (5 # 10000) xs ys theta0
    /\ trajectory (1000 + 1000) (@gd_step lib slope_loss (5 # 10000) xs ys)
         theta0 = Ok h
    /\ last h = Some theta2
    /\ @cell_training_loop lib k_exercise = (Ok tt, k1)
    /\ @cell_training_loop lib k1 = (Ok tt, k2)
    /\ globals k2 !! "NODE_theta" = Some (VParams theta2).
Proof.
  destruct k_exercise_ready as (xs & ys & theta0 & R & N & _ & Lay).
  destruct (@trajectory_total lib slope_loss (5 # 10000) xs ys [2; 20; 1]%nat
              (slope_loss_gradient xs ys _) 1000 theta0 Lay)
    as (h1 & T1 & Lays).
  destruct (last (theta0 :: h1)) as [theta1|] eqn:L1;
    [|rewrite last_cons in L1; destruct (last h1); discriminate].
  assert (Lay1 : @has_layout lib [2; 20; 1]%nat theta1).
  { rewrite last_cons in L1. destruct (last h1) as [th|] eqn:Lh.
    - injection L1 as <-. apply last_Some in Lh as (h' & ->).
      apply Forall_app in Lays as [_ Hl]. apply Forall_cons in Hl as [Hl _].
      exact Hl.
    - injection L1 as <-. exact Lay. }
  destruct (@trajectory_total lib slope_loss (5 # 10000) xs ys [2; 20; 1]%nat
              (slope_loss_gradient xs ys _) 1000 theta1 Lay1)
    as (h2 & T2 & _).
  pose proof (trajectory_length _ _ _ _ T2) as Len2.
  destruct (last h2) as [theta2|] eqn:Lh2;
    [|apply last_None in Lh2; subst h2; discriminate].
  assert (L2 : last (theta1 :: h2) = Some theta2)
    by (rewrite last_cons, Lh2; reflexivity).
  destruct (@training_cell_rerun_continues lib k_exercise slope_loss
              (5 # 10000) xs ys theta0 theta1 theta2 h1 h2 1000 R N T1 L1 T2 L2)
    as (k1 & k2 & E1 & E2 & _ & Th2 & T).
  exists xs, ys, theta0, theta2, (h1 ++ h2), k1, k2.
  split; [exact R|]. split; [exact T|].
  split; [rewrite last_app, Lh2; reflexivity|].
  split; [exact E1|]. split; [exact E2 | exact Th2].
Defined.

(** *** The cells of Example 0 and of the oscillator *)

Lemma data_cell_binds_two_columns_witness :
  @jnp_imported lib (after 1)
  /\ exists (x t : @array lib) k',
       @cell_data lib (after 1) = (Ok tt, k')
       /\ @shape lib x = [15; 1]%nat /\ @shape lib t = [15; 1]%nat
       /\ globals k' !! "target" = Some (VArray t).
Proof.
  split; [exact after_1_jnp|].
  destruct (@data_cell_binds_two_columns lib (after 1) after_1_jnp)
    as (x & t & k' & E & G & _ & _ & Sx & St).
  exists x, t, k'. split; [exact E|]. split; [exact Sx|].
  split; [exact (eq_trans St Sx)|]. rewrite G. apply lookup_insert_eq.
Defined.




Lemma k_oscillator_globals :
  globals k_oscillator =
    <["tf" := VModule tensorflow]>
    (<["plt" := VModule pyplot]>
    (<["np" := VModule numpy]> (globals k_fresh))).
Proof. unfold k_oscillator. rewrite cell_imports_oscillator_run. reflexivity. Qed.

Lemma oscillator_cell_rebinds_input_only_witness :
  globals k_oscillator !! "np" = Some (VModule numpy)
  /\ @unbound lib k_oscillator "y"
  /\ exists k',
       @cell_oscillator_data lib k_oscillator = (Err (NameError "y"), k')
       /\ globals k' !! "target" = None
       /\ exists x, globals k' !! "input" = Some (VArray x).
Proof.
  assert (N : globals k_oscillator !! "np" = Some (VModule numpy)).
  { rewrite k_oscillator_globals. rewrite !lookup_insert_ne by discriminate.
    apply lookup_insert_eq. }
  assert (U : @unbound lib k_oscillator "y").
  { unfold unbound. rewrite k_oscillator_globals.
    rewrite !lookup_insert_ne by discriminate. apply lookup_empty. }
  split; [exact N|]. split; [exact U|].
  destruct (@oscillator_cell_rebinds_input_only lib k_oscillator N U)
    as (k' & E & X & Keep & _).
  exists k'. split; [exact E|]. split.
  - rewrite Keep by discriminate. rewrite k_oscillator_globals.
    rewrite !lookup_insert_ne by discriminate. apply lookup_empty.
  - eexists. exact X.
Defined.


Lemma reader_definitions_survive_witness :
  Forall (fun c => c ∈ @notebook lib) (take 10 (@notebook lib))
  /\ ("NODE_L2loss" ∉ notebook_names)
  /\ globals k_exercise !! "NODE_L2loss" = Some (VReader slope_loss)
  /\ globals (snd (@run_cells lib (take 10 (@notebook lib)) k_exercise))
       !! "NODE_L2loss" = Some (VReader slope_loss).
Proof.
  assert (Hn : "NODE_L2loss" ∉ notebook_names) by compute_done.
  assert (Hv : globals k_exercise !! "NODE_L2loss" = Some (VReader slope_loss)).
  { unfold k_exercise. cbn [assign snd globals]. apply lookup_insert_eq. }
  split; [exact (prefix_of_notebook 10)|]. split; [exact Hn|].
  split; [exact Hv|].
  exact (@reader_definitions_survive lib _ k_exercise "NODE_L2loss" _
           (prefix_of_notebook 10) Hn Hv).
Defined.

(** *** The oscillator example with its exercise done *)

(** X23.  Over the real-number model: once [y] and [y_prime] are bound
    to functions of the reader that keep the shape of their argument,
    the five cells of the oscillator example all return; [input] is
    bound to 200 samples, [target] to an array of 200 rows and 2
    columns (the two results stacked and transposed), and [fit] takes
    them. *)
Theorem oscillator_example_runs_with_exercise (noise : Z -> nat -> R)
    (y y' : @reader_function (real_library noise))
    (k : @kernel (real_library noise)) :
  keeps_shape noise y ->
  keeps_shape noise y' ->
  globals k !! "y" = Some (VReader y) ->
  globals k !! "y_prime" = Some (VReader y') ->
  exists k' (x t : @array (real_library noise)),
    @run_cells (real_library noise)
      [cell_imports_oscillator; cell_oscillator_data; cell_model;
       cell_checkpoint; cell_fit] k = (replicate 5 (Ok tt), k')
    /\ globals k' !! "input" = Some (VArray x)
    /\ nd_shape x = [200]%nat
    /\ globals k' !! "target" = Some (VArray t)
    /\ nd_shape t = [200; 2]%nat.
Proof.
  intros Hy Hy' Y Y'.
  set (u := @np_scale (real_library noise) 30
              (fst (@rand (real_library noise) (numpy_global_rng k) [200%nat]))).
  assert (Su : nd_shape u = [200]%nat) by reflexivity.
  destruct (Hy u) as (a & A & Sa). destruct (Hy' u) as (b & B & Sb).
  rewrite Su in Sa, Sb.
  assert (S : exists s, @np_stack (real_library noise) [a; b] = Some s
                        /\ nd_shape s = [2; 200]%nat).
  { cbn [np_stack real_library]. unfold stack. cbn [forallb].
    rewrite !bool_decide_eq_true_2 by congruence. cbn [andb].
    eexists. split; [reflexivity|]. cbn [nd_shape length]. rewrite Sa.
    reflexivity. }
  destruct S as (s & S & Ss).
  assert (St : nd_shape (@np_transpose (real_library noise) s) = [200; 2]%nat).
  { cbn [np_transpose real_library transpose nd_shape]. rewrite Ss. reflexivity. }
  destruct (@oscillator_cells_run (real_library noise) k y y' a b s Y Y' A B S)
    as (k' & Run & X & T & _).
  { cbn [fit_accepts real_library]. apply bool_decide_eq_true_2.
    fold u. rewrite Su, St. reflexivity. }
  exists k', u, (@np_transpose (real_library noise) s).
  split; [exact Run|]. split; [exact X|]. split; [exact Su|].
  split; [exact T | exact St].
Qed.

Lemma same_array_keeps_shape : keeps_shape quiet same_array.
Proof. intros x. exists x. split; reflexivity. Qed.

Lemma oscillator_example_runs_with_exercise_witness :
  keeps_shape quiet same_array
  /\ globals k_with_y !! "y" = Some (VReader same_array)
  /\ globals k_with_y !! "y_prime" = Some (VReader same_array)
  /\ exists k' (x t : @array lib),
       @run_cells lib
         [cell_imports_oscillator; cell_oscillator_data; cell_model;
          cell_checkpoint; cell_fit] k_with_y = (replicate 5 (Ok tt), k')
       /\ globals k' !! "target" = Some (VArray t)
       /\ nd_shape t = [200; 2]%nat.
Proof.
  assert (Y : globals k_with_y !! "y" = Some (VReader same_array)).
  { unfold k_with_y. cbn [assign snd globals].
    rewrite lookup_insert_ne by discriminate. apply lookup_insert_eq. }
  assert (Y' : globals k_with_y !! "y_prime" = Some (VReader same_array)).
  { unfold k_with_y. cbn [assign snd globals]. apply lookup_insert_eq. }
  split; [exact same_array_keeps_shape|]. split; [exact Y|]. split; [exact Y'|].
  destruct (oscillator_example_runs_with_exercise quiet same_array same_array
              k_with_y same_array_keeps_shape same_array_keeps_shape Y Y')
    as (k' & x & t & Run & _ & _ & T & St).
  exists k', x, t. split; [exact Run|]. split; [exact T | exact St].
Defined.

(** *** Shapes *)

Lemma real_dot_mismatch (a w : ndarray) :
  nd_shape a = [15; 1]%nat -> nd_shape w = [2; 20]%nat -> dot a w = None.
Proof. intros Sa Sw. unfold dot. rewrite Sa, Sw. reflexivity. Qed.

Lemma example_0_sizes_and_input_witness :
  (forall a w : ndarray,
     nd_shape a = [15; 1]%nat -> nd_shape w = [2; 20]%nat -> dot a w = None)
  /\ exists x theta k6,
       globals k6 !! "input" = Some (VArray x)
       /\ globals k6 !! "NODE_theta" = Some (VParams theta)
       /\ fst (@fcn lib theta x k6) = Err (LibraryError jnp_dot).
Proof.
  split; [exact real_dot_mismatch|].
  destruct (@example_0_sizes_and_input lib (fun _ => 0%R) real_dot_mismatch)
    as (x & theta & k6 & _ & X & T & F).
  exists x, theta, k6. split; [exact X|]. split; [exact T|].
  rewrite F. reflexivity.
Defined.

Lemma real_batch_shapes : @batch_shapes lib.
Proof.
  split.
  - intros a w n p q Sa Sw. cbn [np_dot lib real_library]. unfold dot.
    cbn [shape lib real_library] in Sa, Sw. rewrite Sa, Sw. cbn [rev app].
    rewrite Nat.eqb_refl. eexists. split; reflexivity.
  - intros d b n q Sd Sb. cbn [np_add lib real_library].
    cbn [shape lib real_library] in Sd, Sb |- *.
    unfold elementwise, broadcast_shapes. rewrite Sd, Sb.
    cbn [rev app broadcast_rev]. rewrite Nat.eqb_refl.
    eexists. split; reflexivity.
  - intros a. reflexivity.
Qed.

Lemma fcn_accepts_init_random_params_witness :
  @batch_shapes lib
  /\ @jnp_imported lib k_defined
  /\ rng_objects k_defined !! 0%nat = Some (quiet 0)
  /\ exists theta k1 o k2,
       @init_random_params lib [2; 20; 1] 0 k_defined = (Ok theta, k1)
       /\ @fcn lib theta x12 k1 = (Ok o, k2)
       /\ @shape lib o = [1; 1]%nat.
Proof.
  split; [exact real_batch_shapes|]. split; [exact k_defined_jnp|].
  split; [exact k_defined_rng|].
  exact (@fcn_accepts_init_random_params lib [2; 20; 1]%nat 1 2 1 0 (quiet 0)
           x12 k_defined real_batch_shapes k_defined_jnp k_defined_rng
           ltac:(cbn; lia) eq_refl eq_refl eq_refl).
Defined.

(** *** The images of the KL notebook *)

Lemma cell_layout_agrees_with_i_shape_witness :
  (exists tr te,
     @cell_layout lib "channels_first" 1 1 tiny_images
       = (None, Images tr te (Some [3; 1; 1]%nat))
     /\ @shape lib tr = [2; 3; 1; 1]%nat /\ @shape lib te = [1; 3; 1; 1]%nat)
  /\ (exists tr te,
        @cell_layout lib "channels_last" 1 1 tiny_images
          = (None, Images tr te (Some [1; 1; 3]%nat))
        /\ @shape lib tr = [2; 1; 1; 3]%nat
        /\ @shape lib te = [1; 1; 1; 3]%nat).
Proof.
  split.
  - destruct (@cell_layout_agrees_with_i_shape lib "channels_first" 1 1 2 1
                [1; 1; 3]%nat [1; 1; 3]%nat tiny_images
                eq_refl eq_refl eq_refl eq_refl)
      as (tr & te & sh & E & S1 & S2 & ->).
    exists tr, te. split; [exact E|]. split; [exact S1 | exact S2].
  - destruct (@cell_layout_agrees_with_i_shape lib "channels_last" 1 1 2 1
                [1; 1; 3]%nat [1; 1; 3]%nat tiny_images
                eq_refl eq_refl eq_refl eq_refl)
      as (tr & te & sh & E & S1 & S2 & ->).
    exists tr, te. split; [exact E|]. split; [exact S1 | exact S2].
Defined.

End Concrete.
